(** * Storage-usage inspection scripts for a Swift object store

    A shallow embedding of the three scripts under [scripts/]:
    - [swift-inspector.py]      (module [SwiftInspector]),
    - [check-all-containers.py] (module [CheckAllContainers]),
    - [deep-swift-scan.py]      (module [DeepSwiftScan]),
    followed by the properties of enumeration, classification and
    reconciliation that hold of them.

    Conventions of the embedding.
    - Python [int] is [Z]; [len] is a [nat].  An [int] divided by an
      [int] is a float: the division raises [OverflowError] when the
      quotient is beyond the range of a float, and the float itself is
      kept as the numerator and the denominator it came from.
    - [int(text)] refuses a text of more than 4300 digits, the default
      of CPython since 3.11 ([sys.int_info.default_max_str_digits]),
      which the scripts leave as it is.  An [int] shown as text is taken
      to be shown whatever its size.
    - A [str] is a [string]: a sequence of code points below 256.  A
      name or a header with a character beyond that range is outside the
      embedding; among the code points below 256 the decimal digits are
      ['0'] .. ['9'].
    - A listing entry (a JSON object with the keys [name], [bytes],
      [last_modified] and optionally [hash]) is a record.
    - A [dict] whose iteration order is observable is an association list
      in insertion order.
    - The Swift connection is external.  Every operation on it is a state
      transformer on an abstract session/backend state that answers with
      a value or with an exception.
    - [print] appends a line to the output.  A line is the text of the
      (f-)string with every replacement field left as a hole, together
      with the values that fill the holes.  The fields of an f-string
      are evaluated from left to right before anything is printed.  A
      leading ["\n"] in the printed text is the empty line before it. *)

From Stdlib Require Import ZArith List String Ascii Bool Lia Arith.
From Stdlib Require Import DecimalString.
From Stdlib Require Import Sorted OrderedTypeEx.
From ExtLib Require Import Structures.Monad.
Import ListNotations.
Import MonadNotation.
Local Open Scope string_scope.
Local Open Scope Z_scope.
Local Open Scope list_scope.
Local Open Scope monad_scope.

(** ** Python built-ins used by the scripts *)

Module Py.

(** [s.split(sep)] for a one-character separator: always at least one
    segment. *)
Fixpoint split (sep : ascii) (s : string) : list string :=
  match s with
  | EmptyString => [EmptyString]
  | String c s' =>
      if Ascii.eqb c sep then EmptyString :: split sep s'
      else match split sep s' with
           | [] => [String c EmptyString]
           | p :: ps => String c p :: ps
           end
  end.

(** [sum(xs)] over integers. *)
Definition sum (xs : list Z) : Z := fold_left Z.add xs 0.

(** The decimal digits among the code points below 256: ['0'] .. ['9'].
    (Beyond that range Python knows more decimal digits, which [\d] and
    [int] accept as well.) *)
Definition is_digit (c : ascii) : bool :=
  let n := nat_of_ascii c in (48 <=? n)%nat && (n <=? 57)%nat.

Definition digit_value (c : ascii) : Z := Z.of_nat (nat_of_ascii c) - 48.

(** *** [int(text)]

    The text is a number when it is, between blanks, an optional sign
    and digits, with single underscores allowed between digits. *)

(** The blanks [int] skips: tab, newline, vertical tab, form feed,
    carriage return and space, and beyond ASCII the spaces U+0085 and
    U+00A0.  (The separators U+001C .. U+001F, which [str.strip] removes,
    are not among them.) *)
Definition is_int_space (c : ascii) : bool :=
  let n := nat_of_ascii c in
  ((9 <=? n) && (n <=? 13) || Nat.eqb n 32 || Nat.eqb n 133 || Nat.eqb n 160)%nat.

Fixpoint skip_space (s : string) : string :=
  match s with
  | EmptyString => EmptyString
  | String c s' => if is_int_space c then skip_space s' else s
  end.

(** The digits and underscores at the start of [s]: the value read so
    far, the number of digits, and the rest of the text.  [None] when an
    underscore follows an underscore or ends the digits. *)
Fixpoint scan_digits (s : string) (after_underscore : bool)
    (value : Z) (digits : nat) : option (Z * nat * string) :=
  match s with
  | EmptyString => if after_underscore then None else Some (value, digits, s)
  | String c s' =>
      if is_digit c then
        scan_digits s' false (10 * value + digit_value c) (S digits)
      else if Ascii.eqb c "_" then
        if after_underscore then None else scan_digits s' true value digits
      else if after_underscore then None
      else Some (value, digits, s)
  end.

(** [sys.int_info.default_max_str_digits] *)
Definition max_str_digits : nat := 4300.

Inductive int_result : Type :=
| IntValue (z : Z)
| TooManyDigits (digits : nat)
| InvalidLiteral.

(** The steps of [int(text)] in CPython's order: blanks, sign, no
    underscore first, the digits, the limit on their number, at least
    one digit, blanks, the end of the text. *)
Definition parse_int (text : string) : int_result :=
  let s := skip_space text in
  let '(negative, s) :=
    match s with
    | String "-" t => (true, t)
    | String "+" t => (false, t)
    | _ => (false, s)
    end in
  match s with
  | String "_" _ => InvalidLiteral
  | _ =>
      match scan_digits s false 0 0 with
      | None => InvalidLiteral
      | Some (value, digits, rest) =>
          if (max_str_digits <? digits)%nat then TooManyDigits digits
          else if Nat.eqb digits 0 then InvalidLiteral
          else match skip_space rest with
               | EmptyString => IntValue (if negative then - value else value)
               | String _ _ => InvalidLiteral
               end
      end
  end.

(** [int(text)]; [None] is [ValueError]. *)
Definition int (text : string) : option Z :=
  match parse_int text with
  | IntValue z => Some z
  | _ => None
  end.

(** [repr(s)] for code points below 256.  The text is quoted with
    apostrophes, or with double quotes when it holds an apostrophe and no
    double quote; a backslash, the quote in use, and what cannot be
    printed are escaped. *)
Definition double_quote : ascii := ascii_of_nat 34.

Definition hex_digit (n : nat) : ascii :=
  ascii_of_nat (if (n <? 10)%nat then 48 + n else 87 + n).

Definition is_printable (c : ascii) : bool :=
  let n := nat_of_ascii c in
  ((32 <=? n) && (n <=? 126) || (161 <=? n) && negb (Nat.eqb n 173))%nat.

Definition repr_char (quote c : ascii) : string :=
  let n := nat_of_ascii c in
  if Ascii.eqb c "\" then "\\"
  else if Ascii.eqb c quote then String "\" (String c EmptyString)
  else if Nat.eqb n 9 then "\t"
  else if Nat.eqb n 10 then "\n"
  else if Nat.eqb n 13 then "\r"
  else if is_printable c then String c EmptyString
  else String "\" (String "x"
         (String (hex_digit (n / 16)) (String (hex_digit (n mod 16)) EmptyString))).

Fixpoint has_char (c : ascii) (s : string) : bool :=
  match s with
  | EmptyString => false
  | String d s' => Ascii.eqb c d || has_char c s'
  end.

Fixpoint repr_chars (quote : ascii) (s : string) : string :=
  match s with
  | EmptyString => String quote EmptyString
  | String c s' => (repr_char quote c ++ repr_chars quote s')%string
  end.

Definition repr (s : string) : string :=
  let quote :=
    if has_char "'" s && negb (has_char double_quote s) then double_quote
    else "'"%char in
  String quote (repr_chars quote s).

(** [str(n)] for a count. *)
Definition str_of_nat (n : nat) : string :=
  NilEmpty.string_of_uint (Nat.to_uint n).

(** The message of the [ValueError] that [int(text)] raises: the limit
    on the digits, or the text as [%.200R] shows it. *)
Definition int_error (text : string) : string :=
  match parse_int text with
  | TooManyDigits digits =>
      ("Exceeds the limit (4300 digits) for integer string conversion: value has "
       ++ str_of_nat digits
       ++ " digits; use sys.set_int_max_str_digits() to increase the limit")%string
  | _ =>
      ("invalid literal for int() with base 10: "
       ++ String.substring 0 200 (repr text))%string
  end.

(** *** [num / den] on integers

    The quotient is rounded to the nearest float, and [OverflowError] is
    raised when that is beyond the largest float, [2^1024 - 2^971]: from
    the magnitude [2^1024 - 2^970] on, which is halfway to [2^1024].  The
    divisors of the scripts are positive. *)
Definition float_limit : Z := Eval vm_compute in (2 ^ 1024 - 2 ^ 970).

Definition overflows (num den : Z) : bool := float_limit * den <=? Z.abs num.

(** *** The fragment of [re] the scripts use *)

Inductive atom : Type :=
| Bol                 (* ^       *)
| Eol                 (* $       *)
| Digits (n : nat)    (* \d{n}   *)
| Lit (c : ascii).    (* a literal character *)

Definition newline : ascii := ascii_of_nat 10.

(** Consume [n] digits. *)
Fixpoint eat_digits (n : nat) (s : string) : option string :=
  match n with
  | O => Some s
  | S n' =>
      match s with
      | String c s' => if is_digit c then eat_digits n' s' else None
      | EmptyString => None
      end
  end.

(** [match_here p at_start s]: the pattern [p] matches a prefix of the
    remaining text [s]; [at_start] tells whether nothing has been
    consumed yet.  Without [re.MULTILINE], [^] matches at the start of
    the text only and [$] matches at the end of the text or just before
    a newline that ends the text. *)
Fixpoint match_here (p : list atom) (at_start : bool) (s : string) : bool :=
  match p with
  | [] => true
  | Bol :: p' => at_start && match_here p' at_start s
  | Eol :: p' =>
      match s with
      | EmptyString => match_here p' at_start s
      | String c EmptyString =>
          Ascii.eqb c newline && match_here p' at_start s
      | _ => false
      end
  | Digits n :: p' =>
      match eat_digits n s with
      | Some rest => match_here p' (at_start && Nat.eqb n 0) rest
      | None => false
      end
  | Lit c :: p' =>
      match s with
      | String d rest => Ascii.eqb c d && match_here p' false rest
      | EmptyString => false
      end
  end.

(** [re.match(p, s)] as a truth value: the match is anchored at the
    start of [s]. *)
Definition re_match (p : list atom) (s : string) : bool :=
  match_here p true s.

End Py.

(** ** Data exchanged with the Swift connection *)

(** An entry of an object listing. *)
Module Obj.
Record t : Type := mk {
  name : string;
  bytes : Z;
  last_modified : string;
  hash : option string
}.
End Obj.

(** An entry of the account's container listing. *)
Module Container.
Record t : Type := mk {
  name : string;
  count : Z;
  bytes : Z
}.
End Container.

(** Response headers: header name to header text. *)
Definition Headers : Type := list (string * string).

Fixpoint lookup {V : Type} (k : string) (d : list (string * V)) : option V :=
  match d with
  | [] => None
  | (k', v) :: d' => if String.eqb k k' then Some v else lookup k d'
  end.

(** The exceptions the scripts tell apart: [swiftclient]'s
    [ClientException], and any other subclass of [Exception].  Both carry
    the text shown by [str(e)]. *)
Inductive exn : Type :=
| ClientException (msg : string)
| Exception (msg : string).

Definition message (e : exn) : string :=
  match e with ClientException m => m | Exception m => m end.

Definition is_ClientException (e : exn) : bool :=
  match e with ClientException _ => true | Exception _ => false end.

(** The [OverflowError] of a division: an [Exception] that is no
    [ClientException]. *)
Definition OverflowError : exn :=
  Exception "integer division result too large for a float".

(** ** Output *)

Inductive arg : Type :=
| Int (z : Z)                (* an integer *)
| Str (s : string)           (* a string *)
| Hdr (h : option string)    (* a header text or [None] *)
| Quot (num den : Z).        (* the float [num / den] *)

Record Line : Type := Print { template : string; args : list arg }.

Definition text (s : string) : Line := Print s [].

(** ["=" * 60], ["-" * 80] and the like. *)
Fixpoint repeat_char (c : ascii) (n : nat) : string :=
  match n with
  | O => EmptyString
  | S n' => String c (repeat_char c n')
  end.

Definition MiB : Z := 1024 * 1024.
Definition GiB : Z := 1024 * 1024 * 1024.

(** ** Computations that talk to the connection and print

    A computation runs from a backend state and ends in one of three
    ways: it returns, it lets an exception propagate, or its loop is
    still going round when the iteration budget is spent.  In each case
    it has printed some lines and left the backend in some state. *)

Inductive result (A : Type) : Type :=
| Ret (a : A)
| Exc (e : exn)
| Spin.

Arguments Ret {A} a.
Arguments Exc {A} e.
Arguments Spin {A}.

Definition M (S A : Type) : Type := S -> result A * list Line * S.

Definition M_ret {S A : Type} (a : A) : M S A := fun s => (Ret a, [], s).

Definition M_bind {S A B : Type} (m : M S A) (k : A -> M S B) : M S B :=
  fun s =>
    match m s with
    | (Ret a, out, s1) =>
        let '(r, out', s2) := k a s1 in (r, out ++ out', s2)
    | (Exc e, out, s1) => (Exc e, out, s1)
    | (Spin, out, s1) => (Spin, out, s1)
    end.

#[export] Instance Monad_M (S : Type) : Monad (M S) :=
  {| ret := @M_ret S; bind := @M_bind S |}.

Definition print {S : Type} (l : Line) : M S unit := fun s => (Ret tt, [l], s).

Definition raise {S A : Type} (e : exn) : M S A := fun s => (Exc e, [], s).

(** A request to the connection. *)
Definition call {S A : Type} (op : S -> (exn + A) * S) : M S A :=
  fun s =>
    match op s with
    | (inl e, s') => (Exc e, [], s')
    | (inr a, s') => (Ret a, [], s')
    end.

(** [try: body  except <class> as e: handler e]; [handles] tells which
    exceptions the clause catches. *)
Definition try_except {S A : Type}
    (body : M S A) (handles : exn -> bool) (handler : exn -> M S A) : M S A :=
  fun s =>
    match body s with
    | (Exc e, out, s1) =>
        if handles e
        then let '(r, out', s2) := handler e s1 in (r, out ++ out', s2)
        else (Exc e, out, s1)
    | other => other
    end.

(** [except Exception] *)
Definition any_Exception (e : exn) : bool := true.

(** [for x in xs: body x] *)
Fixpoint for_each {S A : Type} (xs : list A) (body : A -> M S unit) : M S unit :=
  match xs with
  | [] => ret tt
  | x :: xs' => body x ;; for_each xs' body
  end.

(** The keyword arguments of [get_container(name, marker=, limit=,
    prefix=, full_listing=)] that the modelled requests set. *)
Record Query : Type := mkQuery {
  marker : option string;
  limit : option Z;
  prefix : option string;
  full_listing : bool
}.

(** [int(info.get(key, 0))]: the header read as an integer, [0] when it
    is absent, [ValueError] (an [Exception]) when its text is not a
    number. *)
Definition int_header {S : Type} (key : string) (info : Headers) : M S Z :=
  match lookup key info with
  | None => ret 0
  | Some txt =>
      match Py.int txt with
      | Some z => ret z
      | None => raise (Exception (Py.int_error txt))
      end
  end.

(** [num / den], to be shown as a float. *)
Definition true_div {S : Type} (num den : Z) : M S arg :=
  if Py.overflows num den then raise OverflowError else ret (Quot num den).

(** ** [scripts/swift-inspector.py]: class [SwiftInspector] *)

Module SwiftInspector.

(** The value stored per backup directory by
    [analyze_backup_directories]. *)
Record Entry : Type := mkEntry {
  objects : Z;
  total_size : Z;
  files : list Obj.t
}.

(** [d[k] = v] on a [dict]: an existing key keeps its place, a new key
    goes last. *)
Fixpoint dict_set {V : Type} (k : string) (v : V) (d : list (string * V))
  : list (string * V) :=
  match d with
  | [] => [(k, v)]
  | (k', v') :: d' =>
      if String.eqb k k' then (k, v) :: d' else (k', v') :: dict_set k v d'
  end.

(** [k in d] *)
Definition contains {V : Type} (k : string) (d : list (string * V)) : bool :=
  match lookup k d with Some _ => true | None => false end.

(** [r'^\d{8}_\d{6}$'] *)
Definition timestamp_re : list Py.atom :=
  [Py.Bol; Py.Digits 8; Py.Lit "_"; Py.Digits 6; Py.Eol].

(** Lines 244-246: the backup directory an object name is filed under,
    if any.
    [parts = obj['name'].split('/')]
    [if len(parts) >= 2 and re.match(r'^\d{8}_\d{6}$', parts[0]): backup_dir = parts[0]] *)
Definition backup_dir_of (name : string) : option string :=
  let parts := Py.split "/" name in
  match parts with
  | part0 :: _ =>
      if (2 <=? List.length parts)%nat && Py.re_match timestamp_re part0
      then Some part0
      else None
  | [] => None
  end.

(** Lines 242-249, one round of the loop over the listing. *)
Definition group_step (backup_dirs : list (string * list Obj.t)) (obj : Obj.t)
  : list (string * list Obj.t) :=
  match backup_dir_of (Obj.name obj) with
  | Some backup_dir =>
      let backup_dirs :=
        if contains backup_dir backup_dirs then backup_dirs
        else dict_set backup_dir [] backup_dirs in
      match lookup backup_dir backup_dirs with
      | Some members => dict_set backup_dir (members ++ [obj]) backup_dirs
      | None => backup_dirs
      end
  | None => backup_dirs
  end.

(** Lines 241-249. *)
Definition group_by_backup_dir (objects : list Obj.t)
  : list (string * list Obj.t) :=
  fold_left group_step objects [].

(** Lines 254 and 266-270: the entry of one backup directory. *)
Definition entry_of (objects : list Obj.t) : Entry :=
  {| objects := Z.of_nat (List.length objects);
     total_size := Py.sum (map Obj.bytes objects);
     files := objects |}.

Section Inspector.
Context {St : Type}.

(** The operations of [self.swift_conn].  The two listings are reduced
    to the second component of the pair they return; the script never
    reads the first. *)
Variable head_account : St -> (exn + Headers) * St.
Variable head_container : string -> St -> (exn + Headers) * St.
Variable get_container : string -> Query -> St -> (exn + list Obj.t) * St.
Variable get_account : St -> (exn + list Container.t) * St.

(** [self.container_name] *)
Variable container_name : string.

(** [print("\n" + "="*60); print(title); print("="*60)] *)
Definition banner (title : string) : M St unit :=
  print (text "") ;;
  print (text (repeat_char "=" 60)) ;;
  print (text title) ;;
  print (text (repeat_char "=" 60)).

(** Lines 183-196, the [while True] loop, with the page limit and the
    [full_listing] flag of the request left as parameters.  The
    script's values are [1000] and [True]. *)
Fixpoint list_loop (page_limit : Z) (full : bool) (fuel : nat)
    (all_objects : list Obj.t) (marker : option string)
  : M St (list Obj.t) :=
  match fuel with
  | O => fun s => (Spin, [], s)
  | S fuel' =>
      objects <- call (get_container container_name
                         (mkQuery marker (Some page_limit) None full)) ;;
      match objects with
      | [] => ret all_objects
      | first :: rest =>
          list_loop page_limit full fuel'
            (all_objects ++ objects)
            (Some (Obj.name (last rest first)))
      end
  end.

(** Lines 206-209: the detailed listing, which also adds up the
    sizes. *)
Fixpoint details_loop (objs : list Obj.t) (total_size : Z) : M St Z :=
  match objs with
  | [] => ret total_size
  | obj :: objs' =>
      size_mb <- true_div (Obj.bytes obj) MiB ;;
      print (Print "{:<40} {:>8.2f} MB {:<20} {:<32}"
               [Str (Obj.name obj); size_mb;
                Str (Obj.last_modified obj);
                Str (match Obj.hash obj with Some h => h | None => "N/A" end)]) ;;
      details_loop objs' (total_size + Obj.bytes obj)
  end.

(** Lines 172-223. *)
Definition list_all_objects_with (page_limit : Z) (full : bool)
    (fuel : nat) (show_details : bool) : M St (list Obj.t) :=
  banner "ALL OBJECTS IN CONTAINER" ;;
  try_except
    (all_objects <- list_loop page_limit full fuel [] None ;;
     print (Print "Found {} objects" [Int (Z.of_nat (List.length all_objects))]) ;;
     total_size <-
       (if show_details then
          print (text "") ;;
          print (text "Detailed object listing:") ;;
          print (text (repeat_char "-" 80)) ;;
          print (Print "{:<40} {:<12} {:<20} {:<32}"
                   [Str "Name"; Str "Size"; Str "Last Modified"; Str "ETag"]) ;;
          print (text (repeat_char "-" 80)) ;;
          details_loop all_objects 0
        else
          ret (Py.sum (map Obj.bytes all_objects))) ;;
     total_mb <- true_div total_size MiB ;;
     total_gb <- true_div total_size GiB ;;
     print (text "") ;;
     print (Print "Total calculated size: {:,} bytes ({:.2f} MB / {:.2f} GB)"
              [Int total_size; total_mb; total_gb]) ;;
     ret all_objects)
    is_ClientException
    (fun e =>
       print (Print "ERROR: Failed to list objects: {}" [Str (message e)]) ;;
       ret []).

Definition list_all_objects : nat -> bool -> M St (list Obj.t) :=
  list_all_objects_with 1000 true.

(** Lines 253-270: the loop over [backup_dirs.items()]. *)
Fixpoint summarize (items : list (string * list Obj.t))
    (backup_analysis : list (string * Entry))
  : M St (list (string * Entry)) :=
  match items with
  | [] => ret backup_analysis
  | (backup_dir, objects) :: items' =>
      let total_size := Py.sum (map Obj.bytes objects) in
      size_mb <- true_div total_size MiB ;;
      print (text "") ;;
      print (Print "{}:" [Str backup_dir]) ;;
      print (Print "  Objects: {}" [Int (Z.of_nat (List.length objects))]) ;;
      print (Print "  Size: {:.2f} MB" [size_mb]) ;;
      print (text "  Files:") ;;
      for_each objects (fun obj =>
        obj_size_mb <- true_div (Obj.bytes obj) MiB ;;
        print (Print "    {:<50} {:>8.2f} MB" [Str (Obj.name obj); obj_size_mb])) ;;
      summarize items' (dict_set backup_dir (entry_of objects) backup_analysis)
  end.

(** Lines 225-276. *)
Definition analyze_backup_directories : M St (list (string * Entry)) :=
  banner "BACKUP DIRECTORIES ANALYSIS" ;;
  try_except
    (objects <- call (get_container container_name
                        (mkQuery None None None true)) ;;
     let backup_dirs := group_by_backup_dir objects in
     print (Print "Found {} backup directories:"
              [Int (Z.of_nat (List.length backup_dirs))]) ;;
     summarize backup_dirs [])
    is_ClientException
    (fun e =>
       print (Print "ERROR: Failed to analyze backup directories: {}"
                [Str (message e)]) ;;
       ret []).

(** Lines 321-329: the other containers of the account. *)
Definition other_containers : M St unit :=
  containers <- call get_account ;;
  if (1 <? List.length containers)%nat then
    print (text "") ;;
    print (Print "⚠ Found {} containers in account:"
             [Int (Z.of_nat (List.length containers))]) ;;
    for_each containers (fun container =>
      let name := Container.name container in
      let size := Container.bytes container in
      let count := Container.count container in
      size_gb <- true_div size GiB ;;
      print (Print "  {}: {} objects, {:,} bytes ({:.3f} GB)"
               [Str name; Int count; Int size; size_gb]))
  else ret tt.

(** Lines 278-332. *)
Definition check_for_hidden_data : M St unit :=
  banner "HIDDEN DATA INVESTIGATION" ;;
  try_except
    (account_info <- call head_account ;;
     account_bytes <- int_header "x-account-bytes-used" account_info ;;
     container_info <- call (head_container container_name) ;;
     container_bytes <- int_header "x-container-bytes-used" container_info ;;
     objects <- call (get_container container_name
                        (mkQuery None None None true)) ;;
     let object_bytes := Py.sum (map Obj.bytes objects) in
     account_gb <- true_div account_bytes GiB ;;
     print (Print "Account total bytes: {:,} ({:.3f} GB)"
              [Int account_bytes; account_gb]) ;;
     container_gb <- true_div container_bytes GiB ;;
     print (Print "Container bytes: {:,} ({:.3f} GB)"
              [Int container_bytes; container_gb]) ;;
     object_gb <- true_div object_bytes GiB ;;
     print (Print "Object sum bytes: {:,} ({:.3f} GB)"
              [Int object_bytes; object_gb]) ;;
     let container_vs_objects := container_bytes - object_bytes in
     let account_vs_container := account_bytes - container_bytes in
     print (text "") ;;
     print (text "Discrepancy analysis:") ;;
     print (Print "Container vs Objects: {:,} bytes" [Int container_vs_objects]) ;;
     print (Print "Account vs Container: {:,} bytes" [Int account_vs_container]) ;;
     (if container_vs_objects >? 0 then
        print (Print "⚠ Container reports {:,} more bytes than object sum"
                 [Int container_vs_objects]) ;;
        print (text "  This could indicate:") ;;
        print (text "  - Object versioning or snapshots") ;;
        print (text "  - Soft-deleted objects") ;;
        print (text "  - Metadata overhead") ;;
        print (text "  - Swift storage allocation overhead")
      else ret tt) ;;
     (if account_vs_container >? 0 then
        print (Print "⚠ Account reports {:,} more bytes than this container"
                 [Int account_vs_container]) ;;
        print (text "  This could indicate other containers or account metadata")
      else ret tt) ;;
     other_containers)
    any_Exception
    (fun e =>
       print (Print "ERROR during hidden data investigation: {}"
                [Str (message e)])).

End Inspector.

End SwiftInspector.

(** ** [scripts/check-all-containers.py] *)

Module CheckAllContainers.

Section Script.
Context {St : Type}.

(** The operations of [conn]. *)
Variable head_account : St -> (exn + Headers) * St.
Variable head_container : string -> St -> (exn + Headers) * St.
Variable get_container : string -> Query -> St -> (exn + list Obj.t) * St.
Variable get_account : St -> (exn + list Container.t) * St.

(** Lines 77-79 and 83-85. *)
Definition show_objects (objects : list Obj.t) : M St unit :=
  for_each objects (fun obj =>
    obj_size_mb <- true_div (Obj.bytes obj) MiB ;;
    print (Print "    {:<50} {:>8.2f} MB  {}"
             [Str (Obj.name obj); obj_size_mb; Str (Obj.last_modified obj)])).

(** Lines 69-89: the details of one container. *)
Definition container_details (name : string) (count : Z) : M St unit :=
  try_except
    (container_info <- call (head_container name) ;;
     print (Print "  Last modified: {}"
              [Str (match lookup "last-modified" container_info with
                    | Some t => t
                    | None => "unknown"
                    end)]) ;;
     if (count >? 0) && (count <=? 20) then
       objects <- call (get_container name (mkQuery None (Some 20) None false)) ;;
       print (text "  Objects:") ;;
       show_objects objects
     else if count >? 20 then
       objects <- call (get_container name (mkQuery None (Some 5) None false)) ;;
       print (text "  First 5 objects:") ;;
       show_objects objects ;;
       print (Print "    ... and {} more objects" [Int (count - 5)])
     else ret tt)
    any_Exception
    (fun e => print (Print "  ERROR getting container details: {}" [Str (message e)])).

(** Lines 55-89: the loop over the containers, adding up their
    sizes.  The size in GB is computed (line 61) before anything is
    printed for the container. *)
Fixpoint containers_loop (containers : list Container.t)
    (total_account_size : Z) : M St Z :=
  match containers with
  | [] => ret total_account_size
  | container :: containers' =>
      let name := Container.name container in
      let count := Container.count container in
      let size := Container.bytes container in
      size_gb <- true_div size GiB ;;
      let total_account_size := total_account_size + size in
      print (text "") ;;
      print (Print "Container: {}" [Str name]) ;;
      print (Print "  Objects: {}" [Int count]) ;;
      print (Print "  Size: {:,} bytes ({:.3f} GB)" [Int size; size_gb]) ;;
      container_details name count ;;
      containers_loop containers' total_account_size
  end.

(** Lines 95-99: the verdict on the two totals. *)
Definition verdict (total_account_size reported_size : Z) : M St unit :=
  if Z.abs (total_account_size - reported_size) >? 1000 then
    let diff := reported_size - total_account_size in
    diff_gb <- true_div diff GiB ;;
    print (Print "⚠ Difference: {:,} bytes ({:.3f} GB)" [Int diff; diff_gb])
  else
    print (text "✓ Sizes match!").

(** Lines 39-99, from the connection on. *)
Definition check_all_containers : M St unit :=
  print (text (repeat_char "=" 80)) ;;
  print (text "ALL CONTAINERS IN SWIFT ACCOUNT") ;;
  print (text (repeat_char "=" 80)) ;;
  account_info <- call head_account ;;
  print (Print "Account total containers: {}"
           [Hdr (lookup "x-account-container-count" account_info)]) ;;
  print (Print "Account total objects: {}"
           [Hdr (lookup "x-account-object-count" account_info)]) ;;
  bytes_used <- int_header "x-account-bytes-used" account_info ;;
  bytes_used_gb <- true_div bytes_used GiB ;;
  print (Print "Account total bytes: {} ({:.3f} GB)"
           [Hdr (lookup "x-account-bytes-used" account_info); bytes_used_gb]) ;;
  containers <- call get_account ;;
  print (text "") ;;
  print (Print "Found {} containers:" [Int (Z.of_nat (List.length containers))]) ;;
  print (text (repeat_char "-" 80)) ;;
  total_account_size <- containers_loop containers 0 ;;
  total_gb <- true_div total_account_size GiB ;;
  print (text "") ;;
  print (Print "Calculated total size: {:,} bytes ({:.3f} GB)"
           [Int total_account_size; total_gb]) ;;
  reported_size <- int_header "x-account-bytes-used" account_info ;;
  reported_gb <- true_div reported_size GiB ;;
  print (Print "Account reported size: {:,} bytes ({:.3f} GB)"
           [Int reported_size; reported_gb]) ;;
  verdict total_account_size reported_size.

End Script.

End CheckAllContainers.

(** ** [scripts/deep-swift-scan.py] *)

Module DeepSwiftScan.

(** Line 103. *)
Definition prefixes_to_try : list string :=
  [""; "20"; "."; "_"; "backup"; "old"; "tmp"].

Section Script.
Context {St : Type}.

(** [conn.get_container] *)
Variable get_container : string -> Query -> St -> (exn + list Obj.t) * St.

Variable container_name : string.

(** Lines 106-119: one round of the loop over the prefixes. *)
Definition probe (prefix : string) : M St unit :=
  try_except
    (objects <- call (get_container container_name
                        (mkQuery None None (Some prefix) true)) ;;
     match objects with
     | [] => ret tt
     | _ :: _ =>
         print (Print "     Prefix '{}': {} objects"
                  [Str prefix; Int (Z.of_nat (List.length objects))]) ;;
         for_each (firstn 3 objects) (fun obj =>
           print (Print "       {}" [Str (Obj.name obj)])) ;;
         if (3 <? List.length objects)%nat then
           print (Print "       ... and {} more"
                    [Int (Z.of_nat (List.length objects) - 3)])
         else ret tt
     end)
    any_Exception
    (fun e => print (Print "     Prefix '{}' ERROR: {}" [Str prefix; Str (message e)])).

(** Lines 105-119 for a given list of prefixes. *)
Definition probe_all (prefixes : list string) : M St unit :=
  for_each prefixes probe.

(** Lines 101-119 of [deep_container_scan]. *)
Definition listing_with_various_prefixes : M St unit :=
  print (text "") ;;
  print (text "  c) Listing with various prefixes:") ;;
  probe_all prefixes_to_try.

End Script.

End DeepSwiftScan.

(** ** A well-behaved container

    Modelled from the spec: the listing operation of the Storage Client
    Adapter, which the scripts consume and do not implement.  A container
    is its objects in ascending order of name; the backend state is the
    container, which a listing leaves as it is.  A listing answers with
    the objects whose name lies strictly after the marker and starts with
    the prefix, in order: all of them when the client library is asked for
    a full listing (it follows the markers itself), at most [limit] of
    them otherwise. *)

Module Backend.

Definition after (marker : option string) (o : Obj.t) : bool :=
  match marker with
  | None => true
  | Some m => String.ltb m (Obj.name o)
  end.

Definition has_prefix (p : option string) (o : Obj.t) : bool :=
  match p with
  | None => true
  | Some p => String.prefix p (Obj.name o)
  end.

Definition page (store : list Obj.t) (q : Query) : list Obj.t :=
  let matching :=
    filter (fun o => after (marker q) o && has_prefix (prefix q) o) store in
  if full_listing q then matching
  else match limit q with
       | Some n => firstn (Z.to_nat n) matching
       | None => matching
       end.

Definition get_container (name : string) (q : Query) (store : list Obj.t)
  : (exn + list Obj.t) * list Obj.t :=
  (inr (page store q), store).

(** The cursor after the objects [done] have been received. *)
Definition cursor (done : list Obj.t) : option string :=
  match done with
  | [] => None
  | first :: rest => Some (Obj.name (last rest first))
  end.

(** A container is listed in strictly ascending order of name. *)
Definition ascending (store : list Obj.t) : Prop :=
  StronglySorted (fun a b => String.ltb (Obj.name a) (Obj.name b) = true) store.

End Backend.


(** ** More of Python's [str] *)

Module PyStr.

(** [c.isspace()] for a code point below 256. *)
Definition is_space (c : ascii) : bool :=
  let n := nat_of_ascii c in
  ((9 <=? n) && (n <=? 13) || (28 <=? n) && (n <=? 32)
   || Nat.eqb n 133 || Nat.eqb n 160)%nat.

(** [s.lstrip()], [s.rstrip()], [s.strip()] *)
Fixpoint lstrip (s : string) : string :=
  match s with
  | EmptyString => EmptyString
  | String c s' => if is_space c then lstrip s' else s
  end.

Fixpoint rstrip (s : string) : string :=
  match s with
  | EmptyString => EmptyString
  | String c s' =>
      match rstrip s' with
      | EmptyString => if is_space c then EmptyString else String c EmptyString
      | r => String c r
      end
  end.

Definition strip (s : string) : string := rstrip (lstrip s).

(** [s[n:]] *)
Fixpoint drop (n : nat) (s : string) : string :=
  match n, s with
  | O, _ => s
  | S n', String _ s' => drop n' s'
  | S _, EmptyString => EmptyString
  end.

(** [sub in s] *)
Fixpoint contains (sub s : string) : bool :=
  String.prefix sub s ||
  match s with
  | EmptyString => false
  | String _ s' => contains sub s'
  end.

(** [s.split(sep, 1)] when [sep] occurs in [s]: the text before the first
    occurrence and the text after it.  [None] when [sep] does not occur
    (Python then answers with the one-element list [[s]]). *)
Fixpoint split_once (sep s : string) : option (string * string) :=
  if String.prefix sep s then Some (EmptyString, drop (String.length sep) s)
  else match s with
       | EmptyString => None
       | String c s' =>
           match split_once sep s' with
           | Some (before, rest) => Some (String c before, rest)
           | None => None
           end
       end.

(** [s.endswith(suffix)] *)
Fixpoint endswith (s suffix : string) : bool :=
  String.eqb s suffix ||
  match s with
  | EmptyString => false
  | String _ s' => endswith s' suffix
  end.

(** [s.lower()] for code points below 256: ['A'..'Z'] and the accented
    capitals ['À'..'Þ'] other than ['×'] move up by 32. *)
Definition lower_char (c : ascii) : ascii :=
  let n := nat_of_ascii c in
  if ((65 <=? n) && (n <=? 90)
      || (192 <=? n) && (n <=? 222) && negb (Nat.eqb n 215))%nat
  then ascii_of_nat (n + 32)
  else c.

Fixpoint lower (s : string) : string :=
  match s with
  | EmptyString => EmptyString
  | String c s' => String (lower_char c) (lower s')
  end.

(** [sep.join(parts)] *)
Fixpoint join (sep : string) (parts : list string) : string :=
  match parts with
  | [] => EmptyString
  | [p] => p
  | p :: ps => (p ++ sep ++ join sep ps)%string
  end.

(** [d.get(k, default)] *)
Definition get (k default : string) (d : list (string * string)) : string :=
  match lookup k d with
  | Some v => v
  | None => default
  end.

End PyStr.

(** ** The rclone configuration, read the same way by the three scripts *)

Module Rclone.

(** The body of the loop over the lines:
    [if ' = ' in line: key, value = line.split(' = ', 1); config[key.strip()] = value.strip()] *)
Definition parse_line (config : list (string * string)) (line : string)
  : list (string * string) :=
  if PyStr.contains " = " line then
    match PyStr.split_once " = " line with
    | Some (key, value) =>
        SwiftInspector.dict_set (PyStr.strip key) (PyStr.strip value) config
    | None => config
    end
  else config.

(** [config_lines = result.stdout.strip().split('\n')] and the loop. *)
Definition parse_config (stdout : string) : list (string * string) :=
  fold_left parse_line (Py.split Py.newline (PyStr.strip stdout)) [].

Record OsOptions : Type := mkOsOptions {
  user_domain_name : string;
  project_domain_name : string;
  project_name : string;
  region_name : string
}.

Record AuthConfig : Type := mkAuthConfig {
  authurl : string;
  user : string;
  key : string;
  tenant_name : string;
  auth_version : string;
  os_options : OsOptions
}.

(** The mapping of the rclone keys to the Swift parameters. *)
Definition auth_config_of (config : list (string * string)) : AuthConfig :=
  {| authurl := PyStr.get "auth" "" config;
     user := PyStr.get "user" "" config;
     key := PyStr.get "key" "" config;
     tenant_name := PyStr.get "tenant" "" config;
     auth_version := "3";
     os_options :=
       {| user_domain_name := PyStr.get "domain" "default" config;
          project_domain_name := PyStr.get "tenant_domain" "default" config;
          project_name := PyStr.get "tenant" "" config;
          region_name := PyStr.get "region" "RegionOne" config |} |}.

(** [['rclone', 'config', 'show', 'swissbackup']] *)
Definition config_show : list string := ["rclone"; "config"; "show"; "swissbackup"].

End Rclone.

(** ** The outside world: processes and connections

    [subprocess.run(argv, capture_output=True, text=True, check=..., env=...)]
    answers with the standard output of the process, or raises:
    [CalledProcessError] (only with [check=True], for a non-zero exit
    status) or another exception.  The environment is the entries set on
    top of the inherited one.

    [swift_client.Connection( **auth_config)] is the operations of the
    connection it builds. *)

Inductive proc_exn : Type :=
| CalledProcessError (msg : string)
| OtherError (msg : string).

Definition proc_message (e : proc_exn) : string :=
  match e with CalledProcessError m => m | OtherError m => m end.

Definition Subprocess (St : Type) : Type :=
  list string -> list (string * string) -> bool -> St -> (proc_exn + string) * St.

Module Swift.
Record Conn (St : Type) : Type := mkConn {
  head_account : St -> (exn + Headers) * St;
  head_container : string -> St -> (exn + Headers) * St;
  get_container : string -> Query -> St -> (exn + list Obj.t) * St;
  (* [get_container(name, full_listing=True, query_string=qs)] *)
  get_container_query : string -> string -> St -> (exn + list Obj.t) * St;
  get_account : St -> (exn + list Container.t) * St
}.
Arguments head_account {St} _ _.
Arguments head_container {St} _ _ _.
Arguments get_container {St} _ _ _ _.
Arguments get_container_query {St} _ _ _ _.
Arguments get_account {St} _ _.
End Swift.

(** ** [scripts/swift-inspector.py]: the rest of class [SwiftInspector] *)

Module SwiftInspectorSession.

Section Session.
Context {St : Type}.
Variable subprocess_run : Subprocess St.
Variable Connection : Rclone.AuthConfig -> Swift.Conn St.

(** Lines 43-85.  The answer is the new [self.auth_config] when the
    method returns [True], and [None] when it returns [False] and leaves
    [self.auth_config] as it was. *)
Definition load_rclone_config : M St (option Rclone.AuthConfig) :=
  fun s =>
    match subprocess_run Rclone.config_show [] true s with
    | (inr stdout, s') =>
        let config := Rclone.parse_config stdout in
        let auth_config := Rclone.auth_config_of config in
        (Ret (Some auth_config),
         [Print "✓ Loaded rclone config for user: {}" [Str (Rclone.user auth_config)];
          Print "✓ Auth URL: {}" [Str (Rclone.authurl auth_config)];
          Print "✓ Project: {}" [Str (Rclone.tenant_name auth_config)]],
         s')
    | (inl (CalledProcessError m), s') =>
        (Ret None, [Print "ERROR: Failed to read rclone config: {}" [Str m]], s')
    | (inl (OtherError m), s') =>
        (Ret None, [Print "ERROR: Failed to parse rclone config: {}" [Str m]], s')
    end.

(** Lines 87-106, for the [self.auth_config] given. *)
Definition connect_swift (auth_config : Rclone.AuthConfig) : M St bool :=
  let swift_conn := Connection auth_config in
  try_except
    (account_info <- call (Swift.head_account swift_conn) ;;
     print (text "✓ Connected to Swift API successfully") ;;
     print (Print "✓ Account containers: {}"
              [Str (PyStr.get "x-account-container-count" "unknown" account_info)]) ;;
     print (Print "✓ Account objects: {}"
              [Str (PyStr.get "x-account-object-count" "unknown" account_info)]) ;;
     print (Print "✓ Account bytes used: {}"
              [Str (PyStr.get "x-account-bytes-used" "unknown" account_info)]) ;;
     ret true)
    any_Exception
    (fun e =>
       match e with
       | ClientException m =>
           print (Print "ERROR: Swift API connection failed: {}" [Str m]) ;;
           ret false
       | Exception m =>
           print (Print "ERROR: Unexpected error connecting to Swift: {}" [Str m]) ;;
           ret false
       end).

(** ["swissbackup:mattermost-backups"] *)
Definition remote : string := "swissbackup:mattermost-backups".

(** Lines 117-128 and 130-141: one of the two rclone reports, [what]
    being ["about"] or ["size"].  [blank] is the ["\n"] that starts the
    heading of the second.  The text that [print] is given is shown as
    the one value of a hole. *)
Definition rclone_report (what : string) (blank : bool)
    (rclone_data : list (string * string)) : M St (list (string * string)) :=
  fun s =>
    match subprocess_run ["rclone"; what; remote] [] false s with
    | (inr stdout, s') =>
        let rclone_data := SwiftInspector.dict_set what (PyStr.strip stdout) rclone_data in
        (Ret rclone_data,
         (if blank then [text ""] else [])
         ++ [text ("Rclone '" ++ what ++ "' output:");
             Print "{}" [Str (PyStr.strip stdout)]],
         s')
    | (inl e, s') =>
        (Ret rclone_data,
         [Print ("Failed to get rclone " ++ what ++ ": {}") [Str (proc_message e)]],
         s')
    end.

(** Lines 108-143. *)
Definition get_rclone_comparison : M St (list (string * string)) :=
  SwiftInspector.banner "RCLONE COMPARISON DATA" ;;
  rclone_data <- rclone_report "about" false [] ;;
  rclone_report "size" true rclone_data.

(** Lines 145-170. *)
Definition analyze_container (swift_conn : Swift.Conn St)
    (container_name : string) : M St Headers :=
  SwiftInspector.banner "SWIFT CONTAINER ANALYSIS" ;;
  try_except
    (container_info <- call (Swift.head_container swift_conn container_name) ;;
     print (Print "Container: {}" [Str container_name]) ;;
     print (Print "Objects: {}"
              [Str (PyStr.get "x-container-object-count" "unknown" container_info)]) ;;
     print (Print "Bytes used: {}"
              [Str (PyStr.get "x-container-bytes-used" "unknown" container_info)]) ;;
     print (Print "Last modified: {}"
              [Str (PyStr.get "last-modified" "unknown" container_info)]) ;;
     match lookup "x-versions-location" container_info with
     | Some location =>
         print (Print "⚠ Versioning enabled, versions stored in: {}" [Str location])
     | None => print (text "ℹ No versioning detected")
     end ;;
     ret container_info)
    is_ClientException
    (fun e =>
       print (Print "ERROR: Failed to get container info: {}" [Str (message e)]) ;;
       ret []).

(** Lines 352-366. *)
Definition summary : list Line :=
  [text ""; text (repeat_char "=" 60); text "INVESTIGATION SUMMARY";
   text (repeat_char "=" 60);
   text "This investigation compared multiple data sources:";
   text "1. rclone 'about' and 'size' commands";
   text "2. Swift API container metadata";
   text "3. Swift API object listing and sizes";
   text "4. Account-level storage statistics";
   text "";
   text "Common causes of storage discrepancies:";
   text "- Object versioning keeping old versions";
   text "- Soft-deleted objects in trash/recycle";
   text "- Swift block allocation overhead";
   text "- Hidden metadata or system objects";
   text "- Provider-specific backup/snapshot features"].

(** Lines 334-368.  [fuel] bounds the rounds of the listing loop. *)
Definition run_full_investigation (container_name : string) (fuel : nat)
  : M St bool :=
  print (text "SwiftBackup Storage Inspector") ;;
  print (text (repeat_char "=" 60)) ;;
  loaded <- load_rclone_config ;;
  match loaded with
  | None => ret false
  | Some auth_config =>
      connected <- connect_swift auth_config ;;
      if negb connected then ret false
      else
        let swift_conn := Connection auth_config in
        rclone_data <- get_rclone_comparison ;;
        container_info <- analyze_container swift_conn container_name ;;
        all_objects <- SwiftInspector.list_all_objects
                         (Swift.get_container swift_conn) container_name fuel true ;;
        backup_analysis <- SwiftInspector.analyze_backup_directories
                             (Swift.get_container swift_conn) container_name ;;
        SwiftInspector.check_for_hidden_data
          (Swift.head_account swift_conn) (Swift.head_container swift_conn)
          (Swift.get_container swift_conn) (Swift.get_account swift_conn)
          container_name ;;
        for_each summary print ;;
        ret true
  end.

(** Lines 371-391, after the arguments have been parsed: the exit
    status. *)
Definition main (details : bool) (container : string) (fuel : nat) : M St Z :=
  try_except
    (success <- run_full_investigation container fuel ;;
     ret (if success then 0 else 1))
    any_Exception
    (fun e =>
       print (text "") ;;
       print (Print "Unexpected error: {}" [Str (message e)]) ;;
       ret 1).

End Session.

End SwiftInspectorSession.

(** ** [scripts/check-all-containers.py]: the whole script *)

Module CheckAllContainersScript.

Section Script.
Context {St : Type}.
Variable subprocess_run : Subprocess St.
Variable Connection : Rclone.AuthConfig -> Swift.Conn St.

(** Lines 10-32: nothing is caught. *)
Definition load_rclone_auth : M St Rclone.AuthConfig :=
  fun s =>
    match subprocess_run Rclone.config_show [] true s with
    | (inr stdout, s') =>
        (Ret (Rclone.auth_config_of (Rclone.parse_config stdout)), [], s')
    | (inl e, s') => (Exc (Exception (proc_message e)), [], s')
    end.

(** Lines 35-99. *)
Definition check_all_containers : M St unit :=
  auth_config <- load_rclone_auth ;;
  let conn := Connection auth_config in
  CheckAllContainers.check_all_containers
    (Swift.head_account conn) (Swift.head_container conn)
    (Swift.get_container conn) (Swift.get_account conn).

End Script.

End CheckAllContainersScript.

(** ** [scripts/deep-swift-scan.py]: the whole script

    The local variable [objects] is bound by whichever listing succeeded
    last; it is threaded through the steps as an option, [None] while the
    name is not bound. *)

Module DeepContainerScan.

(** Line 127: the test of the list comprehension. *)
Definition is_version_container (c : Container.t) : bool :=
  PyStr.contains "version" (PyStr.lower (Container.name c))
  || PyStr.endswith (Container.name c) "_versions".

(** Lines 146-155: the entries set on the copy of the environment. *)
Definition swift_env (auth_config : Rclone.AuthConfig) : list (string * string) :=
  [("OS_AUTH_URL", Rclone.authurl auth_config);
   ("OS_USERNAME", Rclone.user auth_config);
   ("OS_PASSWORD", Rclone.key auth_config);
   ("OS_PROJECT_NAME", Rclone.tenant_name auth_config);
   ("OS_PROJECT_DOMAIN_NAME",
    Rclone.project_domain_name (Rclone.os_options auth_config));
   ("OS_USER_DOMAIN_NAME",
    Rclone.user_domain_name (Rclone.os_options auth_config));
   ("OS_REGION_NAME", Rclone.region_name (Rclone.os_options auth_config));
   ("OS_IDENTITY_API_VERSION", "3")].

(** [[l for l in lines if l.strip()]] *)
Definition non_blank (lines : list string) : list string :=
  filter (fun l => negb (String.eqb (PyStr.strip l) "")) lines.

Section Script.
Context {St : Type}.
Variable subprocess_run : Subprocess St.
Variable Connection : Rclone.AuthConfig -> Swift.Conn St.

(** Lines 16-50: [None] on any failure. *)
Definition load_rclone_auth : M St (option Rclone.AuthConfig) :=
  fun s =>
    match subprocess_run Rclone.config_show [] true s with
    | (inr stdout, s') =>
        (Ret (Some (Rclone.auth_config_of (Rclone.parse_config stdout))), [], s')
    | (inl e, s') =>
        (Ret None,
         [Print "ERROR: Failed to load rclone config: {}" [Str (proc_message e)]], s')
    end.

Variable conn : Swift.Conn St.
Variable container_name : string.

(** Lines 79-87. *)
Definition standard_listing (objects : option (list Obj.t))
  : M St (option (list Obj.t)) :=
  print (text "") ;;
  print (text "  a) Standard listing (full_listing=True):") ;;
  try_except
    (listing <- call (Swift.get_container conn container_name
                        (mkQuery None None None true)) ;;
     print (Print "     Found {} objects" [Int (Z.of_nat (List.length listing))]) ;;
     let total_size := Py.sum (map Obj.bytes listing) in
     print (Print "     Total size: {:,} bytes" [Int total_size]) ;;
     ret (Some listing))
    any_Exception
    (fun e => print (Print "     ERROR: {}" [Str (message e)]) ;; ret objects).

(** Lines 89-99. *)
Definition query_listing (objects : option (list Obj.t))
  : M St (option (list Obj.t)) :=
  print (text "") ;;
  print (text "  b) Listing with query parameters:") ;;
  try_except
    (listing <- call (Swift.get_container_query conn container_name "format=json") ;;
     print (Print "     Found {} objects with format=json"
              [Int (Z.of_nat (List.length listing))]) ;;
     ret (Some listing))
    any_Exception
    (fun e => print (Print "     ERROR: {}" [Str (message e)]) ;; ret objects).

(** Lines 106-119: one round of the loop over the prefixes, with the
    binding of [objects] it leaves. *)
Definition probe (prefix : string) (objects : option (list Obj.t))
  : M St (option (list Obj.t)) :=
  try_except
    (listing <- call (Swift.get_container conn container_name
                        (mkQuery None None (Some prefix) true)) ;;
     match listing with
     | [] => ret tt
     | _ :: _ =>
         print (Print "     Prefix '{}': {} objects"
                  [Str prefix; Int (Z.of_nat (List.length listing))]) ;;
         for_each (firstn 3 listing) (fun obj =>
           print (Print "       {}" [Str (Obj.name obj)])) ;;
         if (3 <? List.length listing)%nat then
           print (Print "       ... and {} more"
                    [Int (Z.of_nat (List.length listing) - 3)])
         else ret tt
     end ;;
     ret (Some listing))
    any_Exception
    (fun e =>
       print (Print "     Prefix '{}' ERROR: {}" [Str prefix; Str (message e)]) ;;
       ret objects).

Fixpoint probe_all (prefixes : list string) (objects : option (list Obj.t))
  : M St (option (list Obj.t)) :=
  match prefixes with
  | [] => ret objects
  | prefix :: prefixes' =>
      objects <- probe prefix objects ;;
      probe_all prefixes' objects
  end.

(** Lines 101-119. *)
Definition prefix_listings (objects : option (list Obj.t))
  : M St (option (list Obj.t)) :=
  print (text "") ;;
  print (text "  c) Listing with various prefixes:") ;;
  probe_all DeepSwiftScan.prefixes_to_try objects.

(** Lines 130-135: the loop over the version containers. *)
Fixpoint version_loop (version_containers : list Container.t)
    (objects : option (list Obj.t)) : M St (option (list Obj.t)) :=
  match version_containers with
  | [] => ret objects
  | vc :: rest =>
      objects <-
        try_except
          (listing <- call (Swift.get_container conn (Container.name vc)
                              (mkQuery None None None true)) ;;
           print (Print "   {}: {} objects, {} bytes"
                    [Str (Container.name vc);
                     Int (Z.of_nat (List.length listing));
                     Int (Container.bytes vc)]) ;;
           ret (Some listing))
          any_Exception
          (fun e =>
             print (Print "   {}: ERROR {}"
                      [Str (Container.name vc); Str (message e)]) ;;
             ret objects) ;;
      version_loop rest objects
  end.

(** Lines 121-139.  The list of names shown by the first line is the
    values of its one hole. *)
Definition version_check (objects : option (list Obj.t))
  : M St (option (list Obj.t)) :=
  print (text "") ;;
  print (text "3. Checking for versioned or deleted objects:") ;;
  try_except
    (containers <- call (Swift.get_account conn) ;;
     let version_containers := filter is_version_container containers in
     match version_containers with
     | _ :: _ =>
         print (Print "   Found potential version containers: {}"
                  (map (fun c => Str (Container.name c)) version_containers)) ;;
         version_loop version_containers objects
     | [] =>
         print (text "   No version containers found") ;;
         ret objects
     end)
    any_Exception
    (fun e =>
       print (Print "   ERROR checking for version containers: {}"
                [Str (message e)]) ;;
       ret objects).

(** Lines 141-181, for the [auth_config] loaded.  The text
    ["   " + "\n   ".join(...)] is printed line by line. *)
Definition cli_comparison (auth_config : Rclone.AuthConfig) : M St unit :=
  fun s =>
    let env := swift_env auth_config in
    let heading := [text ""; text "4. Direct Swift CLI comparison:"] in
    match subprocess_run ["swift"; "stat"; container_name] env false s with
    | (inl e, s1) =>
        (Ret tt, heading ++ [Print "   Swift CLI ERROR: {}" [Str (proc_message e)]], s1)
    | (inr stat_out, s1) =>
        let stat_lines :=
          text "   Swift stat output:"
          :: map (fun l => text ("   " ++ l))
               (Py.split Py.newline (PyStr.strip stat_out))
          ++ [text ""; text "   Swift list --long:"] in
        match subprocess_run ["swift"; "list"; container_name; "--long"] env false s1 with
        | (inl e, s2) =>
            (Ret tt,
             heading ++ stat_lines
             ++ [Print "   Swift CLI ERROR: {}" [Str (proc_message e)]], s2)
        | (inr list_out, s2) =>
            let lines := Py.split Py.newline (PyStr.strip list_out) in
            (Ret tt,
             heading ++ stat_lines
             ++ [Print "   Found {} lines"
                   [Int (Z.of_nat (List.length (non_blank lines)))]]
             ++ map (fun l => Print "   {}" [Str l]) (non_blank (firstn 10 lines))
             ++ (if (10 <? List.length lines)%nat
                 then [Print "   ... and {} more lines"
                         [Int (Z.of_nat (List.length lines) - 10)]]
                 else []),
             s2)
        end
    end.

(** Lines 183-202. *)
Definition scan_summary (container_info : Headers)
    (objects : option (list Obj.t)) : M St unit :=
  print (text "") ;;
  print (text (repeat_char "=" 80)) ;;
  print (text "SUMMARY OF FINDINGS") ;;
  print (text (repeat_char "=" 80)) ;;
  let visible_objects :=
    match objects with
    | Some objects => Z.of_nat (List.length objects)
    | None => 0
    end in
  reported_objects <- int_header "x-container-object-count" container_info ;;
  print (Print "Container metadata reports: {} objects" [Int reported_objects]) ;;
  print (Print "Visible through API listing: {} objects" [Int visible_objects]) ;;
  print (Print "Missing objects: {}" [Int (reported_objects - visible_objects)]) ;;
  if reported_objects >? visible_objects then
    print (text "") ;;
    print (text "Possible explanations for missing objects:") ;;
    print (text "- Objects in process of being deleted (Swift's eventual consistency)") ;;
    print (text "- Objects with special permissions or access restrictions") ;;
    print (text "- Corrupted object metadata") ;;
    print (text "- SwissBackup provider-specific hidden objects or snapshots") ;;
    print (text "- Objects created through different API versions") ;;
    print (text "- Internal Swift system objects or manifests")
  else ret tt.

(** Lines 60-205: the body of the outer [try], and its handler. *)
Definition investigation (auth_config : Rclone.AuthConfig) : M St unit :=
  try_except
    (print (text (repeat_char "=" 80)) ;;
     print (text "DEEP CONTAINER INVESTIGATION") ;;
     print (text (repeat_char "=" 80)) ;;
     print (text "") ;;
     print (text "1. Container Metadata:") ;;
     container_info <- call (Swift.head_container conn container_name) ;;
     for_each container_info (fun kv =>
       print (Print "  {}: {}" [Str (fst kv); Str (snd kv)])) ;;
     print (text "") ;;
     print (Print "Container reports: {} objects"
              [Str (PyStr.get "x-container-object-count" "unknown" container_info)]) ;;
     print (Print "Container size: {} bytes"
              [Str (PyStr.get "x-container-bytes-used" "unknown" container_info)]) ;;
     print (text "") ;;
     print (text "2. Different Listing Approaches:") ;;
     objects <- standard_listing None ;;
     objects <- query_listing objects ;;
     objects <- prefix_listings objects ;;
     objects <- version_check objects ;;
     cli_comparison auth_config ;;
     scan_summary container_info objects)
    any_Exception
    (fun e => print (Print "ERROR during investigation: {}" [Str (message e)])).

End Script.

Section Main.
Context {St : Type}.
Variable subprocess_run : Subprocess St.
Variable Connection : Rclone.AuthConfig -> Swift.Conn St.

(** Lines 53-205. *)
Definition deep_container_scan (container_name : string) : M St unit :=
  auth_config <- load_rclone_auth subprocess_run ;;
  match auth_config with
  | None => ret tt
  | Some auth_config =>
      investigation subprocess_run (Connection auth_config) container_name
        auth_config
  end.

End Main.

End DeepContainerScan.
(** ** The vocabulary of the specification *)

Module Design.

Definition all_digits (s : string) : bool :=
  forallb Py.is_digit (list_ascii_of_string s).

(** Exactly 8 digits, an underscore, exactly 6 digits, the digits being
    ['0'] .. ['9']. *)
Definition timestamp (s : string) : Prop :=
  exists d t : string,
    s = (d ++ "_" ++ t)%string /\
    String.length d = 8%nat /\ String.length t = 6%nat /\
    all_digits d = true /\ all_digits t = true.

(** The segment of a path before its first separator (the whole path
    when it has none), and whether it has a separator at all. *)
Fixpoint first_segment (path : string) : string :=
  match path with
  | EmptyString => EmptyString
  | String c rest =>
      if Ascii.eqb c "/" then EmptyString else String c (first_segment rest)
  end.

Fixpoint has_separator (path : string) : bool :=
  match path with
  | EmptyString => false
  | String c rest => Ascii.eqb c "/" || has_separator rest
  end.

(** The plain integer sum. *)
Definition total (sizes : list Z) : Z := fold_right Z.add 0 sizes.

(** The quotient [num / den] is within the range of a float: the
    division does not raise [OverflowError]. *)
Definition in_float_range (num den : Z) : Prop :=
  Z.abs num < Py.float_limit * den.

(** An object is filed in an analysis when some entry lists it. *)
Definition filed_under (k : string) (o : Obj.t)
    (analysis : list (string * SwiftInspector.Entry)) : Prop :=
  exists e, In (k, e) analysis /\ In o (SwiftInspector.files e).

Definition filed (o : Obj.t)
    (analysis : list (string * SwiftInspector.Entry)) : Prop :=
  exists k, filed_under k o analysis.

(** A run has finished when it has returned or raised. *)
Definition finished {A S : Type} (run : result A * list Line * S) : Prop :=
  match fst (fst run) with
  | Spin => False
  | _ => True
  end.

(** [int(info.get(key, 0))] as a value, [None] for [ValueError]. *)
Definition header_value (key : string) (info : Headers) : option Z :=
  match lookup key info with
  | None => Some 0
  | Some txt => Py.int txt
  end.

(** The text of a line mentions a string. *)
Definition mentions (s : string) (l : Line) : Prop := In (Str s) (args l).

(** The shape of a report: its lines without the values in them. *)
Definition shape (out : list Line) : list string := map template out.

(** The bulleted lines of a report are its candidate causes. *)
Definition is_cause (l : Line) : bool := String.prefix "  - " (template l).

Definition causes (out : list Line) : list string :=
  map template (filter is_cause out).

(** The answers of the backend to one listing per prefix, in order, each
    request starting from the state the previous one left. *)
Fixpoint replies {St : Type}
    (get_container : string -> Query -> St -> (exn + list Obj.t) * St)
    (container_name : string) (prefixes : list string) (s : St)
  : list (string * (exn + list Obj.t)) * St :=
  match prefixes with
  | [] => ([], s)
  | p :: prefixes' =>
      let '(r, s1) :=
        get_container container_name (mkQuery None None (Some p) true) s in
      let '(rs, s2) := replies get_container container_name prefixes' s1 in
      ((p, r) :: rs, s2)
  end.

(** What is reported for one prefix, given the answer to its request: the
    error for a failure, nothing for an empty listing, and otherwise the
    count, the first three names and how many more there are. *)
Definition probe_lines (pr : string * (exn + list Obj.t)) : list Line :=
  let '(p, r) := pr in
  match r with
  | inl e => [Print "     Prefix '{}' ERROR: {}" [Str p; Str (message e)]]
  | inr [] => []
  | inr objects =>
      Print "     Prefix '{}': {} objects"
        [Str p; Int (Z.of_nat (List.length objects))]
      :: map (fun obj => Print "       {}" [Str (Obj.name obj)]) (firstn 3 objects)
      ++ (if (3 <? List.length objects)%nat
          then [Print "       ... and {} more"
                  [Int (Z.of_nat (List.length objects) - 3)]]
          else [])
  end.

(** The candidate causes printed for the container. *)
Definition container_causes : list string :=
  ["  - Object versioning or snapshots";
   "  - Soft-deleted objects";
   "  - Metadata overhead";
   "  - Swift storage allocation overhead"].

(** The texts of the report of [check_for_hidden_data], by the three
    tests that decide them. *)
Definition hidden_data_shape (container_more account_more : bool)
    (n_containers : nat) : list string :=
  [""; repeat_char "=" 60; "HIDDEN DATA INVESTIGATION"; repeat_char "=" 60;
   "Account total bytes: {:,} ({:.3f} GB)";
   "Container bytes: {:,} ({:.3f} GB)";
   "Object sum bytes: {:,} ({:.3f} GB)";
   ""; "Discrepancy analysis:";
   "Container vs Objects: {:,} bytes";
   "Account vs Container: {:,} bytes"]
  ++ (if container_more
      then "⚠ Container reports {:,} more bytes than object sum"
           :: "  This could indicate:" :: container_causes
      else [])
  ++ (if account_more
      then ["⚠ Account reports {:,} more bytes than this container";
            "  This could indicate other containers or account metadata"]
      else [])
  ++ (if (1 <? n_containers)%nat
      then "" :: "⚠ Found {} containers in account:"
           :: repeat "  {}: {} objects, {:,} bytes ({:.3f} GB)" n_containers
      else []).

(** The objects filed under the directory [k]. *)
Definition dir_is (k : string) (o : Obj.t) : bool :=
  match SwiftInspector.backup_dir_of (Obj.name o) with
  | Some k' => String.eqb k k'
  | None => false
  end.

(** Every size that [analyze_backup_directories] shows in MB is within
    the range of a float: the total of each backup directory, and the
    size of each object that is filed. *)
Definition displayable (listing : list Obj.t) : Prop :=
  (forall k,
     in_float_range (total (map Obj.bytes (filter (dir_is k) listing))) MiB) /\
  (forall o,
     In o listing -> SwiftInspector.backup_dir_of (Obj.name o) <> None ->
     in_float_range (Obj.bytes o) MiB).

Definition nonempty {A : Type} (l : list A) : option (list A) :=
  match l with [] => None | _ => Some l end.

(** The state of [backup_dirs] after the objects [seen]. *)
Definition grouped (seen : list Obj.t) (d : list (string * list Obj.t)) : Prop :=
  NoDup (map fst d) /\
  forall k, lookup k d = nonempty (filter (dir_is k) seen).

(** The analysis built from the grouped listing. *)
Definition entries (d : list (string * list Obj.t))
  : list (string * SwiftInspector.Entry) :=
  map (fun kl => (fst kl, SwiftInspector.entry_of (snd kl))) d.

End Design.


(** ** Concrete containers and backends *)

Module Scenario.

Definition nl : string := String Py.newline EmptyString.

Definition db : Obj.t :=
  Obj.mk "20250726_140000/db.sql" 50000 "2025-07-26T14:00:00.000000" None.

Definition readme : Obj.t :=
  Obj.mk "readme.txt" 200 "2025-07-26T14:05:00.000000" None.

(** A backend that answers every listing with the same objects. *)
Definition answering (listing : list Obj.t)
    (name : string) (q : Query) (s : unit) : (exn + list Obj.t) * unit :=
  (inr listing, s).

(** Backends that answer each request with the same value. *)
Definition account (info : Headers) (s : unit) : (exn + Headers) * unit :=
  (inr info, s).

Definition container (info : Headers) (name : string) (s : unit)
  : (exn + Headers) * unit :=
  (inr info, s).

Definition containers (cs : list Container.t) (s : unit)
  : (exn + list Container.t) * unit :=
  (inr cs, s).

(** The headers of an account and of a container that report the given
    text as bytes used. *)
Definition account_reporting (bytes_used : string) : Headers :=
  [("x-account-container-count", "1"); ("x-account-object-count", "3");
   ("x-account-bytes-used", bytes_used)].

Definition container_reporting (bytes_used : string) : Headers :=
  [("x-container-object-count", "3"); ("x-container-bytes-used", bytes_used)].

(** A container of three objects, in order of name. *)
Definition archive : Obj.t :=
  Obj.mk "20250726_140000/data.tar.gz" 100000 "2025-07-26T14:00:05.000000" None.

Definition dump : Obj.t :=
  Obj.mk "20250726_140000/db.sql" 150000 "2025-07-26T14:00:00.000000" None.

Definition config : Obj.t :=
  Obj.mk "20250726_140000/config.json" 249500 "2025-07-26T14:00:09.000000" None.

Definition three : list Obj.t := [config; archive; dump].

(** A listing that fails for the prefix ["."] and succeeds for every
    other prefix. *)
Definition dot_fails (name : string) (q : Query) (s : unit)
  : (exn + list Obj.t) * unit :=
  match prefix q with
  | Some "." => (inl (ClientException "Container GET failed"), s)
  | _ => (inr (Backend.page three q), s)
  end.

(** A first segment that is a timestamp followed by a newline. *)
Definition padded : string := ("20250726_140000" ++ nl)%string.

(** An object of [2^1044] bytes, that is [2^1024] MiB. *)
Definition oversized : Obj.t :=
  Obj.mk "20250726_140000/disk.img" (2 ^ 1044) "2025-07-26T14:00:00.000000" None.

End Scenario.

(** ** Vocabulary for the rest of the scripts *)

Module Props.

(** A line of the rclone configuration as rclone shows it: a section
    header such as [[swissbackup]], or a setting [key = value]. *)
Inductive config_line : Type :=
| Header (h : string)
| Setting (k v : string).

Definition no_newline (s : string) : bool :=
  forallb (fun c => negb (Ascii.eqb c Py.newline)) (list_ascii_of_string s).

Definition no_equals (s : string) : bool :=
  forallb (fun c => negb (Ascii.eqb c "=")) (list_ascii_of_string s).

(** A non-empty text on one line, without blanks around it. *)
Definition tidy (s : string) : Prop :=
  s <> EmptyString /\ PyStr.lstrip s = s /\ PyStr.rstrip s = s /\
  no_newline s = true.

(** A text that starts and ends with something other than a blank. *)
Definition trimmed (s : string) : Prop :=
  s <> EmptyString /\ PyStr.lstrip s = s /\ PyStr.rstrip s = s.

Definition well_formed (l : config_line) : Prop :=
  match l with
  | Header h => tidy h /\ PyStr.contains " = " h = false
  | Setting k v => tidy k /\ tidy v /\ no_equals k = true
  end.

Definition line_text (l : config_line) : string :=
  match l with
  | Header h => h
  | Setting k v => (k ++ " = " ++ v)%string
  end.

(** The text rclone prints for the lines. *)
Definition render (ls : list config_line) : string :=
  PyStr.join (String Py.newline EmptyString) (map line_text ls).

(** The settings among the lines, in order. *)
Fixpoint settings (ls : list config_line) : list (string * string) :=
  match ls with
  | [] => []
  | Header _ :: ls' => settings ls'
  | Setting k v :: ls' => (k, v) :: settings ls'
  end.

(** The dictionary that results from setting the pairs in order. *)
Definition dict_of (kvs : list (string * string)) : list (string * string) :=
  fold_left (fun d kv => SwiftInspector.dict_set (fst kv) (snd kv) d) kvs [].

(** The classifier accepts the object. *)
Definition accepted (o : Obj.t) : bool :=
  match SwiftInspector.backup_dir_of (Obj.name o) with
  | Some _ => true
  | None => false
  end.

(** The sum of a measure over the lists of a dictionary. *)
Fixpoint measure (g : list Obj.t -> Z) (d : list (string * list Obj.t)) : Z :=
  match d with
  | [] => 0
  | (_, l) :: d' => g l + measure g d'
  end.

(** The lines of the detailed listing of [list_all_objects]. *)
Definition details_lines (objs : list Obj.t) : list Line :=
  [text ""; text "Detailed object listing:"; text (repeat_char "-" 80);
   Print "{:<40} {:<12} {:<20} {:<32}"
     [Str "Name"; Str "Size"; Str "Last Modified"; Str "ETag"];
   text (repeat_char "-" 80)]
  ++ map (fun obj =>
            Print "{:<40} {:>8.2f} MB {:<20} {:<32}"
              [Str (Obj.name obj); Quot (Obj.bytes obj) MiB;
               Str (Obj.last_modified obj);
               Str (match Obj.hash obj with Some h => h | None => "N/A" end)])
       objs.

(** Every size of the detailed listing can be shown in MB. *)
Definition all_fit (objs : list Obj.t) : bool :=
  forallb (fun o => negb (Py.overflows (Obj.bytes o) MiB)) objs.

(** The banner of a section of the inspector's report. *)
Definition banner_lines (title : string) : list Line :=
  [text ""; text (repeat_char "=" 60); text title; text (repeat_char "=" 60)].


(** A computation that returns, with a value that satisfies [P]. *)
Definition returns {St A : Type} (P : A -> Prop) (m : M St A) : Prop :=
  forall s, exists a out s', m s = (Ret a, out, s') /\ P a.

(** A computation without a loop that could go on: it returns or
    raises. *)
Definition settles {St A : Type} (m : M St A) : Prop :=
  forall s, match fst (fst (m s)) with
            | Spin => False
            | _ => True
            end.

(** The binding of [objects] when the summary of the deep scan is
    printed, as a count. *)
Definition visible (objects : option (list Obj.t)) : Z :=
  match objects with
  | Some l => Z.of_nat (List.length l)
  | None => 0
  end.

End Props.

(** ** Concrete worlds *)

Module World.

(** The configuration rclone shows. *)
Definition config : list Props.config_line :=
  [Props.Header "[swissbackup]";
   Props.Setting "type" "swift";
   Props.Setting "user" "backup-user";
   Props.Setting "key" "s3cr3t=";
   Props.Setting "auth" "https://swiss-backup02.infomaniak.com/identity/v3";
   Props.Setting "tenant" "sb_project_SBI-XY000000";
   Props.Setting "region" "RegionOne"].

(** rclone answers every call with the configuration. *)
Definition rclone_ok : Subprocess unit :=
  fun argv env check s => (inr (Props.render config), s).

(** rclone is not installed. *)
Definition rclone_missing : Subprocess unit :=
  fun argv env check s =>
    (inl (OtherError "[Errno 2] No such file or directory: 'rclone'"), s).

(** A connection on which the account can be read and every request
    about a container fails with a [ClientException]. *)
Definition failing_conn (auth : Rclone.AuthConfig) : Swift.Conn unit :=
  {| Swift.head_account := fun s => (inr [("x-account-bytes-used", "499500")], s);
     Swift.head_container := fun name s =>
       (inl (ClientException "Container HEAD failed: 503 Service Unavailable"), s);
     Swift.get_container := fun name q s =>
       (inl (ClientException "Container GET failed: 503 Service Unavailable"), s);
     Swift.get_container_query := fun name qs s =>
       (inl (ClientException "Container GET failed: 503 Service Unavailable"), s);
     Swift.get_account := fun s =>
       (inl (ClientException "Account GET failed: 503 Service Unavailable"), s) |}.

(** A connection to the container of three objects; the backend state is
    unit. *)
Definition three_conn (auth : Rclone.AuthConfig) : Swift.Conn unit :=
  {| Swift.head_account := fun s => (inr (Scenario.account_reporting "499500"), s);
     Swift.head_container := fun name s =>
       (inr (Scenario.container_reporting "499500"), s);
     Swift.get_container := fun name q s => (inr (Backend.page Scenario.three q), s);
     Swift.get_container_query := fun name qs s => (inr Scenario.three, s);
     Swift.get_account := fun s =>
       (inr [Container.mk "mattermost-backups" 3 499500], s) |}.

(** A connection on which the account and its two containers are listed
    and no container can be looked into. *)
Definition details_fail_conn (auth : Rclone.AuthConfig) : Swift.Conn unit :=
  {| Swift.head_account := fun s => (inr (Scenario.account_reporting "750000"), s);
     Swift.head_container := fun name s =>
       (inl (ClientException "Container HEAD failed: 503 Service Unavailable"), s);
     Swift.get_container := fun name q s =>
       (inl (ClientException "Container GET failed: 503 Service Unavailable"), s);
     Swift.get_container_query := fun name qs s =>
       (inl (ClientException "Container GET failed: 503 Service Unavailable"), s);
     Swift.get_account := fun s =>
       (inr [Container.mk "mattermost-backups" 3 499500;
             Container.mk "mattermost-archive" 40 250000], s) |}.


(** A connection to a container whose one object has [2^1044] bytes:
    it is listed from the start and nothing lies after it. *)
Definition oversized_conn (auth : Rclone.AuthConfig) : Swift.Conn unit :=
  {| Swift.head_account := fun s => (inr (Scenario.account_reporting "499500"), s);
     Swift.head_container := fun name s =>
       (inr (Scenario.container_reporting "499500"), s);
     Swift.get_container := fun name q s =>
       (inr (match marker q with
             | None => [Scenario.oversized]
             | Some _ => []
             end), s);
     Swift.get_container_query := fun name qs s => (inr [Scenario.oversized], s);
     Swift.get_account := fun s =>
       (inr [Container.mk "mattermost-backups" 1 499500], s) |}.

(** A listing whose first page is the container of three objects and
    whose next request fails: the state counts the requests. *)
Definition second_page_fails (name : string) (q : Query) (n : nat)
  : (exn + list Obj.t) * nat :=
  match n with
  | O => (inr Scenario.three, S n)
  | S _ => (inl (ClientException "Container GET failed: 503 Service Unavailable"), S n)
  end.

End World.
(** * Properties *)

(** ** Running a computation *)

Lemma run_bind {S A B : Type} (m : M S A) (k : A -> M S B) (s : S) :
  bind m k s =
  match m s with
  | (Ret a, out, s1) => let '(r, out', s2) := k a s1 in (r, out ++ out', s2)
  | (Exc e, out, s1) => (Exc e, out, s1)
  | (Spin, out, s1) => (Spin, out, s1)
  end.
Proof. reflexivity. Qed.

Lemma run_print_then {S B : Type} (l : Line) (k : unit -> M S B) (s : S) :
  bind (print l) k s = let '(r, out, s') := k tt s in (r, l :: out, s').
Proof. reflexivity. Qed.

Lemma run_ret_then {S A B : Type} (a : A) (k : A -> M S B) (s : S) :
  bind (ret a) k s = let '(r, out, s') := k a s in (r, out, s').
Proof. reflexivity. Qed.

Lemma run_bind_assoc {S A B C : Type} (m : M S A) (f : A -> M S B)
    (g : B -> M S C) (s : S) :
  bind (bind m f) g s = bind m (fun x => bind (f x) g) s.
Proof.
  rewrite !run_bind. destruct (m s) as [[[a|e|] out] s1]; try reflexivity.
  rewrite run_bind. destruct (f a s1) as [[[b|e|] out1] s2]; try reflexivity.
  destruct (g b s2) as [[r out2] s3]. now rewrite app_assoc.
Qed.

Lemma run_call_then {S A B : Type} (op : S -> (exn + A) * S)
    (k : A -> M S B) (s : S) :
  bind (call op) k s =
  match op s with
  | (inl e, s') => (Exc e, [], s')
  | (inr a, s') => k a s'
  end.
Proof.
  rewrite run_bind. unfold call. destruct (op s) as [[e|a] s']; [reflexivity|].
  destruct (k a s') as [[r out] s2]. reflexivity.
Qed.

Lemma run_banner_then {S B : Type} (title : string) (k : unit -> M S B) (s : S) :
  bind (SwiftInspector.banner title) k s =
  let '(r, out, s') := k tt s in
  (r, [text ""; text (repeat_char "=" 60); text title; text (repeat_char "=" 60)]
        ++ out, s').
Proof. reflexivity. Qed.

(** A loop that only prints returns, whatever it prints. *)
Lemma for_each_print {S A : Type} (f : A -> Line) (xs : list A) (s : S) :
  for_each xs (fun x => print (f x)) s = (Ret tt, map f xs, s).
Proof.
  induction xs as [|x xs IH]; [reflexivity|].
  cbn [for_each]. rewrite run_print_then, IH. reflexivity.
Qed.

(** ** Divisions *)

Lemma overflows_false (num den : Z) :
  Design.in_float_range num den -> Py.overflows num den = false.
Proof. unfold Design.in_float_range, Py.overflows. intros H. now apply Z.leb_gt. Qed.

Lemma overflows_in_range (num den : Z) :
  Py.overflows num den = false -> Design.in_float_range num den.
Proof. unfold Design.in_float_range, Py.overflows. intros H. now apply Z.leb_gt. Qed.

Lemma float_limit_pos : 0 < Py.float_limit.
Proof. reflexivity. Qed.

(** What can be shown in MB can be shown in GB. *)
Lemma in_float_range_GiB (num : Z) :
  Design.in_float_range num MiB -> Design.in_float_range num GiB.
Proof.
  unfold Design.in_float_range. intros H.
  pose proof float_limit_pos as Hpos.
  assert (Hle : Py.float_limit * MiB <= Py.float_limit * GiB).
  { apply Z.mul_le_mono_nonneg_l; [lia|]. unfold MiB, GiB. lia. }
  lia.
Qed.

Lemma in_float_range_0 (den : Z) : 0 < den -> Design.in_float_range 0 den.
Proof.
  unfold Design.in_float_range. intros H. pose proof float_limit_pos.
  cbn [Z.abs]. nia.
Qed.

Lemma run_true_div_then {S B : Type} (num den : Z) (k : arg -> M S B) (s : S) :
  bind (true_div num den) k s =
  if Py.overflows num den then (Exc OverflowError, [], s)
  else k (Quot num den) s.
Proof.
  rewrite run_bind. unfold true_div.
  destruct (Py.overflows num den); [reflexivity|].
  cbn. destruct (k (Quot num den) s) as [[r out] s']. reflexivity.
Qed.

Lemma run_div_then {S B : Type} (num den : Z) (k : arg -> M S B) (s : S) :
  Design.in_float_range num den ->
  bind (true_div num den) k s = k (Quot num den) s.
Proof. intros H. now rewrite run_true_div_then, (overflows_false _ _ H). Qed.

(** A loop that divides and prints returns when every quotient can be
    shown. *)
Lemma for_each_div_print {S A : Type} (f : A -> Z) (den : Z)
    (g : A -> arg -> Line) (xs : list A) (s : S) :
  Forall (fun x => Design.in_float_range (f x) den) xs ->
  for_each xs (fun x => q <- true_div (f x) den ;; print (g x q)) s
  = (Ret tt, map (fun x => g x (Quot (f x) den)) xs, s).
Proof.
  induction 1 as [|x xs Hx Hxs IH]; [reflexivity|].
  cbn [for_each]. rewrite run_bind, (run_div_then _ _ _ _ Hx).
  unfold print at 1. rewrite IH. reflexivity.
Qed.

(** In any case it returns or raises [OverflowError], having printed
    lines of its own only and left the state as it was. *)
Lemma for_each_div_print_cases {S A : Type} (f : A -> Z) (den : Z)
    (g : A -> arg -> Line) (xs : list A) (s : S) :
  exists r shown,
    for_each xs (fun x => q <- true_div (f x) den ;; print (g x q)) s
    = (r, map (fun x => g x (Quot (f x) den)) shown, s) /\
    (r = Ret tt \/ r = Exc OverflowError).
Proof.
  induction xs as [|x xs IH].
  - exists (Ret tt), []. split; [reflexivity|now left].
  - cbn [for_each]. rewrite run_bind, run_true_div_then.
    destruct (Py.overflows (f x) den).
    + exists (Exc OverflowError), []. split; [reflexivity|now right].
    + destruct IH as (r & shown & E & Hr). unfold print at 1. rewrite E.
      destruct Hr as [-> | ->].
      * exists (Ret tt), (x :: shown). split; [reflexivity|now left].
      * exists (Exc OverflowError), (x :: shown). split; [reflexivity|now right].
Qed.

(** ** Python helpers *)

Lemma sum_from (xs : list Z) (acc : Z) :
  fold_left Z.add xs acc = acc + Design.total xs.
Proof.
  revert acc; induction xs as [|x xs IH]; intros acc; cbn.
  - lia.
  - rewrite IH. unfold Design.total. cbn. lia.
Qed.

Lemma sum_total (xs : list Z) : Py.sum xs = Design.total xs.
Proof. unfold Py.sum. rewrite sum_from. lia. Qed.

Lemma split_first (path : string) :
  exists rest,
    Py.split "/" path = Design.first_segment path :: rest /\
    (2 <=? List.length (Design.first_segment path :: rest))%nat
      = Design.has_separator path.
Proof.
  induction path as [|c path IH]; cbn.
  - exists []. split; reflexivity.
  - destruct IH as (rest & Hsplit & Hlen).
    destruct (Ascii.eqb c "/") eqn:Hc; cbn.
    + rewrite Hsplit. eexists. split; [reflexivity|]. reflexivity.
    + rewrite Hsplit. exists rest. split; [reflexivity|]. exact Hlen.
Qed.

Lemma eat_digits_spec (n : nat) (s rest : string) :
  Py.eat_digits n s = Some rest <->
  exists d, s = (d ++ rest)%string /\ String.length d = n /\
            Design.all_digits d = true.
Proof.
  revert s; induction n as [|n IH]; intros s; cbn.
  - split.
    + intros [= ->]. exists EmptyString. repeat split.
    + intros (d & -> & Hlen & _). destruct d; [reflexivity|discriminate].
  - destruct s as [|c s].
    + split; [discriminate|]. intros (d & Hs & Hlen & _).
      destruct d; discriminate.
    + destruct (Py.is_digit c) eqn:Hc.
      * rewrite IH. split.
        -- intros (d & -> & Hlen & Hd). exists (String c d).
           repeat split; cbn; [now rewrite Hlen|].
           unfold Design.all_digits in *. cbn. now rewrite Hc.
        -- intros (d & Hs & Hlen & Hd). destruct d as [|c' d]; [discriminate|].
           cbn in Hs. injection Hs as -> ->. exists d.
           repeat split; [now injection Hlen|].
           unfold Design.all_digits in *. cbn in Hd.
           now apply andb_true_iff in Hd.
      * split; [discriminate|]. intros (d & Hs & Hlen & Hd).
        destruct d as [|c' d]; [discriminate|]. cbn in Hs.
        injection Hs as -> ->. unfold Design.all_digits in Hd. cbn in Hd.
        rewrite Hc in Hd. discriminate.
Qed.

Lemma append_empty_r (s : string) : (s ++ "")%string = s.
Proof. induction s as [|c s IH]; cbn; [reflexivity|now rewrite IH]. Qed.

Lemma append_assoc (a b c : string) :
  ((a ++ b) ++ c)%string = (a ++ (b ++ c))%string.
Proof. induction a as [|x a IH]; cbn; [reflexivity|now rewrite IH]. Qed.

(** ** The timestamp pattern *)

(** What [re.match(r'^\d{8}_\d{6}$', s)] accepts: a timestamp, or a
    timestamp followed by one newline. *)
Lemma timestamp_re_spec (s : string) :
  Py.re_match SwiftInspector.timestamp_re s = true <->
  Design.timestamp s \/
  exists t, s = (t ++ String Py.newline "")%string /\ Design.timestamp t.
Proof.
  unfold Py.re_match, SwiftInspector.timestamp_re.
  cbn [Py.match_here andb Nat.eqb]. split.
  - destruct (Py.eat_digits 8 s) as [r1|] eqn:E1; [|discriminate].
    apply eat_digits_spec in E1 as (d & -> & Hd & Hdd).
    destruct r1 as [|u r1]; [discriminate|].
    intros H. apply andb_true_iff in H as [Hu H].
    apply Ascii.eqb_eq in Hu. subst u.
    destruct (Py.eat_digits 6 r1) as [r2|] eqn:E2; [|discriminate].
    apply eat_digits_spec in E2 as (t & -> & Ht & Htd).
    destruct r2 as [|c [|c' r2]]; [| |discriminate].
    + left. exists d, t. rewrite append_empty_r. auto.
    + apply andb_true_iff in H as [Hc _]. apply Ascii.eqb_eq in Hc. subst c.
      right. exists (d ++ "_" ++ t)%string. split.
      * now rewrite !append_assoc.
      * exists d, t. auto.
  - intros H.
    assert (Hgo : forall d t tail,
               String.length d = 8%nat -> String.length t = 6%nat ->
               Design.all_digits d = true -> Design.all_digits t = true ->
               s = (d ++ String "_" (t ++ tail))%string ->
               (tail = "" \/ tail = String Py.newline "") ->
               match Py.eat_digits 8 s with
               | Some rest =>
                   Py.match_here [Py.Lit "_"; Py.Digits 6; Py.Eol] false rest
               | None => false
               end = true).
    { intros d t tail Hd Ht Hdd Htd -> Htail.
      assert (E1 : Py.eat_digits 8 (d ++ String "_" (t ++ tail))
                   = Some (String "_" (t ++ tail)%string)).
      { apply eat_digits_spec. exists d. auto. }
      rewrite E1. cbn [Py.match_here]. rewrite Ascii.eqb_refl. cbn [andb].
      assert (E2 : Py.eat_digits 6 (t ++ tail) = Some tail).
      { apply eat_digits_spec. exists t. auto. }
      rewrite E2. destruct Htail as [-> | ->]; reflexivity. }
    destruct H as [(d & t & -> & Hd & Ht & Hdd & Htd)
                  | (t0 & -> & d & t & -> & Hd & Ht & Hdd & Htd)].
    + apply (Hgo d t ""); auto. cbn. now rewrite append_empty_r.
    + apply (Hgo d t (String Py.newline "")); auto.
      now rewrite !append_assoc.
Qed.

(** [backup_dir_of] in terms of the path: it answers with the first
    segment, and only for a path that has a separator and whose first
    segment the pattern accepts. *)
Lemma backup_dir_of_spec (name k : string) :
  SwiftInspector.backup_dir_of name = Some k <->
  Design.has_separator name = true /\
  k = Design.first_segment name /\
  Py.re_match SwiftInspector.timestamp_re k = true.
Proof.
  unfold SwiftInspector.backup_dir_of.
  destruct (split_first name) as (rest & -> & Hlen). rewrite Hlen.
  destruct (Design.has_separator name); cbn [andb].
  - destruct (Py.re_match _ (Design.first_segment name)) eqn:Hre.
    + split.
      * intros [= <-]. auto.
      * intros (_ & -> & _). reflexivity.
    + split; [discriminate|]. intros (_ & -> & H). congruence.
  - split; [discriminate|]. intros (H & _). discriminate.
Qed.

(** ** Dictionaries in insertion order *)

Lemma lookup_dict_set_same {V : Type} (k : string) (v : V) d :
  lookup k (SwiftInspector.dict_set k v d) = Some v.
Proof.
  induction d as [|[k' v'] d IH]; cbn.
  - now rewrite String.eqb_refl.
  - destruct (String.eqb k k') eqn:E; cbn.
    + now rewrite String.eqb_refl.
    + now rewrite E.
Qed.

Lemma lookup_dict_set_other {V : Type} (k k' : string) (v : V) d :
  k <> k' -> lookup k' (SwiftInspector.dict_set k v d) = lookup k' d.
Proof.
  intros Hne. induction d as [|[k0 v0] d IH]; cbn.
  - apply String.eqb_neq in Hne. rewrite String.eqb_sym. now rewrite Hne.
  - destruct (String.eqb k k0) eqn:E; cbn.
    + apply String.eqb_eq in E. subst k0.
      destruct (String.eqb k' k) eqn:E'; [|reflexivity].
      apply String.eqb_eq in E'. congruence.
    + now rewrite IH.
Qed.

Lemma lookup_None {V : Type} (k : string) (d : list (string * V)) :
  lookup k d = None <-> ~ In k (map fst d).
Proof.
  induction d as [|[k' v'] d IH]; cbn.
  - tauto.
  - destruct (String.eqb k k') eqn:E.
    + apply String.eqb_eq in E. subst. split; [discriminate|tauto].
    + apply String.eqb_neq in E. rewrite IH. split; [intros H [H'|H']|]; auto.
Qed.

Lemma lookup_In {V : Type} (k : string) (v : V) (d : list (string * V)) :
  lookup k d = Some v -> In (k, v) d.
Proof.
  induction d as [|[k' v'] d IH]; cbn; [discriminate|].
  destruct (String.eqb k k') eqn:E.
  - apply String.eqb_eq in E. intros [= ->]. subst. now left.
  - auto.
Qed.

Lemma In_lookup {V : Type} (k : string) (v : V) (d : list (string * V)) :
  NoDup (map fst d) -> In (k, v) d -> lookup k d = Some v.
Proof.
  induction d as [|[k' v'] d IH]; cbn; [tauto|].
  intros Hnd [H|H].
  - injection H as -> ->. now rewrite String.eqb_refl.
  - inversion Hnd as [|? ? Hnot Hnd']; subst.
    destruct (String.eqb k k') eqn:E; [|auto].
    apply String.eqb_eq in E. subst. exfalso. apply Hnot.
    apply (in_map fst) in H. exact H.
Qed.

Lemma dict_set_new {V : Type} (k : string) (v : V) (d : list (string * V)) :
  lookup k d = None -> SwiftInspector.dict_set k v d = d ++ [(k, v)].
Proof.
  induction d as [|[k' v'] d IH]; cbn; [reflexivity|].
  destruct (String.eqb k k'); [discriminate|]. intros H. now rewrite IH.
Qed.

Lemma dict_set_keys {V : Type} (k : string) (v : V) (d : list (string * V)) :
  lookup k d <> None ->
  map fst (SwiftInspector.dict_set k v d) = map fst d.
Proof.
  induction d as [|[k' v'] d IH]; cbn; [congruence|].
  destruct (String.eqb k k') eqn:E; cbn.
  - apply String.eqb_eq in E. now subst.
  - intros H. now rewrite IH.
Qed.

(** ** Grouping by backup directory *)

Lemma group_step_grouped seen d o :
  Design.grouped seen d -> Design.grouped (seen ++ [o]) (SwiftInspector.group_step d o).
Proof.
  intros [Hnd Hl]. unfold SwiftInspector.group_step.
  destruct (SwiftInspector.backup_dir_of (Obj.name o)) as [k0|] eqn:Hdir.
  - set (d1 := if SwiftInspector.contains k0 d then d
               else SwiftInspector.dict_set k0 [] d).
    assert (H1 : lookup k0 d1 = Some (filter (Design.dir_is k0) seen)).
    { unfold d1, SwiftInspector.contains. specialize (Hl k0).
      destruct (lookup k0 d) as [m|] eqn:E.
      - rewrite E, Hl. destruct (filter (Design.dir_is k0) seen); [discriminate|reflexivity].
      - rewrite lookup_dict_set_same.
        destruct (filter (Design.dir_is k0) seen); [reflexivity|discriminate]. }
    assert (Hother : forall k, k0 <> k -> lookup k d1 = lookup k d).
    { intros k Hk. unfold d1. destruct (SwiftInspector.contains k0 d);
        [reflexivity|now apply lookup_dict_set_other]. }
    assert (Hnd1 : NoDup (map fst d1)).
    { unfold d1, SwiftInspector.contains.
      destruct (lookup k0 d) as [m|] eqn:E; [exact Hnd|].
      rewrite dict_set_new by exact E. rewrite map_app. cbn.
      apply NoDup_app; [exact Hnd|repeat constructor; auto|].
      intros x Hx [<-|[]]. now apply lookup_None in E. }
    rewrite H1. split.
    + rewrite dict_set_keys; [exact Hnd1|congruence].
    + intros k. rewrite filter_app. cbn [filter].
      assert (Ho : Design.dir_is k o = String.eqb k k0)
        by (unfold Design.dir_is; now rewrite Hdir).
      rewrite Ho. destruct (String.eqb k k0) eqn:E.
      * apply String.eqb_eq in E. subst k. rewrite lookup_dict_set_same.
        destruct (filter (Design.dir_is k0) seen); reflexivity.
      * apply String.eqb_neq in E. rewrite app_nil_r.
        rewrite lookup_dict_set_other by congruence.
        rewrite Hother by congruence. apply Hl.
  - split; [exact Hnd|]. intros k. rewrite filter_app. cbn [filter].
    assert (Ho : Design.dir_is k o = false) by (unfold Design.dir_is; now rewrite Hdir).
    rewrite Ho, app_nil_r. apply Hl.
Qed.

Lemma fold_group_step_grouped objs : forall seen d,
  Design.grouped seen d ->
  Design.grouped (seen ++ objs) (fold_left SwiftInspector.group_step objs d).
Proof.
  induction objs as [|o objs IH]; intros seen d H; cbn.
  - now rewrite app_nil_r.
  - replace (seen ++ o :: objs) with ((seen ++ [o]) ++ objs)
      by (now rewrite <- app_assoc).
    apply IH. now apply group_step_grouped.
Qed.

Lemma group_by_backup_dir_grouped objs :
  Design.grouped objs (SwiftInspector.group_by_backup_dir objs).
Proof.
  apply (fold_group_step_grouped objs [] []). split; [constructor|].
  intros k. reflexivity.
Qed.

(** ** [analyze_backup_directories] *)

(** The loop over the backup directories returns when every size it
    shows is within the range of a float. *)
Lemma summarize_run {St : Type} items : forall acc (s : St),
  NoDup (map fst acc ++ map fst items) ->
  Forall (fun kl =>
            Design.in_float_range (Design.total (map Obj.bytes (snd kl))) MiB /\
            Forall (fun o => Design.in_float_range (Obj.bytes o) MiB) (snd kl))
         items ->
  exists out,
    SwiftInspector.summarize items acc s = (Ret (acc ++ Design.entries items), out, s).
Proof.
  induction items as [|[k l] items IH]; intros acc s Hnd Hfit.
  - exists []. cbn. now rewrite app_nil_r.
  - inversion Hfit as [|? ? [Htotal Hobjs] Hrest]; subst. cbn [snd] in *.
    cbn [SwiftInspector.summarize].
    assert (Hk : lookup k acc = None).
    { apply lookup_None. intros Hin. cbn in Hnd.
      apply NoDup_remove_2 in Hnd. apply Hnd. apply in_or_app. now left. }
    rewrite dict_set_new by exact Hk.
    destruct (IH (acc ++ [(k, SwiftInspector.entry_of l)]) s) as [out Hout];
      [rewrite map_app; cbn; rewrite <- app_assoc; exact Hnd|exact Hrest|].
    rewrite sum_total, (run_div_then _ _ _ _ Htotal).
    repeat rewrite run_print_then.
    rewrite run_bind, (for_each_div_print _ _ _ _ _ Hobjs), Hout.
    eexists. cbn. rewrite <- app_assoc. reflexivity.
Qed.

(** In any case it returns the entries or raises [OverflowError], and
    leaves the state as it was. *)
Lemma summarize_cases {St : Type} items : forall acc (s : St),
  NoDup (map fst acc ++ map fst items) ->
  exists out,
    SwiftInspector.summarize items acc s
      = (Ret (acc ++ Design.entries items), out, s) \/
    SwiftInspector.summarize items acc s = (Exc OverflowError, out, s).
Proof.
  induction items as [|[k l] items IH]; intros acc s Hnd.
  - exists []. left. cbn. now rewrite app_nil_r.
  - cbn [SwiftInspector.summarize].
    assert (Hk : lookup k acc = None).
    { apply lookup_None. intros Hin. cbn in Hnd.
      apply NoDup_remove_2 in Hnd. apply Hnd. apply in_or_app. now left. }
    rewrite dict_set_new by exact Hk.
    rewrite run_true_div_then.
    destruct (Py.overflows (Py.sum (map Obj.bytes l)) MiB); [eauto|].
    repeat rewrite run_print_then. rewrite run_bind.
    destruct (for_each_div_print_cases Obj.bytes MiB
                (fun obj q => Print "    {:<50} {:>8.2f} MB" [Str (Obj.name obj); q])
                l s) as (r & shown & -> & [-> | ->]); [|eauto].
    destruct (IH (acc ++ [(k, SwiftInspector.entry_of l)]) s) as [out [-> | ->]];
      [rewrite map_app; cbn; rewrite <- app_assoc; exact Hnd| |].
    + eexists. left. cbn. rewrite <- app_assoc. reflexivity.
    + eexists. right. reflexivity.
Qed.

(** The sizes shown for a displayable listing are those of its
    groups. *)
Lemma displayable_groups (listing : list Obj.t) :
  Design.displayable listing ->
  Forall (fun kl =>
            Design.in_float_range (Design.total (map Obj.bytes (snd kl))) MiB /\
            Forall (fun o => Design.in_float_range (Obj.bytes o) MiB) (snd kl))
         (SwiftInspector.group_by_backup_dir listing).
Proof.
  intros [Htotals Hobjs]. apply Forall_forall. intros [k l] Hin. cbn [snd].
  destruct (group_by_backup_dir_grouped listing) as [Hnd Hl].
  apply (In_lookup _ _ _ Hnd) in Hin. rewrite Hl in Hin.
  assert (El : l = filter (Design.dir_is k) listing).
  { destruct (filter (Design.dir_is k) listing); [discriminate|].
    now injection Hin as <-. }
  subst l. split; [apply Htotals|].
  apply Forall_forall. intros o Ho. apply filter_In in Ho as [Ho Hk].
  apply Hobjs; [exact Ho|]. unfold Design.dir_is in Hk.
  destruct (SwiftInspector.backup_dir_of (Obj.name o)); [discriminate|discriminate].
Qed.

Lemma total_nonneg (xs : list Z) : Forall (fun x => 0 <= x) xs -> 0 <= Design.total xs.
Proof.
  unfold Design.total. induction 1 as [|x xs Hx Hxs IH]; cbn; lia.
Qed.

Lemma total_filter_le (f : Obj.t -> bool) (listing : list Obj.t) :
  Forall (fun o => 0 <= Obj.bytes o) listing ->
  0 <= Design.total (map Obj.bytes (filter f listing))
    <= Design.total (map Obj.bytes listing).
Proof.
  unfold Design.total. induction 1 as [|o l Ho Hl IH]; cbn; [lia|].
  destruct (f o); cbn; lia.
Qed.

Lemma total_In_le (o : Obj.t) (listing : list Obj.t) :
  Forall (fun o => 0 <= Obj.bytes o) listing -> In o listing ->
  Obj.bytes o <= Design.total (map Obj.bytes listing).
Proof.
  induction 1 as [|x l Hx Hl IH]; intros Hin; [destruct Hin|].
  assert (Hl0 : 0 <= Design.total (map Obj.bytes l)).
  { apply total_nonneg. now apply Forall_map. }
  unfold Design.total in *. cbn [map fold_right].
  destruct Hin as [<-|Hin]; [lia|]. specialize (IH Hin). lia.
Qed.

(** Sizes that are not negative and add up to a total within the range
    of a float can all be shown. *)
Lemma nonneg_displayable (listing : list Obj.t) :
  Forall (fun o => 0 <= Obj.bytes o) listing ->
  Design.in_float_range (Design.total (map Obj.bytes listing)) MiB ->
  Design.displayable listing.
Proof.
  unfold Design.displayable, Design.in_float_range. intros Hpos Htotal.
  split.
  - intros k. pose proof (total_filter_le (Design.dir_is k) listing Hpos). lia.
  - intros o Ho _. pose proof (total_In_le o listing Hpos Ho).
    rewrite Forall_forall in Hpos. specialize (Hpos o Ho). lia.
Qed.

(** The whole function: what it does for each answer of the backend. *)
Lemma analyze_backup_directories_run {St : Type}
    (get_container : string -> Query -> St -> (exn + list Obj.t) * St)
    (container_name : string) (s : St) :
  exists out,
    match get_container container_name (mkQuery None None None true) s with
    | (inr listing, s') =>
        SwiftInspector.analyze_backup_directories get_container container_name s
        = (Ret (Design.entries (SwiftInspector.group_by_backup_dir listing)), out, s')
        \/
        SwiftInspector.analyze_backup_directories get_container container_name s
        = (Exc OverflowError, out, s')
    | (inl e, s') =>
        SwiftInspector.analyze_backup_directories get_container container_name s
        = (if is_ClientException e then Ret [] else Exc e, out, s')
    end.
Proof.
  unfold SwiftInspector.analyze_backup_directories.
  rewrite run_banner_then. unfold try_except. rewrite run_call_then.
  destruct (get_container container_name _ s) as [[e|listing] s'].
  - destruct e; cbn; eexists; reflexivity.
  - rewrite run_print_then.
    destruct (summarize_cases (SwiftInspector.group_by_backup_dir listing) [] s')
      as [out [-> | ->]].
    { cbn. apply group_by_backup_dir_grouped. }
    + eexists. left. reflexivity.
    + eexists. right. reflexivity.
Qed.

(** It returns the entries of the groups when the listing arrives and
    can be displayed. *)
Lemma analyze_backup_directories_returns {St : Type}
    (get_container : string -> Query -> St -> (exn + list Obj.t) * St)
    (container_name : string) (s s' : St) (listing : list Obj.t) :
  get_container container_name (mkQuery None None None true) s
    = (inr listing, s') ->
  Design.displayable listing ->
  exists out,
    SwiftInspector.analyze_backup_directories get_container container_name s
    = (Ret (Design.entries (SwiftInspector.group_by_backup_dir listing)), out, s').
Proof.
  intros Hget Hfit. unfold SwiftInspector.analyze_backup_directories.
  rewrite run_banner_then. unfold try_except. rewrite run_call_then, Hget.
  rewrite run_print_then.
  destruct (summarize_run (SwiftInspector.group_by_backup_dir listing) [] s')
    as [out ->].
  - cbn. apply group_by_backup_dir_grouped.
  - now apply displayable_groups.
  - eexists. reflexivity.
Qed.

Lemma entries_keys d : map fst (Design.entries d) = map fst d.
Proof. unfold Design.entries. rewrite map_map. reflexivity. Qed.

Lemma In_entries k e d :
  In (k, e) (Design.entries d) <->
  exists l, In (k, l) d /\ e = SwiftInspector.entry_of l.
Proof.
  unfold Design.entries. rewrite in_map_iff. split.
  - intros ([k' l] & [= <- <-] & Hin). now exists l.
  - intros (l & Hin & ->). now exists (k, l).
Qed.

(** An entry of the analysis lists exactly the objects of the listing
    whose name is filed under its key, in listing order, and there is at
    least one. *)
Lemma entry_members listing k e :
  In (k, e) (Design.entries (SwiftInspector.group_by_backup_dir listing)) ->
  e = SwiftInspector.entry_of (filter (Design.dir_is k) listing) /\
  exists first rest, filter (Design.dir_is k) listing = first :: rest.
Proof.
  intros H. apply In_entries in H as (l & Hin & ->).
  destruct (group_by_backup_dir_grouped listing) as [Hnd Hl].
  apply (In_lookup _ _ _ Hnd) in Hin. rewrite Hl in Hin.
  destruct (filter (Design.dir_is k) listing) as [|o m] eqn:E; [discriminate|].
  injection Hin as <-. split; [reflexivity|]. now exists o, m.
Qed.

Lemma dir_is_true k o :
  Design.dir_is k o = true <-> SwiftInspector.backup_dir_of (Obj.name o) = Some k.
Proof.
  unfold Design.dir_is.
  destruct (SwiftInspector.backup_dir_of (Obj.name o)) as [k'|].
  - rewrite String.eqb_eq. split; congruence.
  - split; discriminate.
Qed.

Lemma filed_under_iff listing k o :
  Design.filed_under k o
    (Design.entries (SwiftInspector.group_by_backup_dir listing)) <->
  In o listing /\ SwiftInspector.backup_dir_of (Obj.name o) = Some k.
Proof.
  unfold Design.filed_under. split.
  - intros (e & Hin & Ho). apply entry_members in Hin as [-> _].
    cbn in Ho. apply filter_In in Ho as [Ho Hk]. split; [exact Ho|].
    now apply dir_is_true.
  - intros [Ho Hk].
    assert (Hin : In o (filter (Design.dir_is k) listing)).
    { apply filter_In. split; [exact Ho|]. now apply dir_is_true. }
    destruct (group_by_backup_dir_grouped listing) as [Hnd Hl].
    specialize (Hl k).
    destruct (filter (Design.dir_is k) listing) as [|x m] eqn:E; [destruct Hin|].
    cbn in Hl. apply lookup_In in Hl.
    exists (SwiftInspector.entry_of (x :: m)). split.
    + apply In_entries. now exists (x :: m).
    + exact Hin.
Qed.

Lemma length_append (a b : string) :
  String.length (a ++ b) = (String.length a + String.length b)%nat.
Proof. induction a as [|c a IH]; cbn; [reflexivity|now rewrite IH]. Qed.

Lemma timestamp_length (s : string) :
  Design.timestamp s -> String.length s = 15%nat.
Proof.
  intros (d & t & -> & Hd & Ht & _). rewrite !length_append, Hd, Ht. reflexivity.
Qed.

(** C4, as the code has it.  For a listing whose sizes can be shown in
    MB (the total of each backup directory and the size of each object
    filed are within the range of a float), the analysis is all that
    [analyze_backup_directories] returns.  An object of the listing whose
    name [backup_dir_of] accepts is filed under exactly one key, its first
    path segment; an object whose name it does not accept (no separator,
    or a first segment the pattern rejects) is filed nowhere: there is no
    residual list.  The keys of the analysis are pairwise distinct. *)
Theorem classification_files_accepted_objects_once
    (St : Type)
    (get_container : string -> Query -> St -> (exn + list Obj.t) * St)
    (container_name : string) (s s' : St) (listing : list Obj.t) :
  get_container container_name (mkQuery None None None true) s
    = (inr listing, s') ->
  Design.displayable listing ->
  exists analysis out,
    SwiftInspector.analyze_backup_directories get_container container_name s
      = (Ret analysis, out, s') /\
    NoDup (map fst analysis) /\
    forall o, In o listing ->
      match SwiftInspector.backup_dir_of (Obj.name o) with
      | Some k =>
          k = Design.first_segment (Obj.name o) /\
          forall k', Design.filed_under k' o analysis <-> k' = k
      | None => ~ Design.filed o analysis
      end.
Proof.
  intros Hget Hfit.
  destruct (analyze_backup_directories_returns get_container container_name
              s s' listing Hget Hfit) as [out Hrun].
  exists (Design.entries (SwiftInspector.group_by_backup_dir listing)), out.
  split; [exact Hrun|]. split.
  - rewrite entries_keys. apply group_by_backup_dir_grouped.
  - intros o Ho.
    destruct (SwiftInspector.backup_dir_of (Obj.name o)) as [k|] eqn:Hk.
    + split; [now apply backup_dir_of_spec in Hk|].
      intros k'. rewrite filed_under_iff. split.
      * intros [_ H]. congruence.
      * intros ->. auto.
    + intros [k' H]. apply filed_under_iff in H as [_ H]. congruence.
Qed.

Lemma classification_files_accepted_objects_once_witness :
  exists analysis out,
    SwiftInspector.analyze_backup_directories
      (Scenario.answering [Scenario.db; Scenario.readme]) "mattermost-backups" tt
      = (Ret analysis, out, tt) /\
    NoDup (map fst analysis) /\
    forall o, In o [Scenario.db; Scenario.readme] ->
      match SwiftInspector.backup_dir_of (Obj.name o) with
      | Some k =>
          k = Design.first_segment (Obj.name o) /\
          forall k', Design.filed_under k' o analysis <-> k' = k
      | None => ~ Design.filed o analysis
      end.
Proof.
  apply (classification_files_accepted_objects_once unit
           (Scenario.answering [Scenario.db; Scenario.readme])
           "mattermost-backups" tt tt [Scenario.db; Scenario.readme]).
  - reflexivity.
  - apply nonneg_displayable; [repeat constructor; discriminate|reflexivity].
Defined.

(** C4, as stated, fails: of the two objects [20250726_140000/db.sql] and
    [readme.txt], the second is in the listing, is filed under no backup
    directory, and is mentioned by no line of the output. *)
Lemma unmatched_object_is_dropped :
  exists analysis out,
    SwiftInspector.analyze_backup_directories
      (Scenario.answering [Scenario.db; Scenario.readme]) "mattermost-backups" tt
      = (Ret analysis, out, tt) /\
    analysis = [("20250726_140000", SwiftInspector.mkEntry 1 50000 [Scenario.db])] /\
    In Scenario.readme [Scenario.db; Scenario.readme] /\
    ~ Design.filed Scenario.readme analysis /\
    ~ (exists l, In l out /\ Design.mentions "readme.txt" l).
Proof.
  eexists. eexists. split; [reflexivity|]. split; [reflexivity|].
  split; [right; left; reflexivity|]. split.
  - intros (k & e & Hin & Hfile). cbn in Hin. destruct Hin as [[= <- <-]|[]].
    cbn in Hfile. destruct Hfile as [H|[]]. discriminate.
  - intros (l & Hin & Hm). unfold Design.mentions in Hm. cbn in Hin.
    repeat (destruct Hin as [<-|Hin];
            [cbn in Hm; repeat (destruct Hm as [Hm|Hm]; [discriminate|]);
             exact Hm|]).
    exact Hin.
Qed.

(** C9.  Whatever the backend answers, [analyze_backup_directories]
    returns or lets a non-client exception through; every entry of the
    analysis it returns lists at least one object, its [total_size] is the
    integer sum of the sizes of the objects it lists and its [objects] is
    their number. *)
Theorem backup_sets_nonempty_and_summed
    (St : Type)
    (get_container : string -> Query -> St -> (exn + list Obj.t) * St)
    (container_name : string) (s : St) :
  match SwiftInspector.analyze_backup_directories get_container container_name s with
  | (Ret analysis, _, _) =>
      Forall (fun ke =>
                let e := snd ke in
                (exists first rest, SwiftInspector.files e = first :: rest) /\
                SwiftInspector.total_size e
                  = Design.total (map Obj.bytes (SwiftInspector.files e)) /\
                SwiftInspector.objects e
                  = Z.of_nat (List.length (SwiftInspector.files e)))
             analysis
  | (Exc e, _, _) => is_ClientException e = false
  | (Spin, _, _) => False
  end.
Proof.
  destruct (analyze_backup_directories_run get_container container_name s)
    as [out Hrun].
  destruct (get_container container_name _ s) as [[e|listing] s'].
  - rewrite Hrun. destruct e; cbn; [constructor|reflexivity].
  - destruct Hrun as [-> | ->]; [|reflexivity].
    apply Forall_forall. intros [k e] Hin.
    apply entry_members in Hin as [-> (first & rest & Hne)]. cbn.
    split; [eauto|]. split; [apply sum_total|reflexivity].
Qed.

(** C5 at the failing input.  For the object name made of the timestamp
    [20250726_140000], a newline, and [/db.sql], the first segment is 16
    characters long and ends in a newline, so it is not 8 digits, an
    underscore and 6 digits; the classifier accepts it as a backup
    directory all the same. *)
Theorem newline_after_timestamp_is_accepted :
  SwiftInspector.backup_dir_of (Scenario.padded ++ "/db.sql") = Some Scenario.padded /\
  Design.first_segment (Scenario.padded ++ "/db.sql") = Scenario.padded /\
  String.length Scenario.padded = 16%nat /\
  ~ Design.timestamp Scenario.padded.
Proof.
  split; [reflexivity|]. split; [reflexivity|]. split; [reflexivity|].
  intros H. apply timestamp_length in H. discriminate.
Qed.

(** Apart from that, the classifier does as C5 says: a name without a
    separator is never accepted, and a name with one is accepted, under
    its first segment, exactly when that segment is a timestamp or a
    timestamp followed by a newline. *)
Lemma backup_dir_of_accepts (name : string) :
  (Design.has_separator name = false ->
   SwiftInspector.backup_dir_of name = None) /\
  (Design.has_separator name = true ->
   forall k,
     SwiftInspector.backup_dir_of name = Some k <->
     k = Design.first_segment name /\
     (Design.timestamp k \/
      exists t, k = (t ++ Scenario.nl)%string /\ Design.timestamp t)).
Proof.
  split.
  - intros Hsep.
    destruct (SwiftInspector.backup_dir_of name) as [k|] eqn:E; [|reflexivity].
    apply backup_dir_of_spec in E as (H & _). congruence.
  - intros Hsep k. rewrite backup_dir_of_spec, timestamp_re_spec.
    unfold Scenario.nl. tauto.
Qed.

(** ** The order of names *)

Lemma ltb_lt (a b : string) : String.ltb a b = true <-> String_as_OT.lt a b.
Proof.
  rewrite <- String_as_OT.cmp_lt. unfold String.ltb, String_as_OT.cmp.
  destruct (String.compare a b); split; congruence.
Qed.

Lemma ltb_irrefl (a : string) : String.ltb a a = false.
Proof.
  destruct (String.ltb a a) eqn:E; [|reflexivity].
  apply ltb_lt in E. apply String_as_OT.lt_not_eq in E.
  exfalso. apply E. reflexivity.
Qed.

Lemma ltb_trans (a b c : string) :
  String.ltb a b = true -> String.ltb b c = true -> String.ltb a c = true.
Proof. rewrite !ltb_lt. apply String_as_OT.lt_trans. Qed.

Lemma ltb_asym (a b : string) : String.ltb a b = true -> String.ltb b a = false.
Proof.
  intros H. destruct (String.ltb b a) eqn:E; [|reflexivity].
  rewrite <- (ltb_irrefl a). symmetry. now apply (ltb_trans a b a).
Qed.

Lemma ascending_app (l1 l2 : list Obj.t) :
  Backend.ascending (l1 ++ l2) ->
  Backend.ascending l1 /\ Backend.ascending l2 /\
  forall a b, In a l1 -> In b l2 -> String.ltb (Obj.name a) (Obj.name b) = true.
Proof.
  unfold Backend.ascending. induction l1 as [|x l1 IH]; cbn; intros H.
  - repeat split; [constructor|exact H|intros a b []].
  - apply StronglySorted_inv in H as [H Hx]. apply IH in H as (H1 & H2 & H12).
    rewrite Forall_forall in Hx. repeat split.
    + constructor; [exact H1|]. apply Forall_forall. intros y Hy.
      apply Hx. apply in_or_app. now left.
    + exact H2.
    + intros a b [<-|Ha] Hb; [|now apply H12].
      apply Hx. apply in_or_app. now right.
Qed.


Lemma last_cons {A : Type} (rest : list A) (y d : A) :
  last (y :: rest) d = last rest y.
Proof.
  revert y d. induction rest as [|z rest IH]; intros y d; [reflexivity|].
  change (last (y :: z :: rest) d) with (last (z :: rest) d).
  rewrite !IH. reflexivity.
Qed.

Lemma last_In {A : Type} (rest : list A) (first : A) :
  In (last rest first) (first :: rest).
Proof.
  revert first. induction rest as [|y rest IH]; intros first; [now left|].
  rewrite last_cons. right. apply IH.
Qed.

(** The last name of a non-empty ascending list bounds all its names. *)
Lemma ascending_last (first : Obj.t) (rest : list Obj.t) :
  Backend.ascending (first :: rest) ->
  forall o, In o (first :: rest) ->
    String.ltb (Obj.name (last rest first)) (Obj.name o) = false.
Proof.
  revert first. induction rest as [|y rest IH]; intros first H o Ho.
  - destruct Ho as [<-|[]]. apply ltb_irrefl.
  - rewrite last_cons.
    pose proof H as H'. unfold Backend.ascending in H'.
    apply StronglySorted_inv in H' as [Hrest Hfirst].
    destruct Ho as [<-|Ho]; [|now apply IH].
    apply ltb_asym. rewrite Forall_forall in Hfirst. apply Hfirst.
    apply last_In.
Qed.

(** ** The well-behaved container *)

Lemma cursor_app (done page : list Obj.t) :
  page <> [] -> Backend.cursor (done ++ page) = Backend.cursor page.
Proof.
  intros Hp. destruct page as [|p page]; [congruence|].
  destruct done as [|d done]; [reflexivity|]. cbn [Backend.cursor app].
  f_equal. f_equal. clear Hp. revert d.
  induction done as [|x done IH]; intros d; cbn [app].
  - apply last_cons.
  - rewrite last_cons. apply IH.
Qed.

Lemma filter_none {A : Type} (f : A -> bool) (l : list A) :
  (forall x, In x l -> f x = false) -> filter f l = [].
Proof.
  induction l as [|x l IH]; intros H; cbn; [reflexivity|].
  rewrite (H x) by now left. apply IH. intros y Hy. apply H. now right.
Qed.

(** What lies after the cursor is what has not been received yet. *)
Lemma remaining_after_cursor (done todo : list Obj.t) :
  Backend.ascending (done ++ todo) ->
  filter (fun o => Backend.after (Backend.cursor done) o && Backend.has_prefix None o)
         (done ++ todo) = todo.
Proof.
  intros Hasc. destruct (ascending_app _ _ Hasc) as (Hd & Ht & Hdt).
  rewrite filter_app.
  destruct done as [|first rest].
  - cbn. clear. induction todo as [|o todo IH]; cbn; [reflexivity|now rewrite IH].
  - replace (filter _ (first :: rest)) with (@nil Obj.t).
    + cbn [app]. apply forallb_filter_id. apply forallb_forall. intros o Ho.
      cbn. rewrite andb_true_r. apply Hdt; [|exact Ho]. apply last_In.
    + symmetry. apply filter_none. intros o Ho. cbn.
      rewrite andb_true_r. now apply ascending_last.
Qed.

Lemma firstn_nonempty {A : Type} (n : nat) (x : A) (l : list A) :
  (1 <= n)%nat -> exists rest, firstn n (x :: l) = x :: rest.
Proof. destruct n; [lia|]. intros _. cbn. eauto. Qed.

(** The loop over a well-behaved container: from the cursor reached after
    [done], with [todo] still to come, it returns what it had plus
    [todo]. *)
Lemma list_loop_complete (container_name : string) (page_limit : Z)
    (full : bool) (fuel : nat) :
  1 <= page_limit ->
  forall done todo acc,
    Backend.ascending (done ++ todo) ->
    (List.length todo < fuel)%nat ->
    SwiftInspector.list_loop Backend.get_container container_name
      page_limit full fuel acc (Backend.cursor done) (done ++ todo)
    = (Ret (acc ++ todo), [], done ++ todo).
Proof.
  intros HP. induction fuel as [|fuel IH]; intros done todo acc Hasc Hfuel; [lia|].
  cbn [SwiftInspector.list_loop]. rewrite run_call_then.
  unfold Backend.get_container, Backend.page.
  cbn [marker prefix full_listing limit].
  rewrite (remaining_after_cursor done todo Hasc).
  set (n := if full then List.length todo else Z.to_nat page_limit).
  assert (Hpage : (if full then todo else firstn (Z.to_nat page_limit) todo)
                  = firstn n todo).
  { unfold n. destruct full; [now rewrite firstn_all|reflexivity]. }
  rewrite Hpage.
  destruct todo as [|o todo].
  - rewrite firstn_nil. cbn. unfold M_ret. now rewrite !app_nil_r.
  - assert (Hn : (1 <= n)%nat) by (unfold n; destruct full; cbn; lia).
    destruct (firstn_nonempty n o todo Hn) as [rest Hrest].
    pose proof (firstn_skipn n (o :: todo)) as Hsplit.
    pose proof (length_firstn n (o :: todo)) as Hlen1.
    pose proof (length_skipn n (o :: todo)) as Hlen2.
    rewrite Hrest in *.
    change (Some (Obj.name (last rest o))) with (Backend.cursor (o :: rest)).
    rewrite <- (cursor_app done (o :: rest)) by discriminate.
    set (todo' := skipn n (o :: todo)) in *.
    replace (done ++ o :: todo) with ((done ++ o :: rest) ++ todo')
      by (rewrite <- app_assoc; f_equal; exact Hsplit).
    rewrite IH.
    + rewrite <- app_assoc. f_equal. f_equal. now rewrite Hsplit.
    + rewrite <- app_assoc. rewrite Hsplit. exact Hasc.
    + cbn [List.length] in *. lia.
Qed.

Lemma all_fit_true (objs : list Obj.t) :
  Forall (fun o => Design.in_float_range (Obj.bytes o) MiB) objs ->
  Props.all_fit objs = true.
Proof.
  unfold Props.all_fit. induction 1 as [|o objs Ho Hobjs IH]; [reflexivity|].
  cbn [forallb]. now rewrite (overflows_false _ _ Ho), IH.
Qed.

(** The detailed listing: it shows the objects one by one and adds up
    their sizes, until a size cannot be shown in MB. *)
Lemma details_loop_run {St : Type} (objs : list Obj.t) :
  forall (total : Z) (s : St),
  exists shown,
    SwiftInspector.details_loop objs total s
    = (if Props.all_fit objs
       then Ret (total + Design.total (map Obj.bytes objs))
       else Exc OverflowError,
       map (fun obj =>
              Print "{:<40} {:>8.2f} MB {:<20} {:<32}"
                [Str (Obj.name obj); Quot (Obj.bytes obj) MiB;
                 Str (Obj.last_modified obj);
                 Str (match Obj.hash obj with Some h => h | None => "N/A" end)])
         shown, s) /\
    (Props.all_fit objs = true -> shown = objs).
Proof.
  induction objs as [|o objs IH]; intros total s; cbn [SwiftInspector.details_loop].
  - exists []. split; [|reflexivity]. unfold Design.total. cbn. unfold M_ret.
    now rewrite Z.add_0_r.
  - rewrite run_true_div_then. unfold Props.all_fit. cbn [forallb].
    destruct (Py.overflows (Obj.bytes o) MiB); cbn [negb andb].
    + exists []. split; [reflexivity|discriminate].
    + rewrite run_print_then.
      destruct (IH (total + Obj.bytes o) s) as (shown & -> & Hshown).
      exists (o :: shown). fold (Props.all_fit objs). split.
      * destruct (Props.all_fit objs); [|reflexivity].
        unfold Design.total. cbn [map fold_right].
        rewrite <- Z.add_assoc. reflexivity.
      * intros H. now rewrite (Hshown H).
Qed.

(** The function in terms of its loop.  It returns the objects the loop
    returns when the total, and with the detailed listing every size, can
    be shown in MB, and raises [OverflowError] otherwise. *)
Lemma list_all_objects_run {St : Type}
    (get_container : string -> Query -> St -> (exn + list Obj.t) * St)
    (container_name : string) (page_limit : Z) (full : bool) (fuel : nat)
    (show_details : bool) (s : St) :
  exists partial,
  SwiftInspector.list_all_objects_with get_container container_name
    page_limit full fuel show_details s
  = match SwiftInspector.list_loop get_container container_name
            page_limit full fuel [] None s with
    | (Ret objs, o, s') =>
        if (negb show_details || Props.all_fit objs)
           && negb (Py.overflows (Design.total (map Obj.bytes objs)) MiB)
        then
          (Ret objs,
           Props.banner_lines "ALL OBJECTS IN CONTAINER"
           ++ o
           ++ Print "Found {} objects" [Int (Z.of_nat (List.length objs))]
              :: (if show_details then Props.details_lines objs else [])
              ++ [text "";
                  Print "Total calculated size: {:,} bytes ({:.2f} MB / {:.2f} GB)"
                    [Int (Design.total (map Obj.bytes objs));
                     Quot (Design.total (map Obj.bytes objs)) MiB;
                     Quot (Design.total (map Obj.bytes objs)) GiB]],
           s')
        else (Exc OverflowError, partial, s')
    | (Exc e, o, s') =>
        if is_ClientException e
        then (Ret [],
              Props.banner_lines "ALL OBJECTS IN CONTAINER" ++ o
              ++ [Print "ERROR: Failed to list objects: {}" [Str (message e)]],
              s')
        else (Exc e, Props.banner_lines "ALL OBJECTS IN CONTAINER" ++ o, s')
    | (Spin, o, s') =>
        (Spin, Props.banner_lines "ALL OBJECTS IN CONTAINER" ++ o, s')
    end.
Proof.
  unfold SwiftInspector.list_all_objects_with.
  rewrite run_banner_then. unfold try_except. rewrite run_bind.
  destruct (SwiftInspector.list_loop _ _ _ _ _ _ _ s) as [[[objs|e|] o] s'].
  - rewrite run_print_then.
    set (total := Design.total (map Obj.bytes objs)).
    assert (Htail : forall (k : M St (list Obj.t)) (lines : list Line),
               (k = (total_mb <- true_div total MiB ;;
                     total_gb <- true_div total GiB ;;
                     print (text "") ;;
                     print (Print "Total calculated size: {:,} bytes ({:.2f} MB / {:.2f} GB)"
                              [Int total; total_mb; total_gb]) ;;
                     ret objs)) ->
               k s' = if Py.overflows total MiB
                      then (Exc OverflowError, [], s')
                      else (Ret objs,
                            [text "";
                             Print "Total calculated size: {:,} bytes ({:.2f} MB / {:.2f} GB)"
                               [Int total; Quot total MiB; Quot total GiB]], s')).
    { intros k lines ->. rewrite run_true_div_then.
      destruct (Py.overflows total MiB) eqn:E; [reflexivity|].
      rewrite run_div_then
        by (apply in_float_range_GiB, overflows_in_range; exact E).
      reflexivity. }
    destruct show_details; cbn [negb orb].
    + rewrite run_bind. repeat rewrite run_print_then.
      destruct (details_loop_run objs 0 s') as (shown & -> & Hshown).
      destruct (Props.all_fit objs); cbn [andb].
      * rewrite (Hshown eq_refl), Z.add_0_l. fold total.
        rewrite (Htail _ [] eq_refl).
        destruct (Py.overflows total MiB); cbn [negb].
        -- eexists. reflexivity.
        -- exists []. reflexivity.
      * eexists. reflexivity.
    + rewrite run_ret_then, sum_total. fold total.
      rewrite (Htail _ [] eq_refl).
      destruct (Py.overflows total MiB); cbn [negb andb].
      * eexists. reflexivity.
      * exists []. reflexivity.
  - exists []. destruct e; reflexivity.
  - exists []. reflexivity.
Qed.

(** When the loop returns and the sizes can be shown, so does the
    function, with the same objects. *)
Lemma list_all_objects_returns {St : Type}
    (get_container : string -> Query -> St -> (exn + list Obj.t) * St)
    (container_name : string) (page_limit : Z) (full : bool) (fuel : nat)
    (show_details : bool) (s s' : St) (all_objects : list Obj.t) (out : list Line) :
  SwiftInspector.list_loop get_container container_name page_limit full fuel [] None s
    = (Ret all_objects, out, s') ->
  Design.in_float_range (Design.total (map Obj.bytes all_objects)) MiB ->
  (show_details = true ->
   Forall (fun o => Design.in_float_range (Obj.bytes o) MiB) all_objects) ->
  exists out',
    SwiftInspector.list_all_objects_with get_container container_name
      page_limit full fuel show_details s
    = (Ret all_objects, out', s').
Proof.
  intros Hloop Htotal Hobjs.
  destruct (list_all_objects_run get_container container_name page_limit full
              fuel show_details s) as [partial ->].
  rewrite Hloop, (overflows_false _ _ Htotal).
  destruct show_details; cbn [negb orb andb].
  - rewrite (all_fit_true _ (Hobjs eq_refl)). eexists. reflexivity.
  - eexists. reflexivity.
Qed.





(** The script's own request, [limit=1000, full_listing=True]. *)
Corollary list_all_objects_complete
    (store : list Obj.t) (container_name : string) (show_details : bool) :
  Backend.ascending store ->
  Design.in_float_range (Design.total (map Obj.bytes store)) MiB ->
  (show_details = true ->
   Forall (fun o => Design.in_float_range (Obj.bytes o) MiB) store) ->
  exists out,
    SwiftInspector.list_all_objects Backend.get_container container_name
      (S (List.length store)) show_details store
    = (Ret store, out, store).
Proof.
  intros Hasc Htotal Hobjs.
  assert (HP : 1 <= 1000) by lia.
  assert (Hfuel : (List.length store < S (List.length store))%nat) by lia.
  pose proof (list_loop_complete container_name 1000 true
                (S (List.length store)) HP [] store [] Hasc Hfuel) as Hloop.
  cbn [app Backend.cursor] in Hloop.
  exact (list_all_objects_returns _ _ _ _ _ show_details _ _ _ _
           Hloop Htotal Hobjs).
Qed.

(** C2, as the code has it.  Let the backend answer the request after the
    cursor [m], whenever it is asked, with a non-empty page whose last
    name is [m] again.  From that cursor on the loop neither raises nor
    returns: after any number of rounds it is still asking. *)
Theorem non_advancing_cursor_never_ends
    (St : Type)
    (get_container : string -> Query -> St -> (exn + list Obj.t) * St)
    (container_name : string) (page_limit : Z) (full : bool)
    (m : string) (first : Obj.t) (rest : list Obj.t) :
  (forall s, exists s',
      get_container container_name
        (mkQuery (Some m) (Some page_limit) None full) s
      = (inr (first :: rest), s')) ->
  Obj.name (last rest first) = m ->
  forall fuel acc s,
    fst (fst (SwiftInspector.list_loop get_container container_name
                page_limit full fuel acc (Some m) s)) = Spin.
Proof.
  intros Hpage Hlast. induction fuel as [|fuel IH]; intros acc s; [reflexivity|].
  cbn [SwiftInspector.list_loop]. rewrite run_call_then.
  destruct (Hpage s) as [s' ->]. rewrite Hlast. apply IH.
Qed.

Lemma non_advancing_cursor_never_ends_witness :
  fst (fst (SwiftInspector.list_loop (Scenario.answering [Scenario.db])
              "mattermost-backups" 1000 true 7 [Scenario.db]
              (Some "20250726_140000/db.sql") tt)) = Spin.
Proof.
  apply (non_advancing_cursor_never_ends unit (Scenario.answering [Scenario.db])
           "mattermost-backups" 1000 true "20250726_140000/db.sql" Scenario.db []).
  - intros s. exists s. reflexivity.
  - reflexivity.
Defined.

(** C2, as stated, fails.  A backend answers every request with the single
    object [20250726_140000/db.sql], so that the second page ends with
    the name the first page ended with.  No fault is signalled: however
    many rounds [list_all_objects] is given, it has neither raised nor
    returned. *)
Lemma repeated_page_is_no_fault :
  ~ (exists fuel show_details,
        Design.finished
          (SwiftInspector.list_all_objects (Scenario.answering [Scenario.db])
             "mattermost-backups" fuel show_details tt)).
Proof.
  assert (Hloop : forall fuel acc marker,
             SwiftInspector.list_loop (Scenario.answering [Scenario.db])
               "mattermost-backups" 1000 true fuel acc marker tt = (Spin, [], tt)).
  { induction fuel as [|fuel IH]; intros acc marker; [reflexivity|].
    cbn [SwiftInspector.list_loop]. rewrite run_call_then.
    unfold Scenario.answering at 1. apply IH. }
  intros (fuel & show_details & Hfin). revert Hfin.
  unfold Design.finished, SwiftInspector.list_all_objects,
    SwiftInspector.list_all_objects_with.
  rewrite run_banner_then. unfold try_except. rewrite run_bind, Hloop.
  cbn. tauto.
Qed.

(** ** Totals *)

Lemma int_header_run {S : Type} (key : string) (info : Headers) (s : S) :
  int_header key info s =
  (match Design.header_value key info with
   | Some z => Ret z
   | None =>
       Exc (Exception
              match lookup key info with
              | Some txt => Py.int_error txt
              | None => ""
              end)
   end, [], s).
Proof.
  unfold int_header, Design.header_value.
  destruct (lookup key info) as [txt|]; [|reflexivity].
  destruct (Py.int txt); reflexivity.
Qed.

Lemma run_int_header_then {S B : Type} (key : string) (info : Headers)
    (k : Z -> M S B) (s : S) :
  bind (int_header key info) k s =
  match Design.header_value key info with
  | Some z => k z s
  | None =>
      (Exc (Exception
              match lookup key info with
              | Some txt => Py.int_error txt
              | None => ""
              end), [], s)
  end.
Proof.
  rewrite run_bind, int_header_run.
  destruct (Design.header_value key info) as [z|]; [|reflexivity].
  destruct (k z s) as [[r out] s']. reflexivity.
Qed.

(** C10.  An empty container enumerates to the empty list, with 0 objects
    found and a total of 0 bytes, and without an error; an account
    without containers, whose reported total can be shown in GB, adds up
    to 0 containers and 0 bytes. *)
Theorem empty_aggregates_to_zero
    (St : Type)
    (head_account : St -> (exn + Headers) * St)
    (head_container : string -> St -> (exn + Headers) * St)
    (get_container : string -> Query -> St -> (exn + list Obj.t) * St)
    (get_account : St -> (exn + list Container.t) * St)
    (container_name : string) (fuel : nat)
    (s s' t t1 t2 : St) (info : Headers) (reported : Z) :
  get_container container_name (mkQuery None (Some 1000) None true) s
    = (inr [], s') ->
  head_account t = (inr info, t1) ->
  Design.header_value "x-account-bytes-used" info = Some reported ->
  Design.in_float_range reported GiB ->
  get_account t1 = (inr [], t2) ->
  SwiftInspector.list_all_objects get_container container_name (S fuel) false s
    = (Ret [],
       [text ""; text (repeat_char "=" 60); text "ALL OBJECTS IN CONTAINER";
        text (repeat_char "=" 60);
        Print "Found {} objects" [Int 0];
        text "";
        Print "Total calculated size: {:,} bytes ({:.2f} MB / {:.2f} GB)"
          [Int 0; Quot 0 MiB; Quot 0 GiB]],
       s') /\
  SwiftInspector.list_all_objects get_container container_name (S fuel) true s
    = (Ret [],
       [text ""; text (repeat_char "=" 60); text "ALL OBJECTS IN CONTAINER";
        text (repeat_char "=" 60);
        Print "Found {} objects" [Int 0];
        text ""; text "Detailed object listing:"; text (repeat_char "-" 80);
        Print "{:<40} {:<12} {:<20} {:<32}"
          [Str "Name"; Str "Size"; Str "Last Modified"; Str "ETag"];
        text (repeat_char "-" 80);
        text "";
        Print "Total calculated size: {:,} bytes ({:.2f} MB / {:.2f} GB)"
          [Int 0; Quot 0 MiB; Quot 0 GiB]],
       s') /\
  CheckAllContainers.containers_loop head_container get_container [] 0 t2
    = (Ret 0, [], t2) /\
  exists verdict_lines,
    CheckAllContainers.check_all_containers
      head_account head_container get_container get_account t
    = (Ret tt,
       [text (repeat_char "=" 80); text "ALL CONTAINERS IN SWIFT ACCOUNT";
        text (repeat_char "=" 80);
        Print "Account total containers: {}"
          [Hdr (lookup "x-account-container-count" info)];
        Print "Account total objects: {}"
          [Hdr (lookup "x-account-object-count" info)];
        Print "Account total bytes: {} ({:.3f} GB)"
          [Hdr (lookup "x-account-bytes-used" info); Quot reported GiB];
        text "";
        Print "Found {} containers:" [Int 0];
        text (repeat_char "-" 80);
        text "";
        Print "Calculated total size: {:,} bytes ({:.3f} GB)" [Int 0; Quot 0 GiB];
        Print "Account reported size: {:,} bytes ({:.3f} GB)"
          [Int reported; Quot reported GiB]] ++ verdict_lines,
       t2).
Proof.
  intros Hpage Hacc Hval Hfit Hcs.
  repeat split.
  - unfold SwiftInspector.list_all_objects, SwiftInspector.list_all_objects_with.
    rewrite run_banner_then. unfold try_except.
    cbn [SwiftInspector.list_loop]. rewrite run_bind, run_call_then, Hpage.
    reflexivity.
  - unfold SwiftInspector.list_all_objects, SwiftInspector.list_all_objects_with.
    rewrite run_banner_then. unfold try_except.
    cbn [SwiftInspector.list_loop]. rewrite run_bind, run_call_then, Hpage.
    reflexivity.
  - unfold CheckAllContainers.check_all_containers.
    repeat rewrite run_print_then. rewrite run_call_then, Hacc.
    repeat rewrite run_print_then. rewrite run_int_header_then, Hval.
    rewrite (run_div_then _ _ _ _ Hfit).
    rewrite run_print_then, run_call_then, Hcs.
    repeat rewrite run_print_then. cbn [CheckAllContainers.containers_loop].
    rewrite run_ret_then.
    rewrite run_div_then by reflexivity.
    repeat rewrite run_print_then.
    rewrite run_int_header_then, Hval. rewrite (run_div_then _ _ _ _ Hfit).
    rewrite run_print_then.
    unfold CheckAllContainers.verdict. rewrite Z.sub_0_r.
    destruct (Z.abs (0 - reported) >? 1000).
    + rewrite (run_div_then _ _ _ _ Hfit). eexists. reflexivity.
    + eexists. reflexivity.
Qed.

Lemma empty_aggregates_to_zero_witness :
  fst (fst (SwiftInspector.list_all_objects (Scenario.answering [])
              "mattermost-backups" 1 false tt)) = Ret [] /\
  fst (fst (CheckAllContainers.check_all_containers
              (Scenario.account (Scenario.account_reporting "0"))
              (Scenario.container []) (Scenario.answering [])
              (Scenario.containers []) tt)) = Ret tt.
Proof.
  destruct (empty_aggregates_to_zero unit
              (Scenario.account (Scenario.account_reporting "0"))
              (Scenario.container []) (Scenario.answering [])
              (Scenario.containers []) "mattermost-backups" 0
              tt tt tt tt tt (Scenario.account_reporting "0") 0
              eq_refl eq_refl eq_refl eq_refl eq_refl)
    as (H1 & _ & _ & lines & H4).
  rewrite H1, H4. split; reflexivity.
Defined.




Lemma show_objects_cases {St : Type} (objs : list Obj.t) (s : St) :
  exists r out,
    CheckAllContainers.show_objects objs s = (r, out, s) /\
    (r = Ret tt \/ r = Exc OverflowError).
Proof.
  unfold CheckAllContainers.show_objects.
  destruct (for_each_div_print_cases Obj.bytes MiB
              (fun obj q => Print "    {:<50} {:>8.2f} MB  {}"
                              [Str (Obj.name obj); q; Str (Obj.last_modified obj)])
              objs s) as (r & shown & -> & Hr).
  eauto.
Qed.

(** The details of a container are read inside [try ... except
    Exception]: whatever happens there, the script goes on. *)
Lemma container_details_returns {St : Type}
    (head_container : string -> St -> (exn + Headers) * St)
    (get_container : string -> Query -> St -> (exn + list Obj.t) * St)
    (name : string) (count : Z) (s : St) :
  exists out s',
    CheckAllContainers.container_details head_container get_container
      name count s = (Ret tt, out, s').
Proof.
  unfold CheckAllContainers.container_details, try_except.
  rewrite run_call_then.
  destruct (head_container name s) as [[e|info] s1]; [cbn; eauto|].
  rewrite run_print_then.
  destruct ((count >? 0) && (count <=? 20)).
  - rewrite run_call_then.
    destruct (get_container name _ s1) as [[e|objs] s2]; [cbn; eauto|].
    rewrite run_print_then.
    destruct (show_objects_cases objs s2) as (r & out & -> & [-> | ->]);
      cbn; eauto.
  - destruct (count >? 20); [|cbn; eauto].
    rewrite run_call_then.
    destruct (get_container name _ s1) as [[e|objs] s2]; [cbn; eauto|].
    rewrite run_print_then, run_bind.
    destruct (show_objects_cases objs s2) as (r & out & -> & [-> | ->]);
      cbn; eauto.
Qed.

(** The two totals the verdict is given: the sum of the sizes of the
    containers of the account listing, and the account's header.  The
    loop returns when the size of every container can be shown in GB. *)
Lemma containers_loop_run {St : Type}
    (head_container : string -> St -> (exn + Headers) * St)
    (get_container : string -> Query -> St -> (exn + list Obj.t) * St)
    (containers : list Container.t) :
  Forall (fun c => Design.in_float_range (Container.bytes c) GiB) containers ->
  forall (total : Z) (s : St),
  exists out s',
    CheckAllContainers.containers_loop head_container get_container
      containers total s
    = (Ret (total + Design.total (map Container.bytes containers)), out, s').
Proof.
  induction 1 as [|c cs Hc Hcs IH]; intros total s.
  - exists [], s. unfold Design.total. cbn. unfold M_ret. now rewrite Z.add_0_r.
  - cbn [CheckAllContainers.containers_loop].
    rewrite (run_div_then _ _ _ _ Hc). repeat rewrite run_print_then.
    rewrite run_bind.
    destruct (container_details_returns head_container get_container
                (Container.name c) (Container.count c) s) as (out1 & s1 & ->).
    destruct (IH (total + Container.bytes c) s1) as (out2 & s2 & ->).
    eexists. eexists. unfold Design.total. cbn [map fold_right].
    rewrite Z.add_assoc. reflexivity.
Qed.

(** ** Probing prefixes *)

Lemma probe_run {St : Type}
    (get_container : string -> Query -> St -> (exn + list Obj.t) * St)
    (container_name p : string) (s : St) :
  DeepSwiftScan.probe get_container container_name p s =
  let '(r, s1) :=
    get_container container_name (mkQuery None None (Some p) true) s in
  (Ret tt, Design.probe_lines (p, r), s1).
Proof.
  unfold DeepSwiftScan.probe, try_except. rewrite run_call_then.
  destruct (get_container container_name _ s) as [[e|objs] s1].
  - reflexivity.
  - destruct objs as [|o objs]; [reflexivity|].
    rewrite run_print_then, run_bind, for_each_print.
    cbn [Design.probe_lines].
    destruct (3 <? List.length (o :: objs))%nat; reflexivity.
Qed.

(** C8.  Whatever the list of prefixes and whatever the backend answers,
    the loop over the prefixes returns normally; it has sent one request
    per prefix, in order, each from the state the previous one left; and
    its output is, prefix after prefix, the report of that prefix's own
    answer -- for a failed request the one error line that names the
    prefix. *)
Theorem probe_failure_is_isolated
    (St : Type)
    (get_container : string -> Query -> St -> (exn + list Obj.t) * St)
    (container_name : string) (prefixes : list string) (s : St) :
  let '(answers, s') :=
    Design.replies get_container container_name prefixes s in
  DeepSwiftScan.probe_all get_container container_name prefixes s
    = (Ret tt, flat_map Design.probe_lines answers, s') /\
  map fst answers = prefixes /\
  Forall (fun pr =>
            match snd pr with
            | inl e =>
                Design.probe_lines pr
                = [Print "     Prefix '{}' ERROR: {}"
                     [Str (fst pr); Str (message e)]]
            | inr _ => True
            end) answers.
Proof.
  revert s. induction prefixes as [|p prefixes IH]; intros s.
  - cbn. repeat split. constructor.
  - cbn [Design.replies]. unfold DeepSwiftScan.probe_all. cbn [for_each].
    rewrite run_bind, probe_run.
    destruct (get_container container_name _ s) as [r s1].
    specialize (IH s1).
    destruct (Design.replies get_container container_name prefixes s1)
      as [answers s2].
    destruct IH as (Hrun & Hfst & Hall).
    unfold DeepSwiftScan.probe_all in Hrun. rewrite Hrun.
    repeat split.
    + cbn. now rewrite Hfst.
    + constructor; [|exact Hall]. destruct r; reflexivity || exact I.
Qed.

(** ** [check_for_hidden_data] *)

Lemma shape_container_lines (containers : list Container.t) :
  Design.shape
    (map (fun container =>
            Print "  {}: {} objects, {:,} bytes ({:.3f} GB)"
              [Str (Container.name container); Int (Container.count container);
               Int (Container.bytes container);
               Quot (Container.bytes container) GiB]) containers)
  = repeat "  {}: {} objects, {:,} bytes ({:.3f} GB)" (List.length containers).
Proof.
  induction containers as [|c cs IH]; [reflexivity|]. cbn. f_equal. exact IH.
Qed.

Lemma causes_container_lines (containers : list Container.t) :
  Design.causes
    (map (fun container =>
            Print "  {}: {} objects, {:,} bytes ({:.3f} GB)"
              [Str (Container.name container); Int (Container.count container);
               Int (Container.bytes container);
               Quot (Container.bytes container) GiB]) containers)
  = [].
Proof.
  induction containers as [|c cs IH]; [reflexivity|]. exact IH.
Qed.

Lemma causes_app (out1 out2 : list Line) :
  Design.causes (out1 ++ out2) = Design.causes out1 ++ Design.causes out2.
Proof. unfold Design.causes. now rewrite filter_app, map_app. Qed.

(** The other containers of the account: whatever the listing and the
    sizes, no line is a candidate cause. *)
Lemma other_containers_cases {St : Type}
    (get_account : St -> (exn + list Container.t) * St) (s : St) :
  exists r tail,
    SwiftInspector.other_containers get_account s
    = (r, tail, snd (get_account s)) /\
    (r = Ret tt \/ exists e, r = Exc e) /\
    Design.causes tail = [].
Proof.
  unfold SwiftInspector.other_containers. rewrite run_call_then.
  destruct (get_account s) as [[e|containers] s']; cbn [snd].
  - exists (Exc e), []. repeat split. right. now exists e.
  - destruct (1 <? List.length containers)%nat.
    + repeat rewrite run_print_then. cbv zeta.
      destruct (for_each_div_print_cases Container.bytes GiB
                  (fun container q =>
                     Print "  {}: {} objects, {:,} bytes ({:.3f} GB)"
                       [Str (Container.name container);
                        Int (Container.count container);
                        Int (Container.bytes container); q])
                  containers s') as (r & shown & -> & Hr).
      eexists. eexists. split; [reflexivity|]. split.
      * destruct Hr as [-> | ->]; [now left|right; eauto].
      * change (Design.causes (?a :: ?b :: ?l)) with (Design.causes l).
        apply causes_container_lines.
    + exists (Ret tt), []. repeat split. now left.
Qed.

(** They are listed when the listing arrives and, if there are more
    than one, every size can be shown in GB. *)
Lemma other_containers_returns {St : Type}
    (get_account : St -> (exn + list Container.t) * St) (s s' : St)
    (containers : list Container.t) :
  get_account s = (inr containers, s') ->
  ((1 < List.length containers)%nat ->
   Forall (fun c => Design.in_float_range (Container.bytes c) GiB) containers) ->
  SwiftInspector.other_containers get_account s
  = (Ret tt,
     (if (1 <? List.length containers)%nat
      then text ""
           :: Print "⚠ Found {} containers in account:"
                [Int (Z.of_nat (List.length containers))]
           :: map (fun container =>
                     Print "  {}: {} objects, {:,} bytes ({:.3f} GB)"
                       [Str (Container.name container);
                        Int (Container.count container);
                        Int (Container.bytes container);
                        Quot (Container.bytes container) GiB]) containers
      else []),
     s').
Proof.
  intros Hcs Hfit. unfold SwiftInspector.other_containers.
  rewrite run_call_then, Hcs.
  destruct (Nat.ltb_spec 1 (List.length containers)) as [Hlen|Hlen]; [|reflexivity].
  repeat rewrite run_print_then. cbv zeta.
  rewrite (for_each_div_print Container.bytes GiB
             (fun container q =>
                Print "  {}: {} objects, {:,} bytes ({:.3f} GB)"
                  [Str (Container.name container);
                   Int (Container.count container);
                   Int (Container.bytes container); q])
             containers s' (Hfit Hlen)).
  reflexivity.
Qed.

(** The lines of the report on the three totals. *)
Lemma check_for_hidden_data_run {St : Type}
    (head_account : St -> (exn + Headers) * St)
    (head_container : string -> St -> (exn + Headers) * St)
    (get_container : string -> Query -> St -> (exn + list Obj.t) * St)
    (get_account : St -> (exn + list Container.t) * St)
    (container_name : string) (s s1 s2 s3 : St)
    (account_info container_info : Headers) (objects : list Obj.t)
    (account_bytes container_bytes : Z) :
  head_account s = (inr account_info, s1) ->
  Design.header_value "x-account-bytes-used" account_info = Some account_bytes ->
  head_container container_name s1 = (inr container_info, s2) ->
  Design.header_value "x-container-bytes-used" container_info
    = Some container_bytes ->
  get_container container_name (mkQuery None None None true) s2
    = (inr objects, s3) ->
  Design.in_float_range account_bytes GiB ->
  Design.in_float_range container_bytes GiB ->
  Design.in_float_range (Design.total (map Obj.bytes objects)) GiB ->
  let object_bytes := Design.total (map Obj.bytes objects) in
  let report :=
    [text ""; text (repeat_char "=" 60); text "HIDDEN DATA INVESTIGATION";
     text (repeat_char "=" 60);
     Print "Account total bytes: {:,} ({:.3f} GB)"
       [Int account_bytes; Quot account_bytes GiB];
     Print "Container bytes: {:,} ({:.3f} GB)"
       [Int container_bytes; Quot container_bytes GiB];
     Print "Object sum bytes: {:,} ({:.3f} GB)"
       [Int object_bytes; Quot object_bytes GiB];
     text ""; text "Discrepancy analysis:";
     Print "Container vs Objects: {:,} bytes" [Int (container_bytes - object_bytes)];
     Print "Account vs Container: {:,} bytes" [Int (account_bytes - container_bytes)]]
    ++ (if container_bytes - object_bytes >? 0
        then [Print "⚠ Container reports {:,} more bytes than object sum"
                [Int (container_bytes - object_bytes)];
              text "  This could indicate:";
              text "  - Object versioning or snapshots";
              text "  - Soft-deleted objects";
              text "  - Metadata overhead";
              text "  - Swift storage allocation overhead"]
        else [])
    ++ (if account_bytes - container_bytes >? 0
        then [Print "⚠ Account reports {:,} more bytes than this container"
                [Int (account_bytes - container_bytes)];
              text "  This could indicate other containers or account metadata"]
        else []) in
  SwiftInspector.check_for_hidden_data
    head_account head_container get_container get_account container_name s
  = let '(r, tail, s4) := SwiftInspector.other_containers get_account s3 in
    match r with
    | Ret _ => (Ret tt, report ++ tail, s4)
    | Exc e =>
        (Ret tt,
         report ++ tail
         ++ [Print "ERROR during hidden data investigation: {}" [Str (message e)]],
         s4)
    | Spin => (Spin, report ++ tail, s4)
    end.
Proof.
  intros Hacc Ha Hcont Hc Hobjs Hfa Hfc Hfo object_bytes report.
  unfold SwiftInspector.check_for_hidden_data.
  rewrite run_banner_then. unfold try_except.
  rewrite run_call_then, Hacc, run_int_header_then, Ha.
  rewrite run_call_then, Hcont, run_int_header_then, Hc.
  rewrite run_call_then, Hobjs. rewrite sum_total. fold object_bytes.
  rewrite (run_div_then _ _ _ _ Hfa), run_print_then.
  rewrite (run_div_then _ _ _ _ Hfc), run_print_then.
  rewrite (run_div_then _ _ _ _ Hfo).
  repeat rewrite run_print_then. unfold report.
  destruct (container_bytes - object_bytes >? 0);
    destruct (account_bytes - container_bytes >? 0);
    repeat (rewrite run_bind_assoc || rewrite run_print_then
            || rewrite run_ret_then);
    destruct (SwiftInspector.other_containers get_account s3)
      as [[[[]|e|] tail] s4]; reflexivity.
Qed.

(** C6, as the code has it.  Once the three totals have been read, and
    provided each of them can be shown in GB, the report returns
    normally, and the candidate causes it lists for the container are
    decided by the sign of the difference between the container's total
    and the sum over the objects, with no tolerance: the four causes
    (versioning or snapshots, soft-deleted objects, metadata overhead,
    allocation overhead) when the difference is positive, and none when
    it is zero or negative. *)
Theorem causes_follow_sign_of_difference
    (St : Type)
    (head_account : St -> (exn + Headers) * St)
    (head_container : string -> St -> (exn + Headers) * St)
    (get_container : string -> Query -> St -> (exn + list Obj.t) * St)
    (get_account : St -> (exn + list Container.t) * St)
    (container_name : string) (s s1 s2 s3 : St)
    (account_info container_info : Headers) (objects : list Obj.t)
    (account_bytes container_bytes : Z) :
  head_account s = (inr account_info, s1) ->
  Design.header_value "x-account-bytes-used" account_info = Some account_bytes ->
  head_container container_name s1 = (inr container_info, s2) ->
  Design.header_value "x-container-bytes-used" container_info
    = Some container_bytes ->
  get_container container_name (mkQuery None None None true) s2
    = (inr objects, s3) ->
  Design.in_float_range account_bytes GiB ->
  Design.in_float_range container_bytes GiB ->
  Design.in_float_range (Design.total (map Obj.bytes objects)) GiB ->
  exists out s4,
    SwiftInspector.check_for_hidden_data
      head_account head_container get_container get_account container_name s
    = (Ret tt, out, s4) /\
    (container_bytes - Design.total (map Obj.bytes objects) > 0 ->
     Design.causes out = Design.container_causes) /\
    (container_bytes - Design.total (map Obj.bytes objects) <= 0 ->
     Design.causes out = []).
Proof.
  intros Hacc Ha Hcont Hc Hobjs Hfa Hfc Hfo.
  pose proof (check_for_hidden_data_run head_account head_container get_container
                get_account container_name s s1 s2 s3 account_info
                container_info objects account_bytes container_bytes
                Hacc Ha Hcont Hc Hobjs Hfa Hfc Hfo) as Hrun.
  cbv zeta in Hrun. rewrite Hrun. clear Hrun.
  destruct (other_containers_cases get_account s3) as (r & tail & -> & Hr & Htail).
  set (d := container_bytes - Design.total (map Obj.bytes objects)).
  assert (Hacc_more : forall b : bool,
            Design.causes
              (if b
               then [Print "⚠ Account reports {:,} more bytes than this container"
                       [Int (account_bytes - container_bytes)];
                     text "  This could indicate other containers or account metadata"]
               else []) = []) by (intros []; reflexivity).
  destruct Hr as [-> | [e ->]];
    (eexists; eexists; split; [reflexivity|]);
    rewrite !causes_app, Htail, Hacc_more, ?app_nil_r;
    (split; intros Hd; destruct (Z.gtb_spec d 0); try lia; reflexivity).
Qed.

Lemma causes_follow_sign_of_difference_witness :
  exists out s4,
    SwiftInspector.check_for_hidden_data
      (Scenario.account (Scenario.account_reporting "10000000"))
      (Scenario.container (Scenario.container_reporting "10000000"))
      (Scenario.answering Scenario.three)
      (Scenario.containers [Container.mk "mattermost-backups" 3 10000000])
      "mattermost-backups" tt
    = (Ret tt, out, s4) /\
    (10000000 - Design.total (map Obj.bytes Scenario.three) > 0 ->
     Design.causes out = Design.container_causes) /\
    (10000000 - Design.total (map Obj.bytes Scenario.three) <= 0 ->
     Design.causes out = []).
Proof.
  apply (causes_follow_sign_of_difference unit
           (Scenario.account (Scenario.account_reporting "10000000"))
           (Scenario.container (Scenario.container_reporting "10000000"))
           (Scenario.answering Scenario.three)
           (Scenario.containers [Container.mk "mattermost-backups" 3 10000000])
           "mattermost-backups" tt tt tt tt
           (Scenario.account_reporting "10000000")
           (Scenario.container_reporting "10000000")
           Scenario.three 10000000 10000000); reflexivity.
Defined.

(** C6, as stated, fails.  The container reports 500000 bytes and its
    three objects add up to 499500: the difference, 500, is within a
    tolerance of 1000, and the four causes are listed all the same.  The
    container reports 497000 bytes: the difference, -2500, is negative
    and beyond the tolerance, and no cause is listed. *)
Lemma causes_ignore_the_tolerance :
  (exists out,
      SwiftInspector.check_for_hidden_data
        (Scenario.account (Scenario.account_reporting "500000"))
        (Scenario.container (Scenario.container_reporting "500000"))
        (Scenario.answering Scenario.three)
        (Scenario.containers [Container.mk "mattermost-backups" 3 500000])
        "mattermost-backups" tt
      = (Ret tt, out, tt) /\
      500000 - Design.total (map Obj.bytes Scenario.three) = 500 /\
      Z.abs 500 <= 1000 /\
      Design.causes out = Design.container_causes) /\
  (exists out,
      SwiftInspector.check_for_hidden_data
        (Scenario.account (Scenario.account_reporting "497000"))
        (Scenario.container (Scenario.container_reporting "497000"))
        (Scenario.answering Scenario.three)
        (Scenario.containers [Container.mk "mattermost-backups" 3 497000])
        "mattermost-backups" tt
      = (Ret tt, out, tt) /\
      497000 - Design.total (map Obj.bytes Scenario.three) = -2500 /\
      Z.abs (-2500) > 1000 /\
      Design.causes out = []).
Proof.
  split; eexists; (split; [reflexivity|]); (split; [reflexivity|]);
    (split; [lia|reflexivity]).
Qed.

(** C7, as the code has it.  Whatever the totals read, negative ones
    included, provided each size shown in GB is within the range of a
    float, the report returns normally; it shows the three totals as
    they were read and the two differences computed from them; and the
    texts of its lines are decided by three tests alone -- whether the
    container reports more than the objects add up to, whether the
    account reports more than the container, and whether the account has
    more than one container.  No line depends on the sign of a total. *)
Theorem totals_are_reported_as_read
    (St : Type)
    (head_account : St -> (exn + Headers) * St)
    (head_container : string -> St -> (exn + Headers) * St)
    (get_container : string -> Query -> St -> (exn + list Obj.t) * St)
    (get_account : St -> (exn + list Container.t) * St)
    (container_name : string) (s s1 s2 s3 s4 : St)
    (account_info container_info : Headers) (objects : list Obj.t)
    (containers : list Container.t)
    (account_bytes container_bytes : Z) :
  head_account s = (inr account_info, s1) ->
  Design.header_value "x-account-bytes-used" account_info = Some account_bytes ->
  head_container container_name s1 = (inr container_info, s2) ->
  Design.header_value "x-container-bytes-used" container_info
    = Some container_bytes ->
  get_container container_name (mkQuery None None None true) s2
    = (inr objects, s3) ->
  get_account s3 = (inr containers, s4) ->
  Design.in_float_range account_bytes GiB ->
  Design.in_float_range container_bytes GiB ->
  Design.in_float_range (Design.total (map Obj.bytes objects)) GiB ->
  ((1 < List.length containers)%nat ->
   Forall (fun c => Design.in_float_range (Container.bytes c) GiB) containers) ->
  let object_bytes := Design.total (map Obj.bytes objects) in
  exists out,
    SwiftInspector.check_for_hidden_data
      head_account head_container get_container get_account container_name s
    = (Ret tt, out, s4) /\
    In (Print "Account total bytes: {:,} ({:.3f} GB)"
          [Int account_bytes; Quot account_bytes GiB]) out /\
    In (Print "Container bytes: {:,} ({:.3f} GB)"
          [Int container_bytes; Quot container_bytes GiB]) out /\
    In (Print "Object sum bytes: {:,} ({:.3f} GB)"
          [Int object_bytes; Quot object_bytes GiB]) out /\
    In (Print "Container vs Objects: {:,} bytes"
          [Int (container_bytes - object_bytes)]) out /\
    In (Print "Account vs Container: {:,} bytes"
          [Int (account_bytes - container_bytes)]) out /\
    Design.shape out
    = Design.hidden_data_shape
        (container_bytes - object_bytes >? 0)
        (account_bytes - container_bytes >? 0)
        (List.length containers).
Proof.
  intros Hacc Ha Hcont Hc Hobjs Hcs Hfa Hfc Hfo Hfcs object_bytes.
  pose proof (check_for_hidden_data_run head_account head_container get_container
                get_account container_name s s1 s2 s3 account_info
                container_info objects account_bytes container_bytes
                Hacc Ha Hcont Hc Hobjs Hfa Hfc Hfo) as Hrun.
  cbv zeta in Hrun. fold object_bytes in Hrun.
  rewrite (other_containers_returns get_account s3 s4 containers Hcs Hfcs) in Hrun.
  rewrite Hrun. clear Hrun.
  eexists. split; [reflexivity|].
  repeat split; try (apply in_or_app; left; apply in_or_app; left; cbn; tauto).
  unfold Design.shape, Design.hidden_data_shape. rewrite !map_app.
  rewrite <- !app_assoc.
  f_equal. f_equal; [destruct (container_bytes - object_bytes >? 0); reflexivity|].
  f_equal; [destruct (account_bytes - container_bytes >? 0); reflexivity|].
  destruct (1 <? List.length containers)%nat; [|reflexivity].
  cbn [map template]. f_equal. f_equal. apply shape_container_lines.
Qed.

Lemma totals_are_reported_as_read_witness :
  exists out,
    SwiftInspector.check_for_hidden_data
      (Scenario.account (Scenario.account_reporting "-1000"))
      (Scenario.container (Scenario.container_reporting "-1000"))
      (Scenario.answering [])
      (Scenario.containers [Container.mk "mattermost-backups" (-3) (-1000)])
      "mattermost-backups" tt
    = (Ret tt, out, tt) /\
    In (Print "Account total bytes: {:,} ({:.3f} GB)"
          [Int (-1000); Quot (-1000) GiB]) out /\
    In (Print "Container bytes: {:,} ({:.3f} GB)"
          [Int (-1000); Quot (-1000) GiB]) out /\
    In (Print "Object sum bytes: {:,} ({:.3f} GB)" [Int 0; Quot 0 GiB]) out /\
    In (Print "Container vs Objects: {:,} bytes" [Int (-1000 - 0)]) out /\
    In (Print "Account vs Container: {:,} bytes" [Int (-1000 - -1000)]) out /\
    Design.shape out
    = Design.hidden_data_shape (-1000 - 0 >? 0) (-1000 - -1000 >? 0) 1.
Proof.
  apply (totals_are_reported_as_read unit
           (Scenario.account (Scenario.account_reporting "-1000"))
           (Scenario.container (Scenario.container_reporting "-1000"))
           (Scenario.answering [])
           (Scenario.containers [Container.mk "mattermost-backups" (-3) (-1000)])
           "mattermost-backups" tt tt tt tt tt
           (Scenario.account_reporting "-1000")
           (Scenario.container_reporting "-1000")
           [] [Container.mk "mattermost-backups" (-3) (-1000)]
           (-1000) (-1000)); try reflexivity.
  cbn. lia.
Defined.

(** C7, as stated, fails.  The account and the container report -1000
    bytes used, and the container lists no object.  The run returns; its
    report shows -1000 as the container's total; and it consists of the
    eleven lines below, the very lines of the report on totals of 0:
    none of them flags the negative total. *)
Lemma negative_total_is_not_flagged :
  exists out out0,
    SwiftInspector.check_for_hidden_data
      (Scenario.account (Scenario.account_reporting "-1000"))
      (Scenario.container (Scenario.container_reporting "-1000"))
      (Scenario.answering [])
      (Scenario.containers [Container.mk "mattermost-backups" (-3) (-1000)])
      "mattermost-backups" tt
    = (Ret tt, out, tt) /\
    SwiftInspector.check_for_hidden_data
      (Scenario.account (Scenario.account_reporting "0"))
      (Scenario.container (Scenario.container_reporting "0"))
      (Scenario.answering [])
      (Scenario.containers [Container.mk "mattermost-backups" 0 0])
      "mattermost-backups" tt
    = (Ret tt, out0, tt) /\
    In (Print "Container bytes: {:,} ({:.3f} GB)"
          [Int (-1000); Quot (-1000) GiB]) out /\
    Design.shape out
    = [""; repeat_char "=" 60; "HIDDEN DATA INVESTIGATION"; repeat_char "=" 60;
       "Account total bytes: {:,} ({:.3f} GB)";
       "Container bytes: {:,} ({:.3f} GB)";
       "Object sum bytes: {:,} ({:.3f} GB)";
       ""; "Discrepancy analysis:";
       "Container vs Objects: {:,} bytes";
       "Account vs Container: {:,} bytes"] /\
    Design.shape out = Design.shape out0.
Proof.
  eexists. eexists. split; [reflexivity|]. split; [reflexivity|].
  split; [cbn; tauto|]. split; reflexivity.
Qed.

(** ** Examples *)

Example probe_all_with_a_failing_prefix :
  DeepSwiftScan.probe_all Scenario.dot_fails "mattermost-backups"
    DeepSwiftScan.prefixes_to_try tt
  = (Ret tt,
     [Print "     Prefix '{}': {} objects" [Str ""; Int 3];
      Print "       {}" [Str "20250726_140000/config.json"];
      Print "       {}" [Str "20250726_140000/data.tar.gz"];
      Print "       {}" [Str "20250726_140000/db.sql"];
      Print "     Prefix '{}': {} objects" [Str "20"; Int 3];
      Print "       {}" [Str "20250726_140000/config.json"];
      Print "       {}" [Str "20250726_140000/data.tar.gz"];
      Print "       {}" [Str "20250726_140000/db.sql"];
      Print "     Prefix '{}' ERROR: {}" [Str "."; Str "Container GET failed"]],
     tt).
Proof. reflexivity. Qed.

Example scenario_three_classification :
  fst (fst (SwiftInspector.analyze_backup_directories
              (Scenario.answering [Scenario.db; Scenario.readme])
              "mattermost-backups" tt))
  = Ret [("20250726_140000", SwiftInspector.mkEntry 1 50000 [Scenario.db])].
Proof. reflexivity. Qed.

Example rejected_candidates :
  map SwiftInspector.backup_dir_of
    ["2025072_140000/db.sql"; "202507260_140000/db.sql";
     "20250726140000/db.sql"; "20250726_14000a/db.sql";
     "20250726_140000"; "readme.txt"]
  = [None; None; None; None; None; None].
Proof. reflexivity. Qed.

Example split_examples :
  Py.split "/" "20250726_140000/files/a.png" = ["20250726_140000"; "files"; "a.png"] /\
  Py.split "/" "readme.txt" = ["readme.txt"] /\
  Py.split "/" "" = [""].
Proof. repeat split. Qed.

Example int_examples :
  Py.int "499500" = Some 499500 /\ Py.int "-1000" = Some (-1000) /\
  Py.int " 499_500 " = Some 499500 /\ Py.int "+007" = Some 7 /\
  Py.int "" = None /\ Py.int "12a" = None /\ Py.int "4__2" = None /\
  Py.int "_42" = None /\ Py.int "42_" = None /\ Py.int "- 42" = None.
Proof. repeat split. Qed.

Example int_error_examples :
  Py.int_error "12a" = "invalid literal for int() with base 10: '12a'" /\
  Py.int_error "it's" = String.append "invalid literal for int() with base 10: "
                          (String Py.double_quote
                             (String.append "it's" (String Py.double_quote ""))) /\
  Py.int_error "" = "invalid literal for int() with base 10: ''".
Proof. repeat split. Qed.

Example division_examples :
  Py.overflows (2 ^ 1044) MiB = true /\
  Py.overflows (2 ^ 1044 - 2 ^ 990 - 1) MiB = false /\
  Py.overflows (- 2 ^ 1054) GiB = true /\
  Py.overflows (10 ^ 308) MiB = false.
Proof. repeat split. Qed.

Example listing_with_various_prefixes_on_three :
  fst (fst (DeepSwiftScan.listing_with_various_prefixes
              Backend.get_container "mattermost-backups" Scenario.three))
  = Ret tt.
Proof. reflexivity. Qed.

(** * More properties *)

(** ** Python strings *)

Lemma lstrip_app (a b : string) :
  a <> EmptyString -> PyStr.lstrip a = a -> PyStr.lstrip (a ++ b) = (a ++ b)%string.
Proof.
  destruct a as [|c a]; [congruence|]. intros _. cbn.
  destruct (PyStr.is_space c); [|reflexivity].
  intros H. exfalso.
  assert (Hlen : forall s, (String.length (PyStr.lstrip s) <= String.length s)%nat).
  { clear. induction s as [|c s IH]; cbn; [lia|].
    destruct (PyStr.is_space c); cbn; lia. }
  specialize (Hlen a). rewrite H in Hlen. cbn in Hlen. lia.
Qed.

Lemma rstrip_app (a b : string) :
  PyStr.rstrip b <> EmptyString ->
  PyStr.rstrip (a ++ b) = (a ++ PyStr.rstrip b)%string.
Proof.
  intros Hb. induction a as [|c a IH]; cbn; [reflexivity|].
  rewrite IH. destruct (a ++ PyStr.rstrip b)%string eqn:E; [|reflexivity].
  destruct a; cbn in E; [congruence|discriminate].
Qed.

Lemma strip_tidy (s : string) : Props.tidy s -> PyStr.strip s = s.
Proof. intros (_ & Hl & Hr & _). unfold PyStr.strip. now rewrite Hl. Qed.

Lemma no_newline_app (a b : string) :
  Props.no_newline (a ++ b) = Props.no_newline a && Props.no_newline b.
Proof.
  unfold Props.no_newline.
  replace (list_ascii_of_string (a ++ b))
    with (list_ascii_of_string a ++ list_ascii_of_string b).
  - apply forallb_app.
  - induction a as [|c a IH]; cbn; [reflexivity|now rewrite IH].
Qed.

(** Splitting at newlines undoes joining with newlines. *)
Lemma split_line (a rest : string) :
  Props.no_newline a = true ->
  Py.split Py.newline (a ++ String Py.newline rest)
  = a :: Py.split Py.newline rest.
Proof.
  unfold Props.no_newline. induction a as [|c a IH]; cbn - [Py.newline]; intros H.
  - now rewrite Ascii.eqb_refl.
  - apply andb_true_iff in H as [Hc Ha]. apply negb_true_iff in Hc.
    rewrite Hc, (IH Ha). reflexivity.
Qed.

Lemma split_last_line (a : string) :
  Props.no_newline a = true -> Py.split Py.newline a = [a].
Proof.
  unfold Props.no_newline. induction a as [|c a IH]; cbn - [Py.newline]; intros H.
  - reflexivity.
  - apply andb_true_iff in H as [Hc Ha]. apply negb_true_iff in Hc.
    rewrite Hc, (IH Ha). reflexivity.
Qed.

Lemma split_join (lines : list string) :
  lines <> [] ->
  Forall (fun l => Props.no_newline l = true) lines ->
  Py.split Py.newline (PyStr.join (String Py.newline EmptyString) lines) = lines.
Proof.
  induction lines as [|l lines IH]; [congruence|]. intros _ H.
  inversion H as [|? ? Hl Hls]; subst.
  destruct lines as [|l' lines].
  - cbn. now apply split_last_line.
  - change (PyStr.join _ (l :: l' :: lines))
      with (l ++ String Py.newline (PyStr.join (String Py.newline "") (l' :: lines)))%string.
    rewrite split_line by exact Hl. f_equal. apply IH; [discriminate|exact Hls].
Qed.

Lemma contains_split_once (sep s : string) :
  PyStr.contains sep s = true <-> exists r, PyStr.split_once sep s = Some r.
Proof.
  induction s as [|c s IH]; cbn [PyStr.contains PyStr.split_once].
  - destruct (String.prefix sep ""); cbn [orb].
    + split; eauto.
    + split; [discriminate|intros [r H]; discriminate].
  - destruct (String.prefix sep (String c s)); cbn [orb].
    + split; eauto.
    + rewrite IH. destruct (PyStr.split_once sep s) as [[a b]|].
      * split; eauto.
      * split; intros [r H]; discriminate.
Qed.

Lemma drop_app (a b : string) : PyStr.drop (String.length a) (a ++ b) = b.
Proof. induction a as [|c a IH]; cbn; [now destruct b|exact IH]. Qed.

Lemma prefix_cons (a b : ascii) (s1 s2 : string) :
  String.prefix (String a s1) (String b s2)
  = if ascii_dec a b then String.prefix s1 s2 else false.
Proof. reflexivity. Qed.

(** The first [" = "] of a setting is the one after its key. *)
Lemma split_once_setting (k v : string) :
  Props.no_equals k = true ->
  PyStr.split_once " = " (k ++ " = " ++ v) = Some (k, v).
Proof.
  unfold Props.no_equals. induction k as [|c k IH]; intros H.
  - cbn. destruct v; reflexivity.
  - cbn in H. apply andb_true_iff in H as [Hc Hk]. apply negb_true_iff in Hc.
    specialize (IH Hk).
    change (String c k ++ " = " ++ v)%string with (String c (k ++ " = " ++ v)).
    cbn [PyStr.split_once]. rewrite IH.
    assert (Hp : String.prefix " = " (String c (k ++ " = " ++ v)) = false).
    { rewrite prefix_cons. destruct (ascii_dec " " c) as [_|_]; [|reflexivity].
      destruct k as [|d k].
      - reflexivity.
      - cbn in Hk. apply andb_true_iff in Hk as [Hd _].
        apply negb_true_iff in Hd. apply Ascii.eqb_neq in Hd.
        change (String d k ++ " = " ++ v)%string with (String d (k ++ " = " ++ v)).
        rewrite prefix_cons.
        destruct (ascii_dec "=" d); [congruence|reflexivity]. }
    rewrite Hp. reflexivity.
Qed.


(** ** The rclone configuration *)

Lemma trimmed_app (a mid b : string) :
  Props.trimmed a -> Props.trimmed b -> Props.trimmed (a ++ mid ++ b).
Proof.
  intros (Ha & Hla & _) (Hb & _ & Hrb). repeat split.
  - destruct a; [congruence|discriminate].
  - now apply lstrip_app.
  - rewrite <- append_assoc. rewrite rstrip_app by congruence. now rewrite Hrb.
Qed.

Lemma tidy_trimmed (s : string) : Props.tidy s -> Props.trimmed s.
Proof. intros (H1 & H2 & H3 & _). repeat split; assumption. Qed.

Lemma line_text_trimmed (l : Props.config_line) :
  Props.well_formed l -> Props.trimmed (Props.line_text l).
Proof.
  destruct l as [h|k v]; cbn [Props.line_text Props.well_formed].
  - intros [H _]. now apply tidy_trimmed.
  - intros (Hk & Hv & _). apply (trimmed_app k " = " v); now apply tidy_trimmed.
Qed.

Lemma line_text_no_newline (l : Props.config_line) :
  Props.well_formed l -> Props.no_newline (Props.line_text l) = true.
Proof.
  destruct l as [h|k v]; cbn [Props.line_text Props.well_formed].
  - intros [(_ & _ & _ & H) _]. exact H.
  - intros ((_ & _ & _ & Hk) & (_ & _ & _ & Hv) & _).
    rewrite !no_newline_app, Hk, Hv. reflexivity.
Qed.

Lemma join_trimmed (lines : list string) :
  lines <> [] -> Forall Props.trimmed lines ->
  Props.trimmed (PyStr.join (String Py.newline EmptyString) lines).
Proof.
  induction lines as [|l lines IH]; [congruence|]. intros _ H.
  inversion H as [|? ? Hl Hls]; subst.
  destruct lines as [|l' lines]; [exact Hl|].
  change (PyStr.join _ (l :: l' :: lines))
    with (l ++ String Py.newline "" ++
          PyStr.join (String Py.newline "") (l' :: lines))%string.
  apply trimmed_app; [exact Hl|]. apply IH; [discriminate|exact Hls].
Qed.

Lemma parse_line_text (l : Props.config_line) (d : list (string * string)) :
  Props.well_formed l ->
  Rclone.parse_line d (Props.line_text l) =
  match l with
  | Props.Header _ => d
  | Props.Setting k v => SwiftInspector.dict_set k v d
  end.
Proof.
  unfold Rclone.parse_line. destruct l as [h|k v]; cbn [Props.line_text Props.well_formed].
  - intros [_ H]. now rewrite H.
  - intros (Hk & Hv & Hne).
    pose proof (split_once_setting k v Hne) as Hs.
    assert (Hc : PyStr.contains " = " (k ++ " = " ++ v) = true)
      by (apply contains_split_once; eauto).
    rewrite Hc, Hs, (strip_tidy k Hk), (strip_tidy v Hv). reflexivity.
Qed.

Lemma parse_lines (ls : list Props.config_line) :
  Forall Props.well_formed ls ->
  forall d,
    fold_left Rclone.parse_line (map Props.line_text ls) d
    = fold_left (fun d kv => SwiftInspector.dict_set (fst kv) (snd kv) d)
        (Props.settings ls) d.
Proof.
  induction 1 as [|l ls Hl Hls IH]; intros d; [reflexivity|].
  cbn [map fold_left]. rewrite (parse_line_text l d Hl), IH.
  destruct l; reflexivity.
Qed.

Lemma set_all_new (kvs : list (string * string)) :
  forall d,
    NoDup (map fst d ++ map fst kvs) ->
    fold_left (fun d kv => SwiftInspector.dict_set (fst kv) (snd kv) d) kvs d
    = d ++ kvs.
Proof.
  induction kvs as [|[k v] kvs IH]; intros d Hnd; cbn [fold_left fst snd].
  - now rewrite app_nil_r.
  - assert (Hk : lookup k d = None).
    { apply lookup_None. intros Hin. cbn in Hnd.
      apply NoDup_remove_2 in Hnd. apply Hnd. apply in_or_app. now left. }
    rewrite dict_set_new by exact Hk. rewrite IH.
    + now rewrite <- app_assoc.
    + rewrite map_app. cbn. rewrite <- app_assoc. exact Hnd.
Qed.

(** X1.  A configuration shown by rclone as section headers and
    [key = value] lines, each on one line and without blanks around keys
    and values, no [=] in a key and no [" = "] in a header, is read back
    as the dictionary of its settings: set in order, a later setting of
    a key replacing the earlier one in place, and the headers ignored.
    When no key is set twice that is the list of the settings itself. *)
Theorem rendered_config_is_read_back (ls : list Props.config_line) :
  Forall Props.well_formed ls ->
  Rclone.parse_config (Props.render ls) = Props.dict_of (Props.settings ls) /\
  (NoDup (map fst (Props.settings ls)) ->
   Rclone.parse_config (Props.render ls) = Props.settings ls).
Proof.
  intros Hwf.
  assert (Hparse : Rclone.parse_config (Props.render ls)
                   = Props.dict_of (Props.settings ls)).
  { unfold Rclone.parse_config, Props.render, Props.dict_of.
    destruct ls as [|l ls]; [reflexivity|].
    assert (Hne : map Props.line_text (l :: ls) <> []) by discriminate.
    assert (Htrim : Forall Props.trimmed (map Props.line_text (l :: ls))).
    { apply Forall_map. eapply Forall_impl; [|exact Hwf].
      intros x. apply line_text_trimmed. }
    destruct (join_trimmed _ Hne Htrim) as (_ & Hl & Hr).
    unfold PyStr.strip. rewrite Hl, Hr, split_join.
    - now apply parse_lines.
    - exact Hne.
    - apply Forall_map. eapply Forall_impl; [|exact Hwf].
      intros x. apply line_text_no_newline. }
  split; [exact Hparse|]. intros Hnd. rewrite Hparse. unfold Props.dict_of.
  now rewrite set_all_new.
Qed.

Lemma config_well_formed : Forall Props.well_formed World.config.
Proof.
  repeat constructor; cbn; try discriminate.
Qed.

Lemma rendered_config_is_read_back_witness :
  Rclone.parse_config (Props.render World.config)
  = Props.dict_of (Props.settings World.config) /\
  (NoDup (map fst (Props.settings World.config)) ->
   Rclone.parse_config (Props.render World.config) = Props.settings World.config).
Proof.
  apply (rendered_config_is_read_back World.config). exact config_well_formed.
Defined.

(** ** More on the classification *)

(** X2.  What [backup_dir_of] accepts.  The key of an accepted name is
    its first path segment; the name has a separator; and the key is 8
    characters, an underscore and 6 characters, possibly followed by one
    newline.  A name with a separator whose first segment is 8 digits
    ['0'] .. ['9'], an underscore and 6 such digits, possibly followed by
    one newline, is accepted.  A name without a separator is never
    accepted. *)
Theorem accepted_names_have_a_timestamp_shape (name : string) :
  (forall k,
     SwiftInspector.backup_dir_of name = Some k ->
     Design.has_separator name = true /\
     k = Design.first_segment name /\
     exists d t tail,
       k = (d ++ "_" ++ t ++ tail)%string /\
       String.length d = 8%nat /\ String.length t = 6%nat /\
       (tail = EmptyString \/ tail = String Py.newline EmptyString)) /\
  (Design.has_separator name = true ->
   (Design.timestamp (Design.first_segment name) \/
    exists t, Design.first_segment name = (t ++ String Py.newline "")%string /\
              Design.timestamp t) ->
   SwiftInspector.backup_dir_of name = Some (Design.first_segment name)) /\
  (Design.has_separator name = false ->
   SwiftInspector.backup_dir_of name = None).
Proof.
  split; [|split].
  - intros k H. apply backup_dir_of_spec in H as (Hsep & Hk & Hre).
    split; [exact Hsep|]. split; [exact Hk|].
    apply timestamp_re_spec in Hre
      as [(d & t & -> & Hd & Ht & _) | (t0 & -> & d & t & -> & Hd & Ht & _)].
    + exists d, t, EmptyString. rewrite append_empty_r. auto.
    + exists d, t, (String Py.newline EmptyString).
      rewrite !append_assoc. auto.
  - intros Hsep Hshape. apply backup_dir_of_spec.
    split; [exact Hsep|]. split; [reflexivity|].
    apply timestamp_re_spec. exact Hshape.
  - intros Hsep.
    destruct (SwiftInspector.backup_dir_of name) as [k|] eqn:E; [|reflexivity].
    apply backup_dir_of_spec in E as (H & _). congruence.
Qed.

Lemma measure_app g d1 d2 : Props.measure g (d1 ++ d2) = Props.measure g d1 + Props.measure g d2.
Proof. induction d1 as [|[k l] d1 IH]; cbn; [reflexivity|rewrite IH; lia]. Qed.

Lemma measure_dict_set g k v d m :
  lookup k d = Some m ->
  Props.measure g (SwiftInspector.dict_set k v d) = Props.measure g d - g m + g v.
Proof.
  induction d as [|[k' l] d IH]; cbn; [discriminate|].
  destruct (String.eqb k k') eqn:E; cbn.
  - intros [= ->]. lia.
  - intros H. rewrite (IH H). lia.
Qed.

Lemma measure_group_step (g : list Obj.t -> Z) (g1 : Obj.t -> Z) d o :
  g [] = 0 ->
  (forall m x, g (m ++ [x]) = g m + g1 x) ->
  Props.measure g (SwiftInspector.group_step d o)
  = Props.measure g d + (if Props.accepted o then g1 o else 0).
Proof.
  intros H0 Hadd. unfold SwiftInspector.group_step, Props.accepted.
  destruct (SwiftInspector.backup_dir_of (Obj.name o)) as [k|]; [|lia].
  unfold SwiftInspector.contains.
  destruct (lookup k d) as [m|] eqn:E.
  - rewrite E. rewrite (measure_dict_set g k _ d m E), Hadd. lia.
  - rewrite lookup_dict_set_same.
    rewrite (measure_dict_set g k _ _ [] (lookup_dict_set_same k [] d)).
    rewrite dict_set_new by exact E. rewrite measure_app, Hadd. cbn. lia.
Qed.

Lemma measure_group_by (g : list Obj.t -> Z) (g1 : Obj.t -> Z) objs :
  g [] = 0 ->
  (forall m x, g (m ++ [x]) = g m + g1 x) ->
  forall d,
    Props.measure g (fold_left SwiftInspector.group_step objs d)
    = Props.measure g d + Design.total (map g1 (filter Props.accepted objs)).
Proof.
  intros H0 Hadd. induction objs as [|o objs IH]; intros d; cbn [fold_left filter].
  - unfold Design.total. cbn. lia.
  - rewrite IH, (measure_group_step g g1 d o H0 Hadd).
    destruct (Props.accepted o); unfold Design.total; cbn [map fold_right]; lia.
Qed.

Lemma total_app (xs ys : list Z) :
  Design.total (xs ++ ys) = Design.total xs + Design.total ys.
Proof.
  unfold Design.total. induction xs as [|x xs IH]; cbn; [reflexivity|].
  rewrite IH. lia.
Qed.

Lemma measure_entries (f : SwiftInspector.Entry -> Z) (g : list Obj.t -> Z) d :
  (forall l, f (SwiftInspector.entry_of l) = g l) ->
  Design.total (map (fun ke => f (snd ke)) (Design.entries d)) = Props.measure g d.
Proof.
  intros H. unfold Design.total.
  induction d as [|[k l] d IH]; cbn; [reflexivity|].
  rewrite H. f_equal. exact IH.
Qed.

(** X3.  For a listing whose sizes can be shown in MB, the entries of
    the analysis count every accepted object of the listing once: their
    [objects] add up to the number of accepted objects, and their
    [total_size] to the sum of the sizes of the accepted objects. *)
Theorem analysis_counts_accepted_objects_once
    (St : Type)
    (get_container : string -> Query -> St -> (exn + list Obj.t) * St)
    (container_name : string) (s s' : St) (listing : list Obj.t) :
  get_container container_name (mkQuery None None None true) s
    = (inr listing, s') ->
  Design.displayable listing ->
  exists analysis out,
    SwiftInspector.analyze_backup_directories get_container container_name s
      = (Ret analysis, out, s') /\
    Design.total (map (fun ke => SwiftInspector.objects (snd ke)) analysis)
      = Z.of_nat (List.length (filter Props.accepted listing)) /\
    Design.total (map (fun ke => SwiftInspector.total_size (snd ke)) analysis)
      = Design.total (map Obj.bytes (filter Props.accepted listing)).
Proof.
  intros Hget Hfit.
  destruct (analyze_backup_directories_returns get_container container_name
              s s' listing Hget Hfit) as [out Hrun].
  eexists. exists out. split; [exact Hrun|].
  unfold SwiftInspector.group_by_backup_dir. split.
  - rewrite (measure_entries SwiftInspector.objects
               (fun l => Z.of_nat (List.length l))) by reflexivity.
    rewrite (measure_group_by _ (fun _ => 1)).
    + cbn [Props.measure]. generalize (filter Props.accepted listing). intros l.
      unfold Design.total. induction l as [|x l IH]; cbn [map fold_right List.length];
        lia.
    + reflexivity.
    + intros m x. rewrite length_app. cbn. lia.
  - rewrite (measure_entries SwiftInspector.total_size
               (fun l => Design.total (map Obj.bytes l))).
    + rewrite (measure_group_by _ Obj.bytes).
      * cbn [Props.measure]. lia.
      * reflexivity.
      * intros m x. rewrite map_app, total_app. unfold Design.total. cbn. lia.
    + intros l. cbn. apply sum_total.
Qed.

Lemma analysis_counts_accepted_objects_once_witness :
  exists analysis out,
    SwiftInspector.analyze_backup_directories
      (Scenario.answering (Scenario.readme :: Scenario.three))
      "mattermost-backups" tt
      = (Ret analysis, out, tt) /\
    Design.total (map (fun ke => SwiftInspector.objects (snd ke)) analysis)
      = Z.of_nat (List.length
                    (filter Props.accepted (Scenario.readme :: Scenario.three))) /\
    Design.total (map (fun ke => SwiftInspector.total_size (snd ke)) analysis)
      = Design.total
          (map Obj.bytes (filter Props.accepted (Scenario.readme :: Scenario.three))).
Proof.
  apply (analysis_counts_accepted_objects_once unit
           (Scenario.answering (Scenario.readme :: Scenario.three))
           "mattermost-backups" tt tt (Scenario.readme :: Scenario.three)).
  - reflexivity.
  - apply nonneg_displayable; [repeat constructor; discriminate|reflexivity].
Defined.

(** X4.  For a listing whose sizes can be shown in MB, each entry of the
    analysis lists exactly the objects of the listing that
    [backup_dir_of] files under its key, as often and in the order in
    which the listing has them. *)
Theorem entries_keep_listing_order
    (St : Type)
    (get_container : string -> Query -> St -> (exn + list Obj.t) * St)
    (container_name : string) (s s' : St) (listing : list Obj.t) :
  get_container container_name (mkQuery None None None true) s
    = (inr listing, s') ->
  Design.displayable listing ->
  exists analysis out,
    SwiftInspector.analyze_backup_directories get_container container_name s
      = (Ret analysis, out, s') /\
    forall k e,
      In (k, e) analysis ->
      SwiftInspector.files e
      = filter (fun o => match SwiftInspector.backup_dir_of (Obj.name o) with
                         | Some k' => String.eqb k k'
                         | None => false
                         end) listing.
Proof.
  intros Hget Hfit.
  destruct (analyze_backup_directories_returns get_container container_name
              s s' listing Hget Hfit) as [out Hrun].
  eexists. exists out. split; [exact Hrun|].
  intros k e Hin. apply entry_members in Hin as [-> _]. reflexivity.
Qed.

Lemma entries_keep_listing_order_witness :
  exists analysis out,
    SwiftInspector.analyze_backup_directories
      (Scenario.answering (Scenario.readme :: Scenario.three))
      "mattermost-backups" tt
      = (Ret analysis, out, tt) /\
    forall k e,
      In (k, e) analysis ->
      SwiftInspector.files e
      = filter (fun o => match SwiftInspector.backup_dir_of (Obj.name o) with
                         | Some k' => String.eqb k k'
                         | None => false
                         end) (Scenario.readme :: Scenario.three).
Proof.
  apply (entries_keep_listing_order unit
           (Scenario.answering (Scenario.readme :: Scenario.three))
           "mattermost-backups" tt tt (Scenario.readme :: Scenario.three)).
  - reflexivity.
  - apply nonneg_displayable; [repeat constructor; discriminate|reflexivity].
Defined.

(** ** Reasoning about computations *)

Lemma settles_ret {St A : Type} (a : A) : Props.settles (St := St) (ret a).
Proof. intros s. exact I. Qed.

Lemma settles_print {St : Type} (l : Line) : Props.settles (St := St) (print l).
Proof. intros s. exact I. Qed.

Lemma settles_call {St A : Type} (op : St -> (exn + A) * St) :
  Props.settles (call op).
Proof. intros s. unfold call. destruct (op s) as [[e|a] s']; exact I. Qed.

Lemma settles_true_div {St : Type} (num den : Z) :
  Props.settles (St := St) (true_div num den).
Proof. intros s. unfold true_div. destruct (Py.overflows num den); exact I. Qed.

Lemma settles_bind {St A B : Type} (m : M St A) (k : A -> M St B) :
  Props.settles m -> (forall a, Props.settles (k a)) -> Props.settles (bind m k).
Proof.
  intros Hm Hk s. rewrite run_bind. specialize (Hm s).
  destruct (m s) as [[[a|e|] out] s1]; cbn in *; try tauto.
  specialize (Hk a s1). destruct (k a s1) as [[r out'] s2]. exact Hk.
Qed.

Lemma settles_int_header {St : Type} (key : string) (info : Headers) :
  Props.settles (St := St) (int_header key info).
Proof.
  intros s. rewrite int_header_run.
  destruct (Design.header_value key info); exact I.
Qed.

Lemma settles_for_each {St A : Type} (body : A -> M St unit) (xs : list A) :
  (forall x, Props.settles (body x)) -> Props.settles (for_each xs body).
Proof.
  intros H. induction xs as [|x xs IH]; cbn [for_each].
  - apply settles_ret.
  - apply settles_bind; [apply H|intros _; exact IH].
Qed.

Lemma returns_settles {St A : Type} (P : A -> Prop) (m : M St A) :
  Props.returns P m -> Props.settles m.
Proof. intros H s. destruct (H s) as (a & out & s' & -> & _). exact I. Qed.

Lemma returns_ret {St A : Type} (P : A -> Prop) (a : A) :
  P a -> Props.returns (St := St) P (ret a).
Proof. intros H s. exists a, [], s. split; [reflexivity|exact H]. Qed.

Lemma returns_print {St : Type} (P : unit -> Prop) (l : Line) :
  P tt -> Props.returns (St := St) P (print l).
Proof. intros H s. exists tt, [l], s. split; [reflexivity|exact H]. Qed.

Lemma returns_bind {St A B : Type} (P : A -> Prop) (Q : B -> Prop)
    (m : M St A) (k : A -> M St B) :
  Props.returns P m -> (forall a, P a -> Props.returns Q (k a)) ->
  Props.returns Q (bind m k).
Proof.
  intros Hm Hk s. rewrite run_bind.
  destruct (Hm s) as (a & out & s1 & -> & Ha).
  destruct (Hk a Ha s1) as (b & out' & s2 & -> & Hb). eauto.
Qed.

Lemma returns_print_then {St B : Type} (Q : B -> Prop) (l : Line) (k : M St B) :
  Props.returns Q k -> Props.returns Q (bind (print l) (fun _ => k)).
Proof.
  intros Hk s. rewrite run_print_then.
  destruct (Hk s) as (b & out & s' & -> & Hb). eauto.
Qed.

(** [try: ... except Exception] returns when its body settles and its
    handler returns. *)
Lemma returns_try_any {St A : Type} (P : A -> Prop)
    (body : M St A) (handler : exn -> M St A) :
  Props.settles body ->
  (forall a s, fst (fst (body s)) = Ret a -> P a) ->
  (forall e, Props.returns P (handler e)) ->
  Props.returns P (try_except body any_Exception handler).
Proof.
  intros Hb Hv Hh s. unfold try_except. specialize (Hb s). pose proof (fun a => Hv a s) as Hv'. clear Hv.
  destruct (body s) as [[[a|e|] out] s1]; cbn in *.
  - exists a, out, s1. split; [reflexivity|]. apply Hv'. reflexivity.
  - destruct (Hh e s1) as (a & out' & s2 & -> & Ha). eauto.
  - contradiction.
Qed.

Ltac settle :=
  repeat first
    [ apply settles_print
    | apply settles_ret
    | apply settles_call
    | apply settles_true_div
    | apply settles_int_header
    | apply settles_for_each; intros ?
    | apply settles_bind; [|intros ?]
    | progress cbv zeta
    | match goal with
      | |- Props.settles (if ?b then _ else _) => destruct b
      | |- Props.settles (match ?x with _ => _ end) => destruct x
      end ].

Lemma last_two {A : Type} (l : list A) (a b d : A) : last (l ++ [a; b]) d = b.
Proof.
  induction l as [|x l IH]; [reflexivity|].
  cbn [app]. rewrite last_cons. destruct l as [|y l]; [reflexivity|].
  cbn [app] in *. rewrite last_cons in IH. rewrite last_cons. exact IH.
Qed.

Lemma last_ends {A : Type} (pre mid : list A) (x a b d : A) :
  last (pre ++ x :: mid ++ [a; b]) d = b.
Proof.
  replace (pre ++ x :: mid ++ [a; b]) with ((pre ++ x :: mid) ++ [a; b])
    by (now rewrite <- app_assoc).
  apply last_two.
Qed.

(** ** More on the enumeration *)

(** X5.  When the first page arrives and the request for the next page
    fails with a [ClientException], [list_all_objects] returns the empty
    list: the objects of the first page are dropped, and all that is
    printed after the banner is the error. *)
Theorem client_failure_discards_pages_received
    (St : Type)
    (get_container : string -> Query -> St -> (exn + list Obj.t) * St)
    (container_name : string) (page_limit : Z) (full : bool) (fuel : nat)
    (show_details : bool) (s s1 s2 : St)
    (first : Obj.t) (rest : list Obj.t) (msg : string) :
  get_container container_name (mkQuery None (Some page_limit) None full) s
    = (inr (first :: rest), s1) ->
  get_container container_name
    (mkQuery (Some (Obj.name (last rest first))) (Some page_limit) None full) s1
    = (inl (ClientException msg), s2) ->
  SwiftInspector.list_all_objects_with get_container container_name
    page_limit full (S (S fuel)) show_details s
  = (Ret [],
     Props.banner_lines "ALL OBJECTS IN CONTAINER"
     ++ [Print "ERROR: Failed to list objects: {}" [Str msg]],
     s2).
Proof.
  intros H1 H2.
  destruct (list_all_objects_run get_container container_name page_limit full
              (S (S fuel)) show_details s) as [partial ->].
  cbn [SwiftInspector.list_loop]. rewrite run_call_then, H1.
  rewrite run_call_then, H2. reflexivity.
Qed.

Lemma client_failure_discards_pages_received_witness :
  SwiftInspector.list_all_objects_with World.second_page_fails
    "mattermost-backups" 1000 true 2 false 0%nat
  = (Ret [],
     Props.banner_lines "ALL OBJECTS IN CONTAINER"
     ++ [Print "ERROR: Failed to list objects: {}"
           [Str "Container GET failed: 503 Service Unavailable"]],
     2%nat).
Proof.
  apply (client_failure_discards_pages_received nat World.second_page_fails
           "mattermost-backups" 1000 true 0 false 0%nat 1%nat 2%nat
           Scenario.config [Scenario.archive; Scenario.dump]); reflexivity.
Defined.

(** X6.  The detailed listing changes the outcome of [list_all_objects]
    in one case only: when the size of an object cannot be shown in MB,
    the detailed run raises [OverflowError] where the plain run may
    still return.  Apart from that the two runs end the same way: when
    the detailed run returns, the plain run returns the same objects and
    ends with the same line -- the total, added up object by object in
    one case and by [sum] in the other.  In every case they leave the
    backend in the same state. *)
Theorem details_do_not_change_the_listing
    (St : Type)
    (get_container : string -> Query -> St -> (exn + list Obj.t) * St)
    (container_name : string) (page_limit : Z) (full : bool) (fuel : nat)
    (s : St) :
  let '(r1, out1, s1) :=
    SwiftInspector.list_all_objects_with get_container container_name
      page_limit full fuel false s in
  let '(r2, out2, s2) :=
    SwiftInspector.list_all_objects_with get_container container_name
      page_limit full fuel true s in
  s1 = s2 /\
  match r2 with
  | Ret _ => r1 = r2 /\ last out1 (text "") = last out2 (text "")
  | Exc e => r1 = r2 \/ (e = OverflowError /\ exists objs, r1 = Ret objs)
  | Spin => r1 = Spin
  end.
Proof.
  destruct (list_all_objects_run get_container container_name page_limit full
              fuel false s) as [partial1 ->].
  destruct (list_all_objects_run get_container container_name page_limit full
              fuel true s) as [partial2 ->].
  destruct (SwiftInspector.list_loop _ _ _ _ _ _ _ s) as [[[objs|e|] o] s'].
  - cbn [negb orb].
    destruct (Py.overflows (Design.total (map Obj.bytes objs)) MiB);
      destruct (Props.all_fit objs); cbn [negb andb]; split; try reflexivity.
    + now left.
    + now left.
    + split; [reflexivity|]. rewrite !app_assoc. now rewrite !last_ends.
    + right. split; [reflexivity|]. now exists objs.
  - destruct (is_ClientException e); split; try reflexivity.
    + split; reflexivity.
    + now left.
  - split; reflexivity.
Qed.

Example detailed_run_raises_where_plain_run_returns :
  let listing :=
    [Scenario.oversized;
     Obj.mk "20250726_140000/hole.img" (- 2 ^ 1044) "2025-07-26T14:00:00.000000" None] in
  fst (fst (SwiftInspector.list_all_objects_with
              (fun name q (asked : bool) =>
                 (inr (if asked then [] else listing), true))
              "mattermost-backups" 1000 true 2 false false))
  = Ret listing /\
  fst (fst (SwiftInspector.list_all_objects_with
              (fun name q (asked : bool) =>
                 (inr (if asked then [] else listing), true))
              "mattermost-backups" 1000 true 2 true false))
  = Exc OverflowError.
Proof. split; vm_compute; reflexivity. Qed.

(** ** More on the reconciliation *)

Lemma check_for_hidden_data_returns {St : Type}
    (head_account : St -> (exn + Headers) * St)
    (head_container : string -> St -> (exn + Headers) * St)
    (get_container : string -> Query -> St -> (exn + list Obj.t) * St)
    (get_account : St -> (exn + list Container.t) * St)
    (container_name : string) (s : St) :
  exists out s',
    SwiftInspector.check_for_hidden_data
      head_account head_container get_container get_account container_name s
    = (Ret tt, out, s').
Proof.
  unfold SwiftInspector.check_for_hidden_data. rewrite run_banner_then.
  match goal with
  | |- context [try_except ?body any_Exception ?handler s] =>
      destruct (returns_try_any (fun _ => True) body handler) with (s := s)
        as ([] & out & s' & -> & _)
  end.
  - unfold SwiftInspector.other_containers. settle.
  - auto.
  - intros e. now apply returns_print.
  - eauto.
Qed.

(** X7.  [check_for_hidden_data] never raises: whether the requests
    succeed or fail, with whatever exception, and whatever the headers
    hold, it returns normally. *)
Theorem hidden_data_check_never_raises
    (St : Type)
    (head_account : St -> (exn + Headers) * St)
    (head_container : string -> St -> (exn + Headers) * St)
    (get_container : string -> Query -> St -> (exn + list Obj.t) * St)
    (get_account : St -> (exn + list Container.t) * St)
    (container_name : string) (s : St) :
  fst (fst (SwiftInspector.check_for_hidden_data
              head_account head_container get_container get_account
              container_name s)) = Ret tt.
Proof.
  destruct (check_for_hidden_data_returns head_account head_container
              get_container get_account container_name s) as (out & s' & ->).
  reflexivity.
Qed.

(** ** The whole of [check-all-containers.py] *)

Lemma check_all_containers_totals {St : Type}
    (head_account : St -> (exn + Headers) * St)
    (head_container : string -> St -> (exn + Headers) * St)
    (get_container : string -> Query -> St -> (exn + list Obj.t) * St)
    (get_account : St -> (exn + list Container.t) * St)
    (s s1 s2 : St) (info : Headers) (reported : Z) (containers : list Container.t) :
  head_account s = (inr info, s1) ->
  Design.header_value "x-account-bytes-used" info = Some reported ->
  get_account s1 = (inr containers, s2) ->
  Design.in_float_range reported GiB ->
  Forall (fun c => Design.in_float_range (Container.bytes c) GiB) containers ->
  Design.in_float_range (Design.total (map Container.bytes containers)) GiB ->
  Design.in_float_range
    (reported - Design.total (map Container.bytes containers)) GiB ->
  exists before s3,
    CheckAllContainers.check_all_containers
      head_account head_container get_container get_account s
    = (Ret tt,
       before ++
       [text "";
        Print "Calculated total size: {:,} bytes ({:.3f} GB)"
          [Int (Design.total (map Container.bytes containers));
           Quot (Design.total (map Container.bytes containers)) GiB];
        Print "Account reported size: {:,} bytes ({:.3f} GB)"
          [Int reported; Quot reported GiB]]
       ++ snd (fst (CheckAllContainers.verdict
                      (Design.total (map Container.bytes containers)) reported s3)),
       s3).
Proof.
  intros Hacc Hval Hcs Hfr Hfc Hft Hfd.
  unfold CheckAllContainers.check_all_containers.
  repeat rewrite run_print_then. rewrite run_call_then, Hacc.
  repeat rewrite run_print_then. rewrite run_int_header_then, Hval.
  rewrite (run_div_then _ _ _ _ Hfr).
  rewrite run_print_then, run_call_then, Hcs.
  repeat rewrite run_print_then. rewrite run_bind.
  destruct (containers_loop_run head_container get_container containers Hfc 0 s2)
    as (out & s3 & ->).
  rewrite Z.add_0_l.
  set (total := Design.total (map Container.bytes containers)) in *.
  rewrite (run_div_then _ _ _ _ Hft).
  repeat rewrite run_print_then. rewrite run_int_header_then, Hval.
  rewrite (run_div_then _ _ _ _ Hfr).
  rewrite run_print_then.
  assert (Hv : CheckAllContainers.verdict total reported s3
               = (Ret tt, snd (fst (CheckAllContainers.verdict total reported s3)), s3)).
  { unfold CheckAllContainers.verdict.
    destruct (Z.abs (total - reported) >? 1000); [|reflexivity].
    rewrite (run_div_then _ _ _ _ Hfd). reflexivity. }
  rewrite Hv. cbn [snd fst].
  match goal with
  | |- exists before s0,
        (_, ?a :: ?b :: ?c :: ?d :: ?e :: ?f :: ?g :: ?h :: ?i
            :: out ++ _, _) = _ =>
      exists ([a; b; c; d; e; f; g; h; i] ++ out), s3
  end.
  rewrite <- !app_assoc. reflexivity.
Qed.

(** X8.  Once rclone has shown the configuration, the account has
    answered and its header is a number, and provided the sizes the
    script shows in GB (the reported total, the size of each container,
    their sum and the difference) are within the range of a float, the
    script returns normally whatever happens while the details of the
    containers are read: a failure there is printed and the loop goes
    on.  The total it calculates is the sum of the sizes in the account
    listing, and its last lines are that total, the reported size and
    the verdict on the two. *)
Theorem script_totals_survive_container_failures
    (St : Type) (subprocess_run : Subprocess St)
    (Connection : Rclone.AuthConfig -> Swift.Conn St)
    (s s0 s1 s2 : St) (stdout : string) (info : Headers) (reported : Z)
    (containers : list Container.t) :
  let conn := Connection (Rclone.auth_config_of (Rclone.parse_config stdout)) in
  subprocess_run Rclone.config_show [] true s = (inr stdout, s0) ->
  Swift.head_account conn s0 = (inr info, s1) ->
  Design.header_value "x-account-bytes-used" info = Some reported ->
  Swift.get_account conn s1 = (inr containers, s2) ->
  Design.in_float_range reported GiB ->
  Forall (fun c => Design.in_float_range (Container.bytes c) GiB) containers ->
  Design.in_float_range (Design.total (map Container.bytes containers)) GiB ->
  Design.in_float_range
    (reported - Design.total (map Container.bytes containers)) GiB ->
  exists before s3,
    CheckAllContainersScript.check_all_containers subprocess_run Connection s
    = (Ret tt,
       before ++
       [text "";
        Print "Calculated total size: {:,} bytes ({:.3f} GB)"
          [Int (Design.total (map Container.bytes containers));
           Quot (Design.total (map Container.bytes containers)) GiB];
        Print "Account reported size: {:,} bytes ({:.3f} GB)"
          [Int reported; Quot reported GiB]]
       ++ snd (fst (CheckAllContainers.verdict
                      (Design.total (map Container.bytes containers)) reported s3)),
       s3).
Proof.
  intros conn Hrc Hacc Hval Hcs Hfr Hfc Hft Hfd.
  unfold CheckAllContainersScript.check_all_containers.
  rewrite run_bind. unfold CheckAllContainersScript.load_rclone_auth.
  rewrite Hrc. fold conn.
  destruct (check_all_containers_totals
              (Swift.head_account conn) (Swift.head_container conn)
              (Swift.get_container conn) (Swift.get_account conn)
              s0 s1 s2 info reported containers Hacc Hval Hcs Hfr Hfc Hft Hfd)
    as (before & s3 & ->).
  exists before, s3. reflexivity.
Qed.

Lemma script_totals_survive_container_failures_witness :
  exists before s3,
    CheckAllContainersScript.check_all_containers
      World.rclone_ok World.details_fail_conn tt
    = (Ret tt,
       before ++
       [text "";
        Print "Calculated total size: {:,} bytes ({:.3f} GB)"
          [Int (Design.total (map Container.bytes
                                [Container.mk "mattermost-backups" 3 499500;
                                 Container.mk "mattermost-archive" 40 250000]));
           Quot (Design.total (map Container.bytes
                                 [Container.mk "mattermost-backups" 3 499500;
                                  Container.mk "mattermost-archive" 40 250000])) GiB];
        Print "Account reported size: {:,} bytes ({:.3f} GB)"
          [Int 750000; Quot 750000 GiB]]
       ++ snd (fst (CheckAllContainers.verdict
                      (Design.total (map Container.bytes
                                       [Container.mk "mattermost-backups" 3 499500;
                                        Container.mk "mattermost-archive" 40 250000]))
                      750000 s3)),
       s3).
Proof.
  apply (script_totals_survive_container_failures unit
           World.rclone_ok World.details_fail_conn tt tt tt tt
           (Props.render World.config) (Scenario.account_reporting "750000")
           750000
           [Container.mk "mattermost-backups" 3 499500;
            Container.mk "mattermost-archive" 40 250000]);
    try reflexivity.
  repeat constructor.
Defined.

(** ** The session of the inspector *)







Lemma connect_swift_run {St : Type}
    (Connection : Rclone.AuthConfig -> Swift.Conn St)
    (auth_config : Rclone.AuthConfig) (s : St) :
  exists out,
    SwiftInspectorSession.connect_swift Connection auth_config s
    = match Swift.head_account (Connection auth_config) s with
      | (inr _, s') => (Ret true, out, s')
      | (inl _, s') => (Ret false, out, s')
      end.
Proof.
  unfold SwiftInspectorSession.connect_swift, try_except. rewrite run_call_then.
  destruct (Swift.head_account (Connection auth_config) s) as [[e|info] s'].
  - destruct e; cbn; eauto.
  - cbn. eauto.
Qed.

(** X9.  When rclone cannot show the configuration, or when it can and
    the account does not answer, [main] exits with status 1 at once: the
    world is left in the state after the call that failed, so that no
    further request has been made. *)
Theorem main_stops_at_the_first_setup_failure
    (St : Type) (subprocess_run : Subprocess St)
    (Connection : Rclone.AuthConfig -> Swift.Conn St)
    (details : bool) (container : string) (fuel : nat) (s s' : St) :
  ((exists e, subprocess_run Rclone.config_show [] true s = (inl e, s')) \/
   (exists stdout s1 e,
       subprocess_run Rclone.config_show [] true s = (inr stdout, s1) /\
       Swift.head_account
         (Connection (Rclone.auth_config_of (Rclone.parse_config stdout))) s1
       = (inl e, s'))) ->
  exists out,
    SwiftInspectorSession.main subprocess_run Connection details container fuel s
    = (Ret 1, out, s').
Proof.
  intros [(e & Hrc) | (stdout & s1 & e & Hrc & Hacc)];
    unfold SwiftInspectorSession.main, try_except,
      SwiftInspectorSession.run_full_investigation;
    rewrite run_bind; repeat rewrite run_print_then; rewrite run_bind;
    unfold SwiftInspectorSession.load_rclone_config; rewrite Hrc.
  - destruct e; cbn; eauto.
  - rewrite run_bind.
    destruct (connect_swift_run Connection
                (Rclone.auth_config_of (Rclone.parse_config stdout)) s1)
      as [out Hc].
    rewrite Hacc in Hc. rewrite Hc. cbn. eauto.
Qed.

Lemma main_stops_at_the_first_setup_failure_witness :
  exists out,
    SwiftInspectorSession.main World.rclone_missing World.three_conn
      false "mattermost-backups" 4 tt
    = (Ret 1, out, tt).
Proof.
  apply (main_stops_at_the_first_setup_failure unit World.rclone_missing
           World.three_conn false "mattermost-backups" 4 tt tt).
  left. eexists. reflexivity.
Defined.



Example exit_status_zero_without_any_listing :
  fst (fst (SwiftInspectorSession.main World.rclone_ok World.failing_conn
              false "mattermost-backups" 4 tt)) = Ret 0.
Proof. vm_compute. reflexivity. Qed.

Example exit_status_one_for_an_oversized_object :
  let run :=
    SwiftInspectorSession.main World.rclone_ok World.oversized_conn
      false "mattermost-backups" 4 tt in
  fst (fst run) = Ret 1 /\
  last (snd (fst run)) (text "")
  = Print "Unexpected error: {}"
      [Str "integer division result too large for a float"].
Proof. split; vm_compute; reflexivity. Qed.

(** ** The whole of [deep-swift-scan.py] *)

Section DeepScan.
Context {St : Type}.
Variable subprocess_run : Subprocess St.
Variable conn : Swift.Conn St.
Variable container_name : string.

Lemma standard_listing_returns (objects : option (list Obj.t)) :
  Props.returns (fun _ => True)
    (DeepContainerScan.standard_listing conn container_name objects).
Proof.
  unfold DeepContainerScan.standard_listing.
  do 2 apply returns_print_then.
  apply returns_try_any; [settle|auto|].
  intros e. apply returns_print_then. now apply returns_ret.
Qed.

Lemma query_listing_returns (objects : option (list Obj.t)) :
  Props.returns (fun _ => True)
    (DeepContainerScan.query_listing conn container_name objects).
Proof.
  unfold DeepContainerScan.query_listing.
  do 2 apply returns_print_then.
  apply returns_try_any; [settle|auto|].
  intros e. apply returns_print_then. now apply returns_ret.
Qed.

(** One round of the loop over the prefixes prints what the loop of the
    claim C8 prints, and binds [objects] when its request succeeds. *)
Lemma probe_tracks_objects (p : string) (objects : option (list Obj.t)) (s : St) :
  DeepContainerScan.probe conn container_name p objects s =
  let '(r, s1) :=
    Swift.get_container conn container_name (mkQuery None None (Some p) true) s in
  (Ret (match r with inr listing => Some listing | inl _ => objects end),
   Design.probe_lines (p, r), s1).
Proof.
  unfold DeepContainerScan.probe, try_except. rewrite run_call_then.
  destruct (Swift.get_container conn container_name _ s) as [[e|listing] s1].
  - reflexivity.
  - destruct listing as [|o listing]; [reflexivity|].
    rewrite run_bind, run_print_then, run_bind, for_each_print.
    cbn [Design.probe_lines].
    destruct (3 <? List.length (o :: listing))%nat; cbn; now rewrite ?app_nil_r.
Qed.

Lemma probe_returns (p : string) (objects : option (list Obj.t)) :
  Props.returns (fun _ => True)
    (DeepContainerScan.probe conn container_name p objects).
Proof.
  intros s. rewrite probe_tracks_objects.
  destruct (Swift.get_container conn container_name _ s) as [r s1]. eauto.
Qed.

Lemma probe_all_returns (prefixes : list string) :
  forall objects,
    Props.returns (fun _ => True)
      (DeepContainerScan.probe_all conn container_name prefixes objects).
Proof.
  induction prefixes as [|p prefixes IH]; intros objects;
    cbn [DeepContainerScan.probe_all].
  - now apply returns_ret.
  - eapply returns_bind; [apply probe_returns|]. intros o _. apply IH.
Qed.


Lemma version_loop_returns (vcs : list Container.t) :
  forall objects,
    Props.returns (fun _ => True)
      (DeepContainerScan.version_loop conn vcs objects).
Proof.
  induction vcs as [|vc vcs IH]; intros objects;
    cbn [DeepContainerScan.version_loop].
  - now apply returns_ret.
  - eapply returns_bind with (P := fun _ => True); [|intros o _; apply IH].
    apply returns_try_any; [settle|auto|].
    intros e. apply returns_print_then. now apply returns_ret.
Qed.

Lemma version_check_returns (objects : option (list Obj.t)) :
  Props.returns (fun _ => True)
    (DeepContainerScan.version_check conn objects).
Proof.
  unfold DeepContainerScan.version_check.
  do 2 apply returns_print_then.
  apply returns_try_any; [|auto|].
  - apply settles_bind; [apply settles_call|]. intros containers.
    destruct (filter DeepContainerScan.is_version_container containers).
    + settle.
    + apply settles_bind; [apply settles_print|]. intros _.
      eapply returns_settles. apply version_loop_returns.
  - intros e. apply returns_print_then. now apply returns_ret.
Qed.


Lemma cli_comparison_returns (auth_config : Rclone.AuthConfig) :
  Props.returns (fun _ => True)
    (DeepContainerScan.cli_comparison subprocess_run container_name auth_config).
Proof.
  intros s. unfold DeepContainerScan.cli_comparison.
  destruct (subprocess_run ["swift"; "stat"; container_name] _ false s)
    as [[e|stat_out] s1]; [eauto|].
  destruct (subprocess_run ["swift"; "list"; container_name; "--long"] _ false s1)
    as [[e|list_out] s2]; eauto.
Qed.

Lemma scan_summary_settles (info : Headers) (objects : option (list Obj.t)) :
  Props.settles (St := St) (DeepContainerScan.scan_summary info objects).
Proof. unfold DeepContainerScan.scan_summary. settle. Qed.

Lemma investigation_returns (auth_config : Rclone.AuthConfig) :
  Props.returns (fun _ => True)
    (DeepContainerScan.investigation subprocess_run conn container_name
       auth_config).
Proof.
  unfold DeepContainerScan.investigation.
  apply returns_try_any; [|auto|intros e; now apply returns_print].
  do 5 (apply settles_bind; [apply settles_print|intros _]).
  apply settles_bind; [apply settles_call|intros info].
  apply settles_bind;
    [apply settles_for_each; intros h; apply settles_print|intros _].
  do 5 (apply settles_bind; [apply settles_print|intros _]).
  apply settles_bind;
    [eapply returns_settles; apply standard_listing_returns|intros o1].
  apply settles_bind;
    [eapply returns_settles; apply query_listing_returns|intros o2].
  apply settles_bind.
  { unfold DeepContainerScan.prefix_listings.
    do 2 (apply settles_bind; [apply settles_print|intros _]).
    eapply returns_settles. apply probe_all_returns. }
  intros o3.
  apply settles_bind;
    [eapply returns_settles; apply version_check_returns|intros o4].
  apply settles_bind;
    [eapply returns_settles; apply cli_comparison_returns|intros _].
  apply scan_summary_settles.
Qed.

End DeepScan.

(** X11.  [deep_container_scan] never raises: whatever rclone, the
    [swift] command and the connection do, the scan returns normally. *)
Theorem deep_scan_never_raises
    (St : Type) (subprocess_run : Subprocess St)
    (Connection : Rclone.AuthConfig -> Swift.Conn St)
    (container_name : string) (s : St) :
  fst (fst (DeepContainerScan.deep_container_scan subprocess_run Connection
              container_name s)) = Ret tt.
Proof.
  unfold DeepContainerScan.deep_container_scan. rewrite run_bind.
  unfold DeepContainerScan.load_rclone_auth.
  destruct (subprocess_run Rclone.config_show [] true s) as [[e|stdout] s1].
  - reflexivity.
  - destruct (investigation_returns subprocess_run
                (Connection (Rclone.auth_config_of (Rclone.parse_config stdout)))
                container_name
                (Rclone.auth_config_of (Rclone.parse_config stdout)) s1)
      as ([] & out & s2 & -> & _).
    reflexivity.
Qed.





(** ** The version containers *)

Lemma endswith_app (s suffix : string) :
  PyStr.endswith s suffix = true -> exists before, s = (before ++ suffix)%string.
Proof.
  induction s as [|c s IH]; cbn [PyStr.endswith]; intros H.
  - apply orb_true_iff in H as [H|H]; [|discriminate].
    apply String.eqb_eq in H. subst. now exists EmptyString.
  - apply orb_true_iff in H as [H|H].
    + apply String.eqb_eq in H. exists EmptyString. now rewrite <- H.
    + destruct (IH H) as [before ->]. now exists (String c before).
Qed.

Lemma lower_app (a b : string) :
  PyStr.lower (a ++ b) = (PyStr.lower a ++ PyStr.lower b)%string.
Proof. induction a as [|c a IH]; cbn; [reflexivity|now rewrite IH]. Qed.

Lemma contains_app_r (sub a b : string) :
  PyStr.contains sub b = true -> PyStr.contains sub (a ++ b) = true.
Proof.
  intros H. induction a as [|c a IH]; [exact H|].
  change (String c a ++ b)%string with (String c (a ++ b)).
  cbn [PyStr.contains]. rewrite IH. apply orb_true_r.
Qed.

(** X13.  The second test of the filter for version containers is dead:
    a name that ends with [_versions] has [version] in its lower-case
    form already, so the filter is the case-insensitive search for
    [version] alone. *)
Theorem version_filter_is_one_test (c : Container.t) :
  DeepContainerScan.is_version_container c
  = PyStr.contains "version" (PyStr.lower (Container.name c)).
Proof.
  unfold DeepContainerScan.is_version_container.
  destruct (PyStr.endswith (Container.name c) "_versions") eqn:E;
    [|apply orb_false_r].
  apply endswith_app in E as [before ->].
  rewrite lower_app, contains_app_r; reflexivity.
Qed.

(** ** A setting without a value *)

Lemma split_once_no_value (k : string) :
  Props.no_equals k = true -> PyStr.split_once " = " (k ++ " =") = None.
Proof.
  unfold Props.no_equals. induction k as [|c k IH]; intros H.
  - reflexivity.
  - cbn in H. apply andb_true_iff in H as [Hc Hk]. apply negb_true_iff in Hc.
    specialize (IH Hk).
    change (String c k ++ " =")%string with (String c (k ++ " =")).
    cbn [PyStr.split_once]. rewrite IH.
    assert (Hp : String.prefix " = " (String c (k ++ " =")) = false).
    { rewrite prefix_cons. destruct (ascii_dec " " c) as [_|_]; [|reflexivity].
      destruct k as [|d k].
      - reflexivity.
      - cbn in Hk. apply andb_true_iff in Hk as [Hd _].
        apply negb_true_iff in Hd. apply Ascii.eqb_neq in Hd.
        change (String d k ++ " =")%string with (String d (k ++ " =")).
        rewrite prefix_cons.
        destruct (ascii_dec "=" d); [congruence|reflexivity]. }
    rewrite Hp. reflexivity.
Qed.

Lemma contains_no_value (k : string) :
  Props.no_equals k = true -> PyStr.contains " = " (k ++ " =") = false.
Proof.
  intros H. destruct (PyStr.contains " = " (k ++ " =")) eqn:E; [|reflexivity].
  apply contains_split_once in E as [r E].
  rewrite (split_once_no_value k H) in E. discriminate.
Qed.

Lemma rstrip_app_blank (a b : string) :
  PyStr.rstrip b = EmptyString -> PyStr.rstrip (a ++ b) = PyStr.rstrip a.
Proof.
  intros Hb. induction a as [|c a IH]; cbn; [exact Hb|]. now rewrite IH.
Qed.

Lemma fold_left_snoc {A B : Type} (f : A -> B -> A) (l : list B) (b : B) (a : A) :
  fold_left f (l ++ [b]) a = f (fold_left f l a) b.
Proof. now rewrite fold_left_app. Qed.

(** X14.  A setting without a value on the last line of what rclone
    shows is lost: the text is stripped before it is split into lines,
    so the line ends with [=] and is no longer taken for a setting.  The
    configuration read is the one of the lines before it. *)
Theorem last_setting_without_value_is_lost
    (ls : list Props.config_line) (k : string) :
  ls <> [] ->
  Forall Props.well_formed ls ->
  Props.tidy k -> Props.no_equals k = true ->
  Rclone.parse_config
    (Props.render ls ++ String Py.newline "" ++ k ++ " = ")
  = Rclone.parse_config (Props.render ls).
Proof.
  intros Hne Hwf Hk Hnek.
  assert (Hlines : map Props.line_text ls <> []) by (destruct ls; [congruence|discriminate]).
  assert (Htrim : Forall Props.trimmed (map Props.line_text ls)).
  { apply Forall_map. eapply Forall_impl; [|exact Hwf].
    intros x. apply line_text_trimmed. }
  assert (Hnl : Forall (fun l => Props.no_newline l = true) (map Props.line_text ls)).
  { apply Forall_map. eapply Forall_impl; [|exact Hwf].
    intros x. apply line_text_no_newline. }
  pose proof (join_trimmed _ Hlines Htrim) as Hj. fold (Props.render ls) in Hj.
  destruct Hj as (Hj0 & Hjl & Hjr).
  assert (Hstrip : PyStr.strip (Props.render ls ++ String Py.newline "" ++ k ++ " = ")
                   = (Props.render ls ++ String Py.newline "" ++ k ++ " =")%string).
  { unfold PyStr.strip. rewrite lstrip_app by assumption.
    replace (Props.render ls ++ String Py.newline "" ++ k ++ " = ")%string
      with ((Props.render ls ++ String Py.newline "" ++ k ++ " =") ++ " ")%string
      by (rewrite !append_assoc; reflexivity).
    rewrite rstrip_app_blank by reflexivity.
    replace (Props.render ls ++ String Py.newline "" ++ k ++ " =")%string
      with ((Props.render ls ++ String Py.newline "" ++ k) ++ " =")%string
      by (rewrite !append_assoc; reflexivity).
    rewrite rstrip_app; [reflexivity|discriminate]. }
  unfold Rclone.parse_config at 1. rewrite Hstrip.
  assert (Hsplit : Py.split Py.newline
                     (Props.render ls ++ String Py.newline "" ++ k ++ " =")
                   = map Props.line_text ls ++ [(k ++ " =")%string]).
  { unfold Props.render.
    replace (PyStr.join (String Py.newline "") (map Props.line_text ls)
             ++ String Py.newline "" ++ k ++ " =")%string
      with (PyStr.join (String Py.newline "")
              (map Props.line_text ls ++ [(k ++ " =")%string])).
    - apply split_join.
      + destruct (map Props.line_text ls); discriminate.
      + apply Forall_app. split; [exact Hnl|]. constructor; [|constructor].
        destruct Hk as (_ & _ & _ & Hknl). rewrite no_newline_app, Hknl.
        reflexivity.
    - generalize (map Props.line_text ls) Hlines. clear.
      induction l as [|a l IH]; [congruence|]. intros _.
      destruct l as [|b l]; [reflexivity|].
      change (PyStr.join ?sep ((a :: b :: l) ++ ?x))
        with (a ++ sep ++ PyStr.join sep ((b :: l) ++ x))%string.
      rewrite IH by discriminate.
      change (PyStr.join ?sep (a :: b :: l))
        with (a ++ sep ++ PyStr.join sep (b :: l))%string.
      now rewrite !append_assoc. }
  rewrite Hsplit, fold_left_snoc. unfold Rclone.parse_line at 1.
  rewrite (contains_no_value k Hnek).
  unfold Rclone.parse_config, PyStr.strip. rewrite Hjl, Hjr.
  unfold Props.render. now rewrite split_join.
Qed.

Lemma last_setting_without_value_is_lost_witness :
  Rclone.parse_config
    (Props.render World.config ++ String Py.newline "" ++ "domain" ++ " = ")
  = Rclone.parse_config (Props.render World.config).
Proof.
  apply (last_setting_without_value_is_lost World.config "domain").
  - discriminate.
  - exact config_well_formed.
  - repeat split. discriminate.
  - reflexivity.
Defined.

Example domain_without_value :
  Rclone.user_domain_name
    (Rclone.os_options
       (Rclone.auth_config_of
          (Rclone.parse_config
             (Props.render World.config ++ String Py.newline "" ++ "domain = "))))
  = "default" /\
  Rclone.user_domain_name
    (Rclone.os_options
       (Rclone.auth_config_of
          (Rclone.parse_config
             ("domain = " ++ String Py.newline "" ++ Props.render World.config))))
  = "".
Proof. split; reflexivity. Qed.

(** The loop over the prefixes that tracks [objects] prints and requests
    what the loop of C8 does. *)
Lemma probe_all_agrees {St : Type} (conn : Swift.Conn St)
    (container_name : string) (prefixes : list string) :
  forall (objects : option (list Obj.t)) (s : St),
    let '(_, out, s') :=
      DeepContainerScan.probe_all conn container_name prefixes objects s in
    DeepSwiftScan.probe_all (Swift.get_container conn) container_name prefixes s
    = (Ret tt, out, s').
Proof.
  induction prefixes as [|p prefixes IH]; intros objects s.
  - reflexivity.
  - cbn [DeepContainerScan.probe_all]. unfold DeepSwiftScan.probe_all.
    cbn [for_each]. rewrite !run_bind, probe_tracks_objects, probe_run.
    destruct (Swift.get_container conn container_name _ s) as [r s1].
    specialize (IH (match r with inr l => Some l | inl _ => objects end) s1).
    destruct (DeepContainerScan.probe_all conn container_name prefixes _ s1)
      as [[r' out'] s2].
    unfold DeepSwiftScan.probe_all in IH. rewrite IH. reflexivity.
Qed.


